(** * Inventory reconciliation: warehouses, stock positions and deliveries

    A shallow embedding of the factory application's persistence layer
    (models/sql_.py, repositories/sql_.py), of its request models
    (models/requests_.py, models/responses_.py) and of the two handlers that
    touch the capacity of a warehouse: [delivery.create]
    (routers/delivery.py) and [warehouses.update_warehouse]
    (routers/warehouses.py).

    The relational store and the ORM session are modelled explicitly:
    - the store is a record of tables ([Database]);
    - a [Session] holds the committed store, the state of the open
      transaction, the unit of work not flushed yet, and the relationship
      collections already loaded on the instances of its identity map;
    - handlers and repositories are computations in a state-and-exception
      monad [M] over the session, so that several repositories share one
      session exactly as they share one Python object. *)

From Stdlib Require Import ZArith NArith List String Ascii Bool Lia Sorted Permutation.
Import ListNotations.
Open Scope string_scope.
Open Scope list_scope.
Open Scope Z_scope.

(** ** Entities (models/sql_.py) *)

(** [uuid.UUID]: a 128-bit identifier, kept as a natural number. *)
Definition uuid := N.
Bind Scope N_scope with uuid.

Module Material.
Record t := mk {
  id : uuid;
  created_at : Z;
  name : string;
  slug : string;
  quantity_unit : string }.
End Material.

Module StockPosition.
Record t := mk {
  id : uuid;
  created_at : Z;
  material_id : uuid;
  warehouse_id : uuid;
  quantity : Z }.

Definition with_quantity (q : Z) (self : t) : t :=
  mk (id self) (created_at self) (material_id self) (warehouse_id self) q.

Definition with_created_at (c : Z) (self : t) : t :=
  mk (id self) c (material_id self) (warehouse_id self) (quantity self).
End StockPosition.

Module Warehouse.
Record t := mk {
  id : uuid;
  created_at : Z;
  name : string;
  slug : string;
  location : string;
  max_capacity : Z }.

Definition with_location (l : string) (self : t) : t :=
  mk (id self) (created_at self) (name self) (slug self) l (max_capacity self).

Definition with_max_capacity (m : Z) (self : t) : t :=
  mk (id self) (created_at self) (name self) (slug self) (location self) m.

Definition with_created_at (c : Z) (self : t) : t :=
  mk (id self) c (name self) (slug self) (location self) (max_capacity self).

(** [sum(s.quantity for s in stock)] *)
Definition total (stock : list StockPosition.t) : Z :=
  fold_right (fun s acc => StockPosition.quantity s + acc) 0 stock.

(** The computed field [Warehouse.capacity].  The relationship attribute
    [self.stock] belongs to the session, so its value is an argument:
    [None] is Python's [None], [Some l] the loaded collection. *)
Definition capacity (self : t) (stock : option (list StockPosition.t)) : Z :=
  match stock with
  | None => max_capacity self
  | Some l => max_capacity self - total l
  end.
End Warehouse.

(** [camel_to_lower_with_spaces], on ASCII class names.

    [str.isupper] and [str.lower] of one character, for the characters
    below 128 only: there the upper-case letters are 'A'..'Z' and [lower]
    adds 32 to them.  Python's own methods follow the Unicode tables, so
    these two definitions say nothing about a character from 128 on; every
    statement about them below is restricted to [isascii] strings. *)
Definition isupper (c : ascii) : bool :=
  (Nat.leb 65 (nat_of_ascii c) && Nat.leb (nat_of_ascii c) 90)%bool.

Definition lower (c : ascii) : ascii :=
  if isupper c then ascii_of_nat (nat_of_ascii c + 32)%nat else c.

(** [str.isascii] *)
Fixpoint isascii (s : string) : bool :=
  match s with
  | EmptyString => true
  | String c rest => (Nat.ltb (nat_of_ascii c) 128 && isascii rest)%bool
  end.

Fixpoint camel_from (i : nat) (s : string) : string :=
  match s with
  | EmptyString => EmptyString
  | String char rest =>
      let tail := String (lower char) (camel_from (S i) rest) in
      if (isupper char && negb (Nat.eqb i 0))%bool then String " " tail else tail
  end.

Definition camel_to_lower_with_spaces (s : string) : string := camel_from 0 s.

(** ** The relational store *)

(** The three tables the handlers below read and write, the store's
    foreign-key switch (SQLite enforces foreign keys only when the pragma
    is on; other stores always do) and the server clock behind
    [func.now()]. *)
Record Database := mkDatabase {
  materials : list Material.t;
  warehouses : list Warehouse.t;
  stock_positions : list StockPosition.t;
  foreign_keys : bool;
  now : Z }.

Definition stock_of (db : Database) (warehouse_id : uuid) : list StockPosition.t :=
  filter (fun s => N.eqb (StockPosition.warehouse_id s) warehouse_id) (stock_positions db).

(** Σ(stock.quantity) over the rows of one warehouse. *)
Definition stock_sum (db : Database) (warehouse_id : uuid) : Z :=
  Warehouse.total (stock_of db warehouse_id).

Definition has_id {T} (pk : T -> uuid) (i : uuid) (rows : list T) : bool :=
  existsb (fun r => N.eqb (pk r) i) rows.

Definition taken {T} (col : T -> string) (pk : T -> uuid) (v : string) (self : uuid)
  (rows : list T) : bool :=
  existsb (fun r => (String.eqb (col r) v && negb (N.eqb (pk r) self))%bool) rows.

(** What the store says when a written row breaks a declared constraint.
    [old] is the stored row on UPDATE ([None] on INSERT): an UPDATE sets
    only the columns that changed, so only those are checked. *)
Definition changed {T V} (eqb : V -> V -> bool) (col : T -> V) (old : option T) (new : T) : bool :=
  match old with
  | None => true
  | Some o => negb (eqb (col o) (col new))
  end.

Definition first_violation (checks : list (bool * string)) : option string :=
  match filter (fun c => fst c) checks with
  | [] => None
  | c :: _ => Some (snd c)
  end.

Definition StockPosition_violation (db : Database) (old : option StockPosition.t)
  (new : StockPosition.t) : option string :=
  first_violation
    [ (foreign_keys db && changed N.eqb StockPosition.material_id old new
         && negb (has_id Material.id (StockPosition.material_id new) (materials db)),
       "FOREIGN KEY constraint failed");
      (foreign_keys db && changed N.eqb StockPosition.warehouse_id old new
         && negb (has_id Warehouse.id (StockPosition.warehouse_id new) (warehouses db)),
       "FOREIGN KEY constraint failed") ]%bool.

Definition Warehouse_violation (db : Database) (old : option Warehouse.t)
  (new : Warehouse.t) : option string :=
  first_violation
    [ (changed String.eqb Warehouse.name old new
         && taken Warehouse.name Warehouse.id (Warehouse.name new) (Warehouse.id new) (warehouses db),
       "UNIQUE constraint failed: warehouse.name");
      (changed String.eqb Warehouse.slug old new
         && taken Warehouse.slug Warehouse.id (Warehouse.slug new) (Warehouse.id new) (warehouses db),
       "UNIQUE constraint failed: warehouse.slug");
      (changed String.eqb Warehouse.location old new
         && taken Warehouse.location Warehouse.id (Warehouse.location new) (Warehouse.id new)
              (warehouses db),
       "UNIQUE constraint failed: warehouse.location");
      (changed String.eqb Warehouse.name old new
         && negb (Nat.ltb 1 (String.length (Warehouse.name new))),
       "CHECK constraint failed: name_at_least_2_characters");
      (changed String.eqb Warehouse.slug old new
         && negb (Nat.ltb 0 (String.length (Warehouse.slug new))),
       "CHECK constraint failed: slug_not_empty") ]%bool.

Definition Material_violation (db : Database) (old : option Material.t)
  (new : Material.t) : option string :=
  first_violation
    [ (changed String.eqb Material.name old new
         && taken Material.name Material.id (Material.name new) (Material.id new) (materials db),
       "UNIQUE constraint failed: material.name");
      (changed String.eqb Material.slug old new
         && taken Material.slug Material.id (Material.slug new) (Material.id new) (materials db),
       "UNIQUE constraint failed: material.slug");
      (changed String.eqb Material.name old new
         && negb (Nat.ltb 1 (String.length (Material.name new))),
       "CHECK constraint failed: name_at_least_2_characters");
      (changed String.eqb Material.slug old new
         && negb (Nat.ltb 0 (String.length (Material.slug new))),
       "CHECK constraint failed: slug_not_empty") ]%bool.

(** A mapped class: what the generic repository needs to know about the
    model it is instantiated with. *)
Class Model (T : Type) := {
  __name__ : string;
  rows : Database -> list T;
  with_rows : list T -> Database -> Database;
  pk : T -> uuid;
  slug_attr : option (T -> string);
  created : T -> Z;
  stamp : Z -> T -> T;
  violation : Database -> option T -> T -> option string;
  cascade : uuid -> Database -> Database }.

Definition remove_stock (p : StockPosition.t -> bool) (db : Database) : Database :=
  mkDatabase (materials db) (warehouses db)
    (filter (fun s => negb (p s)) (stock_positions db)) (foreign_keys db) (now db).

#[export] Instance Material_Model : Model Material.t := {
  __name__ := "Material";
  rows := materials;
  with_rows l db :=
    mkDatabase l (warehouses db) (stock_positions db) (foreign_keys db) (now db);
  pk := Material.id;
  slug_attr := Some Material.slug;
  created := Material.created_at;
  stamp c m :=
    Material.mk (Material.id m) c (Material.name m) (Material.slug m) (Material.quantity_unit m);
  violation := Material_violation;
  cascade i := remove_stock (fun s => N.eqb (StockPosition.material_id s) i) }.

#[export] Instance Warehouse_Model : Model Warehouse.t := {
  __name__ := "Warehouse";
  rows := warehouses;
  with_rows l db :=
    mkDatabase (materials db) l (stock_positions db) (foreign_keys db) (now db);
  pk := Warehouse.id;
  slug_attr := Some Warehouse.slug;
  created := Warehouse.created_at;
  stamp := Warehouse.with_created_at;
  violation := Warehouse_violation;
  cascade i := remove_stock (fun s => N.eqb (StockPosition.warehouse_id s) i) }.

#[export] Instance StockPosition_Model : Model StockPosition.t := {
  __name__ := "StockPosition";
  rows := stock_positions;
  with_rows l db :=
    mkDatabase (materials db) (warehouses db) l (foreign_keys db) (now db);
  pk := StockPosition.id;
  slug_attr := None;
  created := StockPosition.created_at;
  stamp := StockPosition.with_created_at;
  violation := StockPosition_violation;
  cascade _ db := db }.

(** One INSERT or UPDATE, as the unit of work emits it for an added
    instance: UPDATE by primary key when the row is there (a persistent
    instance), INSERT with the server defaults otherwise.

    Scope: the instances the handlers add.  A new instance is built
    without [created_at], so the INSERT takes [func.now()] from the store,
    and under a [uuid4] no row has; an instance added again is one the
    session loaded.  For a new instance that carries a [created_at] of its
    own, or the primary key of a stored row, the store would keep that
    time, or refuse the INSERT: neither is modelled here. *)
Definition write {T} `{Model T} (record : T) (db : Database) : Database + string :=
  match filter (fun r => N.eqb (pk r) (pk record)) (rows db) with
  | [] =>
      match violation db None record with
      | Some msg => inr msg
      | None => inl (with_rows (rows db ++ [stamp (now db) record]) db)
      end
  | old :: _ =>
      match violation db (Some old) record with
      | Some msg => inr msg
      | None =>
          inl (with_rows
                 (map (fun r => if N.eqb (pk r) (pk record) then record else r) (rows db)) db)
      end
  end.

(** One DELETE, with the delete cascades declared on the relationships. *)
Definition erase {T} `{Model T} (record : T) (db : Database) : Database :=
  cascade (pk record)
    (with_rows (filter (fun r => negb (N.eqb (pk r) (pk record))) (rows db)) db).

(** ** The ORM session *)

Variant entity :=
| AMaterial (m : Material.t)
| AWarehouse (w : Warehouse.t)
| AStockPosition (s : StockPosition.t).

(** What [Session.add] and [Session.delete] leave for the next flush. *)
Variant pending :=
| Added (e : entity)
| Deleted (e : entity).

Definition emit (p : pending) (db : Database) : Database + string :=
  match p with
  | Added (AMaterial m) => write m db
  | Added (AWarehouse w) => write w db
  | Added (AStockPosition s) => write s db
  | Deleted (AMaterial m) => inl (erase m db)
  | Deleted (AWarehouse w) => inl (erase w db)
  | Deleted (AStockPosition s) => inl (erase s db)
  end.

Fixpoint emit_all (ps : list pending) (db : Database) : Database + string :=
  match ps with
  | [] => inl db
  | p :: rest =>
      match emit p db with
      | inl db' => emit_all rest db'
      | inr msg => inr msg
      end
  end.

(** - [committed]: the store as of the last commit;
    - [transaction]: the store as the open transaction sees it (everything
      flushed so far);
    - [unit_of_work]: instances added or deleted since the last flush;
    - [loaded_stock]: for each [Warehouse] instance of the identity map
      whose [stock] relationship has been loaded, the identities of the
      [StockPosition] instances in that collection.  A collection is loaded
      on first access and kept until the instance is expired by a commit
      or a rollback; a flush does not touch it, and setting the
      [warehouse_id] column of another instance does not add to it. *)
Record Session := mkSession {
  committed : Database;
  transaction : Database;
  unit_of_work : list pending;
  loaded_stock : list (uuid * list uuid) }.

(** [Session(engine)] *)
Definition Session_open (db : Database) : Session := mkSession db db [] [].

Inductive exn :=
| RepositoryException (msg : string)
| NoResultFound
| MultipleResultsFound
| ObjectDeletedError
| IntegrityError (msg : string)
| HTTPException (status_code : Z) (detail : string).

(** [str(exc)] *)
Definition str (e : exn) : string :=
  match e with
  | RepositoryException msg => msg
  | NoResultFound => "No row was found when one was required"
  | MultipleResultsFound => "Multiple rows were found when exactly one was required"
  | ObjectDeletedError => "Instance has been deleted, or its row is otherwise not present."
  | IntegrityError msg => msg
  | HTTPException _ detail => detail
  end.

Inductive result (A : Type) :=
| Return (a : A)
| Raise (e : exn).
Arguments Return {A} a.
Arguments Raise {A} e.

(** Computations that read and write the session and may raise. *)
Definition M (A : Type) : Type := Session -> result A * Session.

Definition ret {A} (a : A) : M A := fun s => (Return a, s).

Definition raise {A} (e : exn) : M A := fun s => (Raise e, s).

Definition bindM {A B} (m : M A) (k : A -> M B) : M B :=
  fun s =>
    match m s with
    | (Return a, s') => k a s'
    | (Raise e, s') => (Raise e, s')
    end.

Notation "x <- m ;; k" := (bindM m (fun x => k))
  (at level 61, m at next level, right associativity).
Notation "m ;; k" := (bindM m (fun _ => k))
  (at level 61, right associativity).

(** [try: m  except <the exceptions h accepts>: handler]; an exception that
    [h] does not accept propagates. *)
Definition try_except {A} (m : M A) (h : exn -> option (M A)) : M A :=
  fun s =>
    match m s with
    | (Return a, s') => (Return a, s')
    | (Raise e, s') =>
        match h e with
        | Some handler => handler s'
        | None => (Raise e, s')
        end
    end.

(** The clause [except RepositoryException as exc: handler]. *)
Definition except_RepositoryException {A} (handler : exn -> M A) (e : exn) : option (M A) :=
  match e with
  | RepositoryException _ => Some (handler e)
  | _ => None
  end.

Fixpoint for_each {A} (l : list A) (body : A -> M unit) : M unit :=
  match l with
  | [] => ret tt
  | x :: rest => body x ;; for_each rest body
  end.

(** [session.rollback()]: the transaction is abandoned, the unit of work
    dropped, every instance expired. *)
Definition rollback : M unit :=
  fun s => (Return tt, mkSession (committed s) (committed s) [] []).

(** [session.flush()]: the unit of work is emitted in order.  When the
    store refuses a statement the transaction is rolled back and
    IntegrityError raised. *)
Definition flush : M unit :=
  fun s =>
    match emit_all (unit_of_work s) (transaction s) with
    | inl db => (Return tt, mkSession (committed s) db [] (loaded_stock s))
    | inr msg => (Raise (IntegrityError msg), mkSession (committed s) (committed s) [] [])
    end.

(** [session.commit()]: flush, make the transaction durable, expire every
    instance. *)
Definition commit : M unit :=
  flush ;;
  fun s => (Return tt, mkSession (transaction s) (transaction s) [] []).

(** [session.add(instance)] *)
Definition add (e : entity) : M unit :=
  fun s =>
    (Return tt,
     mkSession (committed s) (transaction s) (unit_of_work s ++ [Added e]) (loaded_stock s)).

(** [session.delete(instance)], for a persistent instance (one whose row
    is in the transaction); for an instance that was never stored
    SQLAlchemy raises InvalidRequestError, which is not modelled. *)
Definition delete_ (e : entity) : M unit :=
  fun s =>
    (Return tt,
     mkSession (committed s) (transaction s) (unit_of_work s ++ [Deleted e]) (loaded_stock s)).

(** [session.exec(select(model).where(...)).all()], preceded by the
    autoflush. *)
Definition exec {T} `{Model T} (where_ : T -> bool) : M (list T) :=
  flush ;;
  fun s => (Return (filter where_ (rows (transaction s))), s).

(** [.one()] *)
Definition one {T} (found : list T) : M T :=
  match found with
  | [] => raise NoResultFound
  | [r] => ret r
  | _ => raise MultipleResultsFound
  end.

Fixpoint assoc {V} (k : uuid) (l : list (uuid * V)) : option V :=
  match l with
  | [] => None
  | (k', v) :: rest => if N.eqb k' k then Some v else assoc k rest
  end.

(** Reading the relationship attribute [warehouse.stock]: a lazy load on
    first access, the collection already on the instance afterwards.  The
    members are the identity map's instances, whose attributes are those
    of the transaction's rows. *)
Definition Warehouse_stock (self : Warehouse.t) : M (list StockPosition.t) :=
  fun s =>
    match assoc (Warehouse.id self) (loaded_stock s) with
    | Some members =>
        (Return (filter (fun r => existsb (N.eqb (StockPosition.id r)) members)
                   (stock_positions (transaction s))), s)
    | None =>
        (found <- exec (fun r => N.eqb (StockPosition.warehouse_id r) (Warehouse.id self)) ;;
         fun s' =>
           (Return found,
            mkSession (committed s') (transaction s') (unit_of_work s')
              ((Warehouse.id self, map StockPosition.id found) :: loaded_stock s'))) s
    end.

(** [warehouse.capacity] on an instance attached to the session. *)
Definition Warehouse_capacity (self : Warehouse.t) : M Z :=
  stock <- Warehouse_stock self ;;
  ret (Warehouse.capacity self (Some stock)).

(** Attribute access on an instance expired by a commit or a rollback
    reloads its row by primary key. *)
Definition refresh {T} `{Model T} (record : T) : M T :=
  found <- exec (fun r => N.eqb (pk r) (pk record)) ;;
  match found with
  | [r] => ret r
  | _ => raise ObjectDeletedError
  end.

(** [uuid.uuid4()], the default of [DefaultMixin.id]: an identifier no row
    of the store carries (a collision of random 122-bit values is left
    out of the model). *)
Definition all_ids (db : Database) : list uuid :=
  map Material.id (materials db) ++ map Warehouse.id (warehouses db)
  ++ map StockPosition.id (stock_positions db).

Definition fresh_uuid (db : Database) : uuid :=
  N.succ (fold_right N.max 0%N (all_ids db)).

Definition uuid4 : M uuid := fun s => (Return (fresh_uuid (transaction s)), s).

(** ** Repositories (repositories/sql_.py) *)

(** The session of the request is the state of [M]; a repository holds a
    reference to it, or [None] before [use_session]. *)
Variant session_ref := request_session.

Module SQLRepository.
Record t (T : Type) := mk { _session : option session_ref }.
Arguments mk {T} _session.
Arguments _session {T} _.

Definition __init__ {T} : t T := mk None.

Definition use_session {T} (self : t T) (session : session_ref) : t T :=
  mk (Some session).

Definition _model_name {T} `{Model T} (self : t T) : string :=
  camel_to_lower_with_spaces __name__.

Definition not_initialized : exn :=
  RepositoryException "database session not initialized".

Definition not_found {T} `{Model T} (self : t T) : exn :=
  RepositoryException (String.append (_model_name self) " not found").

Definition on_NoResultFound {A} (handler : M A) (e : exn) : option (M A) :=
  match e with
  | NoResultFound => Some handler
  | _ => None
  end.

Definition find_by_id {T} `{Model T} (self : t T) (id : uuid) : M T :=
  match _session self with
  | None => raise not_initialized
  | Some _ =>
      try_except
        (found <- exec (fun r => N.eqb (pk r) id) ;; one found)
        (on_NoResultFound (raise (not_found self)))
  end.

Definition find_by_slug {T} `{Model T} (self : t T) (slug : string) : M T :=
  match _session self with
  | None => raise not_initialized
  | Some _ =>
      match slug_attr with
      | None =>
          raise (RepositoryException
                   (String.append (_model_name self) " have not got 'slug' attribute."))
      | Some slug_of =>
          try_except
            (found <- exec (fun r => String.eqb (slug_of r) slug) ;; one found)
            (on_NoResultFound (raise (not_found self)))
      end
  end.

(** [ORDER BY created_at], stable. *)
Fixpoint insert_by {T} (key : T -> Z) (x : T) (l : list T) : list T :=
  match l with
  | [] => [x]
  | y :: rest => if key y <=? key x then y :: insert_by key x rest else x :: l
  end.

Definition order_by {T} (key : T -> Z) (l : list T) : list T :=
  fold_left (fun sorted x => insert_by key x sorted) l [].

Definition list_paginated {T} `{Model T} (self : t T) (offset limit : nat) : M (list T) :=
  match _session self with
  | None => raise not_initialized
  | Some _ =>
      found <- exec (fun _ : T => true) ;;
      ret (firstn limit (skipn offset (order_by created found)))
  end.

Definition create {T} `{Model T} (as_entity : T -> entity) (self : t T) (record : T) : M T :=
  match _session self with
  | None => raise not_initialized
  | Some _ => add (as_entity record) ;; flush ;; ret record
  end.

Definition update {T} `{Model T} (as_entity : T -> entity) (self : t T) (record : T) : M T :=
  match _session self with
  | None => raise not_initialized
  | Some _ => add (as_entity record) ;; flush ;; ret record
  end.

Definition delete {T} `{Model T} (as_entity : T -> entity) (self : t T) (record : T) : M unit :=
  match _session self with
  | None => raise not_initialized
  | Some _ => delete_ (as_entity record)
  end.
End SQLRepository.

Definition MaterialSQLRepository : SQLRepository.t Material.t := SQLRepository.__init__.
Definition WarehouseSQLRepository : SQLRepository.t Warehouse.t := SQLRepository.__init__.

Module StockPositionSQLRepository.
Definition __init__ : SQLRepository.t StockPosition.t := SQLRepository.__init__.

Definition find_by_warehouse_id_and_material_id (self : SQLRepository.t StockPosition.t)
  (warehouse_id material_id : uuid) : M StockPosition.t :=
  match SQLRepository._session self with
  | None => raise SQLRepository.not_initialized
  | Some _ =>
      try_except
        (found <- exec (fun r : StockPosition.t =>
                          (N.eqb (StockPosition.warehouse_id r) warehouse_id
                           && N.eqb (StockPosition.material_id r) material_id)%bool) ;;
         one found)
        (SQLRepository.on_NoResultFound (raise (SQLRepository.not_found self)))
  end.
End StockPositionSQLRepository.

(** ** Request and response models (models/requests_.py, responses_.py) *)

(** The constraints a pydantic [Field] declares. *)
Module Field.
Record int_ := mk_int { ge : option Z }.
Record str_ := mk_str { min_length : option nat; max_length : option nat }.

Definition check_int (f : int_) (v : Z) : bool :=
  match ge f with
  | None => true
  | Some bound => bound <=? v
  end.

Definition check_str (f : str_) (v : string) : bool :=
  (match min_length f with
   | None => true
   | Some n => Nat.leb n (String.length v)
   end
   &&
   match max_length f with
   | None => true
   | Some n => Nat.leb (String.length v) n
   end)%bool.

Definition check_optional {V F} (check : F -> V -> bool) (f : F) (v : option V) : bool :=
  match v with
  | None => true
  | Some x => check f x
  end.
End Field.

Module DeliveryPosition.
Record t := mk { material_id : uuid; quantity : Z }.

(** [quantity: int], without a [Field]. *)
Definition quantity_field : Field.int_ := Field.mk_int None.

Definition validate (self : t) : bool := Field.check_int quantity_field (quantity self).

(** Σ(delivered quantities) *)
Definition total (positions : list t) : Z :=
  fold_right (fun p acc => quantity p + acc) 0 positions.
End DeliveryPosition.

Module Delivery.
Record t := mk { warehouse_id : uuid; positions : list DeliveryPosition.t }.

Definition validate (self : t) : bool := forallb DeliveryPosition.validate (positions self).

Definition delivered (self : t) : Z := DeliveryPosition.total (positions self).
End Delivery.

Module WarehousePatch.
Record t := mk { location : option string; max_capacity : option Z }.

Definition location_field : Field.str_ := Field.mk_str (Some 2%nat) None.
Definition max_capacity_field : Field.int_ := Field.mk_int (Some 1).

Definition validate (self : t) : bool :=
  (Field.check_optional Field.check_str location_field (location self)
   && Field.check_optional Field.check_int max_capacity_field (max_capacity self))%bool.
End WarehousePatch.

Module StockPositionResponseSimple.
Record t := mk {
  id : uuid;
  material_id : uuid;
  warehouse_id : uuid;
  quantity : Z;
  material_name : option string;
  material_slug : option string;
  warehouse_name : option string;
  warehouse_slug : option string }.

(** [from_attributes]: the columns and the four computed fields of
    [StockPosition], read through its two many-to-one relationships. *)
Definition model_validate (db : Database) (s : StockPosition.t) : t :=
  let material :=
    find (fun m => N.eqb (Material.id m) (StockPosition.material_id s)) (materials db) in
  let warehouse :=
    find (fun w => N.eqb (Warehouse.id w) (StockPosition.warehouse_id s)) (warehouses db) in
  mk (StockPosition.id s) (StockPosition.material_id s) (StockPosition.warehouse_id s)
    (StockPosition.quantity s)
    (option_map Material.name material) (option_map Material.slug material)
    (option_map Warehouse.name warehouse) (option_map Warehouse.slug warehouse).
End StockPositionResponseSimple.

Module WarehouseResponseSimple.
Record t := mk {
  name : string;
  slug : string;
  location : string;
  capacity : Z;
  max_capacity : Z }.

(** [WarehouseResponseSimple.model_validate(warehouse, from_attributes=True)]
    on an instance that a commit or a rollback has expired. *)
Definition model_validate (warehouse : Warehouse.t) : M t :=
  w <- refresh warehouse ;;
  capacity <- Warehouse_capacity w ;;
  ret (mk (Warehouse.name w) (Warehouse.slug w) (Warehouse.location w) capacity
         (Warehouse.max_capacity w)).
End WarehouseResponseSimple.

Module WarehouseResponse.
Record t := mk {
  name : string;
  slug : string;
  location : string;
  capacity : Z;
  max_capacity : Z;
  id : uuid;
  created_at : Z;
  stock : list StockPositionResponseSimple.t }.

(** [WarehouseResponse.model_validate(warehouse, from_attributes=True)] on
    an instance that a commit or a rollback has expired. *)
Definition model_validate (warehouse : Warehouse.t) : M t :=
  w <- refresh warehouse ;;
  capacity <- Warehouse_capacity w ;;
  stock <- Warehouse_stock w ;;
  fun s =>
    (Return (mk (Warehouse.name w) (Warehouse.slug w) (Warehouse.location w) capacity
               (Warehouse.max_capacity w) (Warehouse.id w) (Warehouse.created_at w)
               (map (StockPositionResponseSimple.model_validate (transaction s)) stock)), s).
End WarehouseResponse.

(** ** Handlers *)

Definition HTTP_400_BAD_REQUEST : Z := 400.
Definition HTTP_404_NOT_FOUND : Z := 404.
Definition HTTP_409_CONFLICT : Z := 409.
Definition HTTP_500_INTERNAL_SERVER_ERROR : Z := 500.

Module delivery.
Definition exceeds_capacity : exn :=
  HTTPException HTTP_400_BAD_REQUEST
    "delivery cannot be processed because it exceeds current warehouse capacity".

(** The body of the loop over [delivery.positions] (lines 56-75). *)
Definition position_body (stock_position_repository : SQLRepository.t StockPosition.t)
  (warehouse : Warehouse.t) (position : DeliveryPosition.t) : M unit :=
  capacity <- Warehouse_capacity warehouse ;;
  if capacity <? DeliveryPosition.quantity position then raise exceeds_capacity
  else
    try_except
      (stock <- StockPositionSQLRepository.find_by_warehouse_id_and_material_id
                  stock_position_repository (Warehouse.id warehouse)
                  (DeliveryPosition.material_id position) ;;
       SQLRepository.update AStockPosition stock_position_repository
         (StockPosition.with_quantity
            (StockPosition.quantity stock + DeliveryPosition.quantity position) stock) ;;
       ret tt)
      (except_RepositoryException
         (fun _ =>
            id <- uuid4 ;;
            SQLRepository.create AStockPosition stock_position_repository
              (StockPosition.mk id 0 (DeliveryPosition.material_id position)
                 (Warehouse.id warehouse) (DeliveryPosition.quantity position)) ;;
            ret tt)).

(** The body of the outer [try] (lines 54-77). *)
Definition transaction_body (warehouse_repository : SQLRepository.t Warehouse.t)
  (stock_position_repository : SQLRepository.t StockPosition.t)
  (delivery : Delivery.t) : M WarehouseResponse.t :=
  warehouse <- SQLRepository.find_by_id warehouse_repository (Delivery.warehouse_id delivery) ;;
  for_each (Delivery.positions delivery)
    (position_body stock_position_repository warehouse) ;;
  commit ;;
  WarehouseResponse.model_validate warehouse.

(** The three [except] clauses, in their order (lines 78-92). *)
Definition on_error (e : exn) : option (M WarehouseResponse.t) :=
  match e with
  | IntegrityError msg => Some (rollback ;; raise (HTTPException HTTP_409_CONFLICT msg))
  | HTTPException _ _ => Some (rollback ;; raise e)
  | _ => Some (rollback ;; raise (HTTPException HTTP_500_INTERNAL_SERVER_ERROR (str e)))
  end.

Definition create (warehouse_repository : SQLRepository.t Warehouse.t)
  (stock_position_repository : SQLRepository.t StockPosition.t)
  (session : session_ref) (delivery : Delivery.t) : M WarehouseResponse.t :=
  let warehouse_repository := SQLRepository.use_session warehouse_repository session in
  let stock_position_repository :=
    SQLRepository.use_session stock_position_repository session in
  try_except (transaction_body warehouse_repository stock_position_repository delivery)
    on_error.
End delivery.

Module routers_warehouses.
Definition update_warehouse (repository : SQLRepository.t Warehouse.t) (session : session_ref)
  (slug : string) (new_warehouse : WarehousePatch.t) : M WarehouseResponseSimple.t :=
  let repository := SQLRepository.use_session repository session in
  warehouse <- try_except (SQLRepository.find_by_slug repository slug)
                 (except_RepositoryException
                    (fun exc => raise (HTTPException HTTP_404_NOT_FOUND (str exc)))) ;;
  let do_update := false in
  let '(warehouse, do_update) :=
    match WarehousePatch.location new_warehouse with
    | Some location => (Warehouse.with_location location warehouse, true)
    | None => (warehouse, do_update)
    end in
  let '(warehouse, do_update) :=
    match WarehousePatch.max_capacity new_warehouse with
    | Some max_capacity => (Warehouse.with_max_capacity max_capacity warehouse, true)
    | None => (warehouse, do_update)
    end in
  (if do_update : bool
   then SQLRepository.update AWarehouse repository warehouse ;; commit
   else rollback) ;;
  WarehouseResponseSimple.model_validate warehouse.
End routers_warehouses.

(** ** The operations at the boundary

    Each request runs on a session of its own ([dependencies.get_session])
    with repositories created for it; what the session has not committed
    when the request ends is discarded.  The body of a request is validated
    against its pydantic model before the handler is called. *)

Definition RequestValidationError : exn := HTTPException 422 "Unprocessable Entity".

Definition process_delivery (db : Database) (d : Delivery.t)
  : result WarehouseResponse.t * Database :=
  let (r, s) :=
    delivery.create WarehouseSQLRepository StockPositionSQLRepository.__init__
      request_session d (Session_open db) in
  (r, committed s).

Definition post_delivery (db : Database) (d : Delivery.t)
  : result WarehouseResponse.t * Database :=
  if Delivery.validate d then process_delivery db d else (Raise RequestValidationError, db).

Definition patch_warehouse (db : Database) (slug : string) (p : WarehousePatch.t)
  : result WarehouseResponseSimple.t * Database :=
  if WarehousePatch.validate p then
    let (r, s) :=
      routers_warehouses.update_warehouse WarehouseSQLRepository request_session slug p
        (Session_open db) in
    (r, committed s)
  else (Raise RequestValidationError, db).

(** * Properties *)

(** ** Rows, sums and primary keys *)

Definition replace_row (r' : StockPosition.t) (l : list StockPosition.t) : list StockPosition.t :=
  map (fun r => if N.eqb (StockPosition.id r) (StockPosition.id r') then r' else r) l.

(** The primary-key constraint of the stock table ([DefaultMixin.id]). *)
Definition stock_keys_unique (db : Database) : Prop :=
  NoDup (map StockPosition.id (stock_positions db)).

Definition with_stock (l : list StockPosition.t) (db : Database) : Database :=
  mkDatabase (materials db) (warehouses db) l (foreign_keys db) (now db).

Lemma total_app l1 l2 :
  Warehouse.total (l1 ++ l2) = Warehouse.total l1 + Warehouse.total l2.
Proof.
  induction l1 as [|x l1 IH]; simpl; [reflexivity|].
  unfold Warehouse.total in *; simpl; rewrite IH; lia.
Qed.

Lemma total_cons x l :
  Warehouse.total (x :: l) = StockPosition.quantity x + Warehouse.total l.
Proof. reflexivity. Qed.

Lemma replace_row_ids r' l :
  map StockPosition.id (replace_row r' l) = map StockPosition.id l.
Proof.
  induction l as [|x l IH]; simpl; [reflexivity|].
  rewrite IH. destruct (N.eqb_spec (StockPosition.id x) (StockPosition.id r')) as [E|E];
    [rewrite E|]; reflexivity.
Qed.

Lemma replace_row_absent r' l :
  ~ In (StockPosition.id r') (map StockPosition.id l) -> replace_row r' l = l.
Proof.
  induction l as [|x l IH]; simpl; intros Hn; [reflexivity|].
  destruct (N.eqb_spec (StockPosition.id x) (StockPosition.id r')) as [E|E].
  - exfalso; apply Hn; left; exact E.
  - rewrite IH; [reflexivity|]. intros Hin; apply Hn; right; exact Hin.
Qed.

(** Adding [q] to one stored row adds [q] to the sum of its warehouse and
    leaves the sums of the others alone. *)
Lemma total_replace_row l r q wid :
  NoDup (map StockPosition.id l) -> In r l ->
  Warehouse.total
    (filter (fun s => N.eqb (StockPosition.warehouse_id s) wid)
       (replace_row (StockPosition.with_quantity (StockPosition.quantity r + q) r) l))
  = Warehouse.total (filter (fun s => N.eqb (StockPosition.warehouse_id s) wid) l)
    + (if N.eqb (StockPosition.warehouse_id r) wid then q else 0).
Proof.
  induction l as [|x l IH]; simpl; intros Hnd Hin; [contradiction|].
  inversion Hnd as [|? ? Hx Hl]; subst.
  destruct Hin as [->|Hin].
  - rewrite N.eqb_refl. simpl.
    fold (replace_row (StockPosition.with_quantity (StockPosition.quantity r + q) r) l).
    rewrite replace_row_absent by exact Hx.
    destruct (N.eqb (StockPosition.warehouse_id r) wid); simpl;
      rewrite ?total_cons; simpl; lia.
  - fold (replace_row (StockPosition.with_quantity (StockPosition.quantity r + q) r) l).
    destruct (N.eqb_spec (StockPosition.id x) (StockPosition.id r)) as [E|E].
    + exfalso; apply Hx. rewrite E. apply in_map; exact Hin.
    + simpl. destruct (N.eqb (StockPosition.warehouse_id x) wid);
        rewrite ?total_cons, IH by assumption; lia.
Qed.

Lemma max_bound (l : list N) x : In x l -> (x <= fold_right N.max 0 l)%N.
Proof.
  induction l as [|y l IH]; simpl; [contradiction|].
  intros [->|Hin]; [lia|]. specialize (IH Hin). lia.
Qed.

Lemma fresh_uuid_new db : ~ In (fresh_uuid db) (all_ids db).
Proof.
  intros Hin. apply max_bound in Hin. unfold fresh_uuid in Hin. lia.
Qed.

Lemma fresh_uuid_stock db :
  ~ In (fresh_uuid db) (map StockPosition.id (stock_positions db)).
Proof.
  intros Hin. apply (fresh_uuid_new db). unfold all_ids.
  apply in_or_app; right; apply in_or_app; right; exact Hin.
Qed.

Lemma filter_absent {T} (f : T -> uuid) i (l : list T) :
  ~ In i (map f l) -> filter (fun r => N.eqb (f r) i) l = [].
Proof.
  induction l as [|x l IH]; simpl; intros Hn; [reflexivity|].
  destruct (N.eqb_spec (f x) i) as [E|E].
  - exfalso; apply Hn; left; exact E.
  - apply IH. intros Hin; apply Hn; right; exact Hin.
Qed.

Lemma filter_present {T} (f : T -> uuid) (r : T) (l : list T) :
  In r l -> filter (fun x => N.eqb (f x) (f r)) l <> [].
Proof.
  intros Hin E.
  assert (H : In r (filter (fun x => N.eqb (f x) (f r)) l)).
  { apply filter_In; split; [exact Hin|apply N.eqb_refl]. }
  rewrite E in H; exact H.
Qed.

Lemma filter_unique {T} (f : T -> uuid) (r : T) (l : list T) :
  NoDup (map f l) -> In r l -> filter (fun x => N.eqb (f x) (f r)) l = [r].
Proof.
  induction l as [|x l IH]; simpl; intros Hnd Hin; [contradiction|].
  inversion Hnd as [|? ? Hx Hl]; subst.
  destruct Hin as [->|Hin].
  - rewrite N.eqb_refl, filter_absent by exact Hx. reflexivity.
  - destruct (N.eqb_spec (f x) (f r)) as [E|E].
    + exfalso; apply Hx. rewrite E. apply in_map; exact Hin.
    + apply IH; assumption.
Qed.

Lemma filter_head_In {T} (p : T -> bool) (l : list T) r rest :
  filter p l = r :: rest -> In r l /\ p r = true.
Proof.
  intros E. apply filter_In. rewrite E. left; reflexivity.
Qed.

(** ** The session on a flushed unit of work *)

Definition clean (c t : Database) (ls : list (uuid * list uuid)) : Session :=
  mkSession c t [] ls.

Definition bound {T} : SQLRepository.t T := SQLRepository.mk (Some request_session).

Lemma write_stock_update t r q :
  stock_keys_unique t -> In r (stock_positions t) ->
  write (StockPosition.with_quantity q r) t
  = inl (with_stock (replace_row (StockPosition.with_quantity q r) (stock_positions t)) t).
Proof.
  intros Hnd Hin. unfold write. simpl.
  rewrite (filter_unique StockPosition.id r _ Hnd Hin).
  unfold StockPosition_violation, changed. simpl.
  rewrite !N.eqb_refl. simpl. rewrite !andb_false_r. reflexivity.
Qed.

Lemma write_stock_insert t new :
  ~ In (StockPosition.id new) (map StockPosition.id (stock_positions t)) ->
  write new t
  = match StockPosition_violation t None new with
    | Some msg => inr msg
    | None =>
        inl (with_stock (stock_positions t ++ [StockPosition.with_created_at (now t) new]) t)
    end.
Proof.
  intros Hn. unfold write. simpl.
  rewrite (filter_absent StockPosition.id _ _ Hn). reflexivity.
Qed.

Lemma update_stock_clean c t ls r q :
  stock_keys_unique t -> In r (stock_positions t) ->
  SQLRepository.update AStockPosition bound (StockPosition.with_quantity q r) (clean c t ls)
  = (Return (StockPosition.with_quantity q r),
     clean c (with_stock (replace_row (StockPosition.with_quantity q r) (stock_positions t)) t)
       ls).
Proof.
  intros Hnd Hin. unfold SQLRepository.update, bindM, add, flush, clean. simpl.
  rewrite (write_stock_update t r q Hnd Hin). reflexivity.
Qed.

Lemma create_stock_clean c t ls new :
  ~ In (StockPosition.id new) (map StockPosition.id (stock_positions t)) ->
  SQLRepository.create AStockPosition bound new (clean c t ls)
  = match StockPosition_violation t None new with
    | Some msg => (Raise (IntegrityError msg), clean c c [])
    | None =>
        (Return new,
         clean c
           (with_stock (stock_positions t ++ [StockPosition.with_created_at (now t) new]) t) ls)
    end.
Proof.
  intros Hn. unfold SQLRepository.create, bindM, add, flush, clean. simpl.
  rewrite (write_stock_insert t new Hn).
  destruct (StockPosition_violation t None new); reflexivity.
Qed.

Definition pair_rows (t : Database) (wid mid : uuid) : list StockPosition.t :=
  filter (fun r => (N.eqb (StockPosition.warehouse_id r) wid
                    && N.eqb (StockPosition.material_id r) mid)%bool) (stock_positions t).

Lemma find_pair_clean c t ls wid mid :
  StockPositionSQLRepository.find_by_warehouse_id_and_material_id bound wid mid (clean c t ls)
  = match pair_rows t wid mid with
    | [] => (Raise (RepositoryException "stock position not found"), clean c t ls)
    | [r] => (Return r, clean c t ls)
    | _ => (Raise MultipleResultsFound, clean c t ls)
    end.
Proof.
  unfold StockPositionSQLRepository.find_by_warehouse_id_and_material_id, pair_rows,
    try_except, bindM, exec, flush, clean. simpl.
  destruct (filter _ (stock_positions t)) as [|r [|r' rest]]; reflexivity.
Qed.

(** The capacity the handler reads, and the collections on the instances
    after reading it. *)
Definition capacity_seen (w : Warehouse.t) (t : Database) (ls : list (uuid * list uuid)) : Z :=
  match assoc (Warehouse.id w) ls with
  | Some members =>
      Warehouse.capacity w
        (Some (filter (fun r => existsb (N.eqb (StockPosition.id r)) members)
                 (stock_positions t)))
  | None => Warehouse.capacity w (Some (stock_of t (Warehouse.id w)))
  end.

Definition loaded_after (w : Warehouse.t) (t : Database) (ls : list (uuid * list uuid))
  : list (uuid * list uuid) :=
  match assoc (Warehouse.id w) ls with
  | Some _ => ls
  | None => (Warehouse.id w, map StockPosition.id (stock_of t (Warehouse.id w))) :: ls
  end.

Lemma capacity_clean c t ls w :
  Warehouse_capacity w (clean c t ls)
  = (Return (capacity_seen w t ls), clean c t (loaded_after w t ls)).
Proof.
  unfold Warehouse_capacity, Warehouse_stock, capacity_seen, loaded_after, bindM, clean.
  simpl. destruct (assoc (Warehouse.id w) ls); reflexivity.
Qed.

Definition new_position (t : Database) (w : Warehouse.t) (p : DeliveryPosition.t)
  : StockPosition.t :=
  StockPosition.mk (fresh_uuid t) 0 (DeliveryPosition.material_id p) (Warehouse.id w)
    (DeliveryPosition.quantity p).

(** What one pass through the loop body does to a flushed session. *)
Lemma position_body_clean c t ls w p :
  stock_keys_unique t ->
  delivery.position_body bound w p (clean c t ls)
  = if capacity_seen w t ls <? DeliveryPosition.quantity p
    then (Raise delivery.exceeds_capacity, clean c t (loaded_after w t ls))
    else
      match pair_rows t (Warehouse.id w) (DeliveryPosition.material_id p) with
      | [] =>
          match StockPosition_violation t None (new_position t w p) with
          | Some msg => (Raise (IntegrityError msg), clean c c [])
          | None =>
              (Return tt,
               clean c
                 (with_stock
                    (stock_positions t
                     ++ [StockPosition.with_created_at (now t) (new_position t w p)]) t)
                 (loaded_after w t ls))
          end
      | [r] =>
          (Return tt,
           clean c
             (with_stock
                (replace_row
                   (StockPosition.with_quantity
                      (StockPosition.quantity r + DeliveryPosition.quantity p) r)
                   (stock_positions t)) t)
             (loaded_after w t ls))
      | _ => (Raise MultipleResultsFound, clean c t (loaded_after w t ls))
      end.
Proof.
  intros Hnd. unfold delivery.position_body.
  unfold bindM at 1. rewrite capacity_clean.
  destruct (capacity_seen w t ls <? DeliveryPosition.quantity p); [reflexivity|].
  unfold try_except, bindM. rewrite find_pair_clean.
  destruct (pair_rows t (Warehouse.id w) (DeliveryPosition.material_id p))
    as [|r [|r' rest]] eqn:E.
  - cbn [except_RepositoryException]. unfold bindM, uuid4. cbn [transaction clean].
    change (StockPosition.mk (fresh_uuid t) 0 (DeliveryPosition.material_id p)
              (Warehouse.id w) (DeliveryPosition.quantity p)) with (new_position t w p).
    rewrite create_stock_clean by apply fresh_uuid_stock.
    destruct (StockPosition_violation t None (new_position t w p)); reflexivity.
  - apply filter_head_In in E. destruct E as [Hin _].
    rewrite update_stock_clean by assumption. reflexivity.
  - reflexivity.
Qed.

Lemma NoDup_snoc {A} (l : list A) x : NoDup l -> ~ In x l -> NoDup (l ++ [x]).
Proof.
  induction l as [|y l IH]; simpl; intros Hnd Hn.
  - constructor; [intros []|constructor].
  - inversion Hnd as [|? ? Hy Hl]; subst. constructor.
    + intros Hin. apply in_app_or in Hin. destruct Hin as [Hin|[->|[]]].
      * exact (Hy Hin).
      * apply Hn; left; reflexivity.
    + apply IH; [exact Hl|]. intros Hin; apply Hn; right; exact Hin.
Qed.

Lemma NoDup_map_injective {T} (f : T -> uuid) (l : list T) x y :
  NoDup (map f l) -> In x l -> In y l -> f x = f y -> x = y.
Proof.
  induction l as [|z l IH]; simpl; intros Hnd Hx Hy E; [contradiction|].
  inversion Hnd as [|? ? Hz Hl]; subst.
  destruct Hx as [->|Hx], Hy as [->|Hy].
  - reflexivity.
  - exfalso; apply Hz. rewrite E. apply in_map; exact Hy.
  - exfalso; apply Hz. rewrite <- E. apply in_map; exact Hx.
  - apply IH; assumption.
Qed.

(** The collection loaded for a warehouse, read back from the instance,
    is the set of rows it was loaded from as long as none was added. *)
Lemma loaded_members t wid :
  stock_keys_unique t ->
  filter (fun r => existsb (N.eqb (StockPosition.id r))
                     (map StockPosition.id (stock_of t wid))) (stock_positions t)
  = stock_of t wid.
Proof.
  intros Hnd. unfold stock_of. apply filter_ext_in. intros r Hr.
  destruct (N.eqb (StockPosition.warehouse_id r) wid) eqn:Ew.
  - apply existsb_exists. exists (StockPosition.id r). split; [|apply N.eqb_refl].
    apply in_map. apply filter_In. split; assumption.
  - apply not_true_is_false. intros Hex. apply existsb_exists in Hex.
    destruct Hex as [i [Hi Ei]]. apply N.eqb_eq in Ei. subst i.
    apply in_map_iff in Hi. destruct Hi as [x [Ex Hx]].
    apply filter_In in Hx. destruct Hx as [Hx Hw].
    assert (x = r) by (eapply NoDup_map_injective; eauto). subst x.
    congruence.
Qed.

(** Two stores that differ in their stock table only. *)
Definition same_frame (t t' : Database) : Prop :=
  materials t' = materials t /\ warehouses t' = warehouses t
  /\ foreign_keys t' = foreign_keys t /\ now t' = now t.

Lemma same_frame_refl t : same_frame t t.
Proof. repeat split. Qed.

Lemma same_frame_trans t1 t2 t3 : same_frame t1 t2 -> same_frame t2 t3 -> same_frame t1 t3.
Proof.
  unfold same_frame. intros (A & B & C & D) (A' & B' & C' & D').
  repeat split; congruence.
Qed.

Lemma stock_sum_insert t new wid :
  stock_sum (with_stock (stock_positions t ++ [new]) t) wid
  = stock_sum t wid
    + (if N.eqb (StockPosition.warehouse_id new) wid then StockPosition.quantity new else 0).
Proof.
  unfold stock_sum, stock_of. simpl. rewrite filter_app, total_app. simpl.
  destruct (N.eqb (StockPosition.warehouse_id new) wid); simpl;
    rewrite ?total_cons; simpl; lia.
Qed.

(** A pass through the loop body that returns has staged exactly the
    requested quantity for the warehouse. *)
Lemma position_body_Return c t ls w p s' :
  stock_keys_unique t ->
  delivery.position_body bound w p (clean c t ls) = (Return tt, s') ->
  exists t' ls',
    s' = clean c t' ls' /\ stock_keys_unique t' /\ same_frame t t'
    /\ stock_sum t' (Warehouse.id w)
       = stock_sum t (Warehouse.id w) + DeliveryPosition.quantity p.
Proof.
  intros Hnd. rewrite position_body_clean by exact Hnd.
  destruct (capacity_seen w t ls <? DeliveryPosition.quantity p); [discriminate|].
  destruct (pair_rows t (Warehouse.id w) (DeliveryPosition.material_id p))
    as [|r [|r' rest]] eqn:E.
  - destruct (StockPosition_violation t None (new_position t w p)); [discriminate|].
    intros H; inversion H; subst; clear H.
    eexists; eexists; split; [reflexivity|]. split; [|split].
    + unfold stock_keys_unique. simpl. rewrite map_app. simpl.
      apply NoDup_snoc; [exact Hnd|apply fresh_uuid_stock].
    + repeat split.
    + rewrite stock_sum_insert. simpl. rewrite N.eqb_refl. reflexivity.
  - intros H; inversion H; subst; clear H.
    apply filter_head_In in E. destruct E as [Hin Hp].
    apply andb_true_iff in Hp. destruct Hp as [Hw _].
    eexists; eexists; split; [reflexivity|]. split; [|split].
    + unfold stock_keys_unique. simpl. rewrite replace_row_ids. exact Hnd.
    + repeat split.
    + unfold stock_sum, stock_of. simpl.
      rewrite total_replace_row by assumption. rewrite Hw. reflexivity.
  - discriminate.
Qed.

(** A pass that raises leaves the committed store alone. *)
Lemma position_body_Raise c t ls w p e s' :
  stock_keys_unique t ->
  delivery.position_body bound w p (clean c t ls) = (Raise e, s') ->
  committed s' = c.
Proof.
  intros Hnd. rewrite position_body_clean by exact Hnd.
  destruct (capacity_seen w t ls <? DeliveryPosition.quantity p).
  - intros H; inversion H; reflexivity.
  - destruct (pair_rows t (Warehouse.id w) (DeliveryPosition.material_id p))
      as [|r [|r' rest]].
    + destruct (StockPosition_violation t None (new_position t w p));
        intros H; inversion H; reflexivity.
    + discriminate.
    + intros H; inversion H; reflexivity.
Qed.

Lemma for_each_Return w ps : forall c t ls s',
  stock_keys_unique t ->
  for_each ps (delivery.position_body bound w) (clean c t ls) = (Return tt, s') ->
  exists t' ls',
    s' = clean c t' ls' /\ stock_keys_unique t' /\ same_frame t t'
    /\ stock_sum t' (Warehouse.id w)
       = stock_sum t (Warehouse.id w) + DeliveryPosition.total ps.
Proof.
  induction ps as [|p ps IH]; intros c t ls s' Hnd; simpl.
  - unfold ret. intros H; inversion H; subst.
    exists t, ls. repeat split; try assumption. simpl; lia.
  - unfold bindM.
    destruct (delivery.position_body bound w p (clean c t ls)) as [[[]|e] s1] eqn:E;
      [|discriminate].
    apply position_body_Return in E; [|exact Hnd].
    destruct E as (t1 & ls1 & -> & Hnd1 & Hf1 & Hs1).
    intros H. apply IH in H; [|exact Hnd1].
    destruct H as (t2 & ls2 & -> & Hnd2 & Hf2 & Hs2).
    exists t2, ls2. split; [reflexivity|]. split; [exact Hnd2|]. split.
    + eapply same_frame_trans; eassumption.
    + rewrite Hs2, Hs1. unfold DeliveryPosition.total. simpl. lia.
Qed.

Lemma for_each_Raise w ps : forall c t ls e s',
  stock_keys_unique t ->
  for_each ps (delivery.position_body bound w) (clean c t ls) = (Raise e, s') ->
  committed s' = c.
Proof.
  induction ps as [|p ps IH]; intros c t ls e s' Hnd; simpl.
  - discriminate.
  - unfold bindM.
    destruct (delivery.position_body bound w p (clean c t ls)) as [[[]|e1] s1] eqn:E.
    + apply position_body_Return in E; [|exact Hnd].
      destruct E as (t1 & ls1 & -> & Hnd1 & _ & _).
      intros H. eapply IH; eassumption.
    + intros H; inversion H; subst.
      eapply position_body_Raise; eassumption.
Qed.

(** ** The delivery transaction *)

Definition warehouse_rows (t : Database) (i : uuid) : list Warehouse.t :=
  filter (fun w => N.eqb (Warehouse.id w) i) (warehouses t).

Lemma find_warehouse_clean c t ls i :
  SQLRepository.find_by_id (bound : SQLRepository.t Warehouse.t) i (clean c t ls)
  = match warehouse_rows t i with
    | [] => (Raise (RepositoryException "warehouse not found"), clean c t ls)
    | [w] => (Return w, clean c t ls)
    | _ => (Raise MultipleResultsFound, clean c t ls)
    end.
Proof.
  unfold SQLRepository.find_by_id, warehouse_rows, try_except, bindM, exec, flush, clean.
  simpl. destruct (filter _ (warehouses t)) as [|w [|w' rest]]; reflexivity.
Qed.

Lemma commit_clean c t ls : commit (clean c t ls) = (Return tt, clean t t []).
Proof. reflexivity. Qed.

(** The warehouse as the response shows it: its row and its stock rows in
    store [t], and the capacity derived from them. *)
Definition WarehouseResponse_of (t : Database) (w : Warehouse.t) : WarehouseResponse.t :=
  WarehouseResponse.mk (Warehouse.name w) (Warehouse.slug w) (Warehouse.location w)
    (Warehouse.max_capacity w - stock_sum t (Warehouse.id w))
    (Warehouse.max_capacity w) (Warehouse.id w) (Warehouse.created_at w)
    (map (StockPositionResponseSimple.model_validate t) (stock_of t (Warehouse.id w))).

Lemma model_validate_expired t w w' :
  stock_keys_unique t ->
  warehouse_rows t (Warehouse.id w) = [w'] ->
  WarehouseResponse.model_validate w (clean t t [])
  = (Return (WarehouseResponse_of t w'),
     clean t t [(Warehouse.id w', map StockPosition.id (stock_of t (Warehouse.id w')))]).
Proof.
  intros Hnd Hw. unfold WarehouseResponse.model_validate, refresh.
  unfold bindM at 1. unfold bindM at 1. unfold exec, flush, bindM at 1, clean. simpl.
  unfold warehouse_rows in Hw. rewrite Hw. unfold ret at 1.
  fold (clean t t []). unfold bindM at 1. rewrite capacity_clean.
  unfold bindM, Warehouse_stock, loaded_after, capacity_seen, clean. simpl.
  rewrite N.eqb_refl. rewrite loaded_members by exact Hnd. reflexivity.
Qed.

Lemma warehouse_rows_self t i w : warehouse_rows t i = [w] -> Warehouse.id w = i.
Proof.
  intros E. apply filter_head_In in E. destruct E as [_ E]. apply N.eqb_eq; exact E.
Qed.

Lemma warehouse_rows_frame t t' i : same_frame t t' -> warehouse_rows t' i = warehouse_rows t i.
Proof. intros (_ & E & _). unfold warehouse_rows. rewrite E. reflexivity. Qed.

(** A transaction body that returns has found the warehouse, committed the
    requested quantities on top of its stock, and shows the committed
    state. *)
Lemma transaction_body_Return db d resp s' :
  stock_keys_unique db ->
  delivery.transaction_body bound bound d (clean db db []) = (Return resp, s') ->
  exists w t',
    warehouse_rows db (Delivery.warehouse_id d) = [w]
    /\ committed s' = t' /\ stock_keys_unique t' /\ same_frame db t'
    /\ stock_sum t' (Delivery.warehouse_id d)
       = stock_sum db (Delivery.warehouse_id d) + Delivery.delivered d
    /\ resp = WarehouseResponse_of t' w.
Proof.
  intros Hnd. unfold delivery.transaction_body.
  unfold bindM at 1. rewrite find_warehouse_clean.
  destruct (warehouse_rows db (Delivery.warehouse_id d)) as [|w [|w' rest]] eqn:Ew;
    try discriminate.
  pose proof (warehouse_rows_self _ _ _ Ew) as Hid.
  unfold bindM at 1.
  destruct (for_each (Delivery.positions d) (delivery.position_body bound w)
              (clean db db [])) as [[[]|e] s1] eqn:El; [|discriminate].
  apply for_each_Return in El; [|exact Hnd].
  destruct El as (t' & ls' & -> & Hnd' & Hf & Hs).
  unfold bindM at 1. rewrite commit_clean.
  assert (Hw' : warehouse_rows t' (Warehouse.id w) = [w]).
  { rewrite (warehouse_rows_frame db t') by exact Hf. rewrite Hid. exact Ew. }
  rewrite (model_validate_expired t' w w Hnd' Hw').
  intros H; inversion H; subst; clear H.
  exists w, t'. rewrite <- Hid in Ew |- *.
  repeat split; try assumption; apply Hf.
Qed.

(** A transaction body that raises has committed nothing. *)
Lemma transaction_body_Raise db d e s' :
  stock_keys_unique db ->
  delivery.transaction_body bound bound d (clean db db []) = (Raise e, s') ->
  committed s' = db.
Proof.
  intros Hnd. unfold delivery.transaction_body.
  unfold bindM at 1. rewrite find_warehouse_clean.
  destruct (warehouse_rows db (Delivery.warehouse_id d)) as [|w [|w' rest]] eqn:Ew;
    try (intros H; inversion H; reflexivity).
  pose proof (warehouse_rows_self _ _ _ Ew) as Hid.
  unfold bindM at 1.
  destruct (for_each (Delivery.positions d) (delivery.position_body bound w)
              (clean db db [])) as [[[]|e1] s1] eqn:El.
  - apply for_each_Return in El; [|exact Hnd].
    destruct El as (t' & ls' & -> & Hnd' & Hf & Hs).
    unfold bindM at 1. rewrite commit_clean.
    assert (Hw' : warehouse_rows t' (Warehouse.id w) = [w]).
    { rewrite (warehouse_rows_frame db t') by exact Hf. rewrite Hid. exact Ew. }
    rewrite (model_validate_expired t' w w Hnd' Hw'). discriminate.
  - intros H; inversion H; subst. eapply for_each_Raise; eassumption.
Qed.

Lemma process_delivery_eq db d :
  process_delivery db d
  = let (r, s) :=
      try_except (delivery.transaction_body bound bound d) delivery.on_error
        (clean db db []) in
    (r, committed s).
Proof. reflexivity. Qed.

Lemma on_error_run e s :
  exists status detail handler,
    delivery.on_error e = Some handler
    /\ handler s
       = (Raise (HTTPException status detail),
          mkSession (committed s) (committed s) [] []).
Proof.
  destruct e; simpl; do 3 eexists; split; try reflexivity; reflexivity.
Qed.

(** Whatever error a delivery ends in, the store is as it was before the
    call. *)
Lemma process_delivery_Raise db d e db' :
  stock_keys_unique db ->
  process_delivery db d = (Raise e, db') -> db' = db.
Proof.
  intros Hnd. rewrite process_delivery_eq. unfold try_except.
  destruct (delivery.transaction_body bound bound d (clean db db [])) as [[resp|e1] s1] eqn:E.
  - discriminate.
  - apply transaction_body_Raise in E; [|exact Hnd].
    destruct (on_error_run e1 s1) as (st & de & h & -> & ->).
    simpl. intros H; inversion H; subst. reflexivity.
Qed.

Lemma process_delivery_Return db d resp db' :
  stock_keys_unique db ->
  process_delivery db d = (Return resp, db') ->
  exists w,
    warehouse_rows db (Delivery.warehouse_id d) = [w]
    /\ stock_keys_unique db' /\ same_frame db db'
    /\ stock_sum db' (Delivery.warehouse_id d)
       = stock_sum db (Delivery.warehouse_id d) + Delivery.delivered d
    /\ resp = WarehouseResponse_of db' w.
Proof.
  intros Hnd. rewrite process_delivery_eq. unfold try_except.
  destruct (delivery.transaction_body bound bound d (clean db db [])) as [[resp1|e1] s1] eqn:E.
  - apply transaction_body_Return in E; [|exact Hnd].
    destruct E as (w & t' & Hw & Hc & Hnd' & Hf & Hs & ->).
    intros H; inversion H; subst. exists w. repeat split; try assumption; apply Hf.
  - destruct (on_error_run e1 s1) as (st & de & h & -> & ->). discriminate.
Qed.

(** ** Deliveries of no or one line item, from the store's point of view *)

Definition inserted (t : Database) (w : Warehouse.t) (p : DeliveryPosition.t) : Database :=
  with_stock
    (stock_positions t ++ [StockPosition.with_created_at (now t) (new_position t w p)]) t.

Definition incremented (t : Database) (r : StockPosition.t) (p : DeliveryPosition.t)
  : Database :=
  with_stock
    (replace_row
       (StockPosition.with_quantity (StockPosition.quantity r + DeliveryPosition.quantity p) r)
       (stock_positions t)) t.

Lemma delivery_empty db w i :
  stock_keys_unique db -> warehouse_rows db i = [w] ->
  process_delivery db (Delivery.mk i []) = (Return (WarehouseResponse_of db w), db).
Proof.
  intros Hnd Ew. pose proof (warehouse_rows_self _ _ _ Ew) as Hid.
  rewrite process_delivery_eq. unfold try_except, delivery.transaction_body.
  cbn [Delivery.warehouse_id Delivery.positions for_each]. unfold bindM, ret.
  rewrite find_warehouse_clean, Ew. cbv beta iota. rewrite commit_clean. cbv beta iota.
  rewrite (model_validate_expired db w w Hnd) by (rewrite Hid; exact Ew).
  reflexivity.
Qed.

Lemma delivery_single db w i p :
  stock_keys_unique db -> warehouse_rows db i = [w] ->
  process_delivery db (Delivery.mk i [p])
  = if Warehouse.max_capacity w - stock_sum db i <? DeliveryPosition.quantity p
    then (Raise delivery.exceeds_capacity, db)
    else
      match pair_rows db i (DeliveryPosition.material_id p) with
      | [] =>
          match StockPosition_violation db None (new_position db w p) with
          | Some msg => (Raise (HTTPException HTTP_409_CONFLICT msg), db)
          | None => (Return (WarehouseResponse_of (inserted db w p) w), inserted db w p)
          end
      | [r] => (Return (WarehouseResponse_of (incremented db r p) w), incremented db r p)
      | _ =>
          (Raise (HTTPException HTTP_500_INTERNAL_SERVER_ERROR (str MultipleResultsFound)),
           db)
      end.
Proof.
  intros Hnd Ew. pose proof (warehouse_rows_self _ _ _ Ew) as Hid.
  rewrite process_delivery_eq. unfold try_except, delivery.transaction_body.
  cbn [Delivery.warehouse_id Delivery.positions for_each]. unfold bindM, ret.
  rewrite find_warehouse_clean, Ew. cbv beta iota.
  rewrite position_body_clean by exact Hnd.
  change (capacity_seen w db []) with (Warehouse.max_capacity w - stock_sum db (Warehouse.id w)).
  rewrite Hid.
  destruct (Warehouse.max_capacity w - stock_sum db i <? DeliveryPosition.quantity p);
    [reflexivity|].
  destruct (pair_rows db i (DeliveryPosition.material_id p)) as [|r [|r' rest]] eqn:E.
  - destruct (StockPosition_violation db None (new_position db w p)); [reflexivity|].
    cbv beta iota. rewrite commit_clean. cbv beta iota.
    fold (inserted db w p).
    assert (Hnd' : stock_keys_unique (inserted db w p)).
    { unfold stock_keys_unique, inserted. simpl. rewrite map_app. simpl.
      apply NoDup_snoc; [exact Hnd|apply fresh_uuid_stock]. }
    rewrite (model_validate_expired (inserted db w p) w w Hnd')
      by (rewrite Hid; exact Ew).
    reflexivity.
  - cbv beta iota. rewrite commit_clean. cbv beta iota.
    fold (incremented db r p).
    assert (Hnd' : stock_keys_unique (incremented db r p)).
    { unfold stock_keys_unique, incremented. simpl. rewrite replace_row_ids. exact Hnd. }
    rewrite (model_validate_expired (incremented db r p) w w Hnd')
      by (rewrite Hid; exact Ew).
    reflexivity.
  - reflexivity.
Qed.

(** The first line item for which the store refuses the new row ends the
    delivery, whatever follows it. *)
Lemma delivery_first_refused db w i p rest msg :
  stock_keys_unique db -> warehouse_rows db i = [w] ->
  (Warehouse.max_capacity w - stock_sum db i <? DeliveryPosition.quantity p) = false ->
  pair_rows db i (DeliveryPosition.material_id p) = [] ->
  StockPosition_violation db None (new_position db w p) = Some msg ->
  delivery.transaction_body bound bound (Delivery.mk i (p :: rest)) (Session_open db)
  = (Raise (IntegrityError msg), clean db db []).
Proof.
  intros Hnd Ew Hcap Hpair Hv. pose proof (warehouse_rows_self _ _ _ Ew) as Hid.
  unfold delivery.transaction_body.
  cbn [Delivery.warehouse_id Delivery.positions for_each]. unfold bindM, ret.
  change (Session_open db) with (clean db db []).
  rewrite find_warehouse_clean, Ew. cbv beta iota.
  rewrite position_body_clean by exact Hnd.
  change (capacity_seen w db []) with (Warehouse.max_capacity w - stock_sum db (Warehouse.id w)).
  rewrite Hid, Hcap, Hpair, Hv. reflexivity.
Qed.

(** ** The scenario of tests/test_delivery.py *)

Definition hydrogen : Material.t := Material.mk 11 0 "hydrogen" "hydrogen" "mole".
Definition sulphur : Material.t := Material.mk 12 0 "sulphur" "sulphur" "mole".

Definition test_warehouse (max_capacity : Z) : Warehouse.t :=
  Warehouse.mk 1 0 "Test Warehouse" "test-warehouse" "Wien" max_capacity.

(** One empty warehouse and the two materials. *)
Definition test_store (max_capacity : Z) (foreign_keys : bool) : Database :=
  mkDatabase [hydrogen; sulphur] [test_warehouse max_capacity] [] foreign_keys 1700000000.

Definition test_delivery (hydrogen_quantity sulphur_quantity : Z) : Delivery.t :=
  Delivery.mk 1
    [DeliveryPosition.mk 11 hydrogen_quantity; DeliveryPosition.mk 12 sulphur_quantity].

(** The same with a second warehouse that holds seven units of hydrogen. *)
Definition second_warehouse : Warehouse.t := Warehouse.mk 2 0 "Second" "second" "Graz" 50.

Definition two_warehouses : Database :=
  mkDatabase [hydrogen; sulphur]
    [test_warehouse 100; Warehouse.mk 2 0 "Second" "second" "Graz" 50]
    [StockPosition.mk 21 0 11 2 7] true 1700000000.

(** The status code the framework answers with when a handler raises. *)
Definition status_code (e : exn) : Z :=
  match e with
  | HTTPException code _ => code
  | _ => HTTP_500_INTERNAL_SERVER_ERROR
  end.

(** The store refused a statement of the delivery's transaction. *)
Definition store_refuses (db : Database) (d : Delivery.t) (msg : string) : Prop :=
  fst (delivery.transaction_body
         (SQLRepository.use_session WarehouseSQLRepository request_session)
         (SQLRepository.use_session StockPositionSQLRepository.__init__ request_session)
         d (Session_open db))
  = Raise (IntegrityError msg).

(** C1, code defect: a delivery whose quantities each fit but whose sum
    overflows is accepted when its line items create new stock positions.
    The capacity is read from the [stock] collection loaded at the first
    line item; the position created for hydrogen is not in it, so sulphur
    is checked against the capacity of the empty warehouse.  With
    max_capacity 3 and quantities 2 and 2 the delivery is committed: four
    units in stock and a derived capacity of -1. *)
Theorem delivery_sum_over_capacity_committed :
  let db := test_store 3 true in
  let d := test_delivery 2 2 in
  stock_sum db 1 + Delivery.delivered d > Warehouse.max_capacity (test_warehouse 3)
  /\ exists resp db',
       process_delivery db d = (Return resp, db')
       /\ WarehouseResponse.capacity resp = -1
       /\ stock_sum db' 1 = 4.
Proof.
  cbv zeta. split; [vm_compute; reflexivity|].
  eexists; eexists. split; [vm_compute; reflexivity|].
  split; vm_compute; reflexivity.
Qed.

(** The same check does see what earlier line items added to positions
    that were in the collection when it was loaded. *)
Lemma delivery_sum_over_capacity_refused_on_existing_stock :
  let db := snd (process_delivery (test_store 3 true) (test_delivery 0 0)) in
  process_delivery db (test_delivery 2 2) = (Raise delivery.exceeds_capacity, db).
Proof. vm_compute. reflexivity. Qed.

(** C2: a delivery that succeeds has added exactly the delivered
    quantities to the stock of its warehouse, and answers with that
    warehouse as committed: its capacity is its max_capacity minus the new
    stock sum, its stock the new rows. *)
Theorem delivery_success_adds_delivered db d resp db' :
  stock_keys_unique db ->
  process_delivery db d = (Return resp, db') ->
  stock_sum db' (Delivery.warehouse_id d)
  = stock_sum db (Delivery.warehouse_id d) + Delivery.delivered d
  /\ WarehouseResponse.id resp = Delivery.warehouse_id d
  /\ WarehouseResponse.capacity resp
     = WarehouseResponse.max_capacity resp - stock_sum db' (Delivery.warehouse_id d)
  /\ (exists w, warehouse_rows db' (Delivery.warehouse_id d) = [w]
                /\ WarehouseResponse.max_capacity resp = Warehouse.max_capacity w)
  /\ WarehouseResponse.stock resp
     = map (StockPositionResponseSimple.model_validate db')
         (stock_of db' (Delivery.warehouse_id d)).
Proof.
  intros Hnd H. apply process_delivery_Return in H; [|exact Hnd].
  destruct H as (w & Ew & Hnd' & Hf & Hs & ->).
  pose proof (warehouse_rows_self _ _ _ Ew) as Hid.
  split; [exact Hs|]. simpl. rewrite Hid. repeat split.
  exists w. split; [|reflexivity].
  rewrite (warehouse_rows_frame db db') by exact Hf. exact Ew.
Qed.

Lemma delivery_success_adds_delivered_witness :
  exists resp db',
    process_delivery (test_store 100 true) (test_delivery 2 1) = (Return resp, db')
    /\ stock_sum db' 1 = 0 + 3
    /\ WarehouseResponse.capacity resp = 100 - 3.
Proof.
  eexists; eexists. split; [vm_compute; reflexivity|].
  match goal with
  | |- stock_sum ?db' _ = _ /\ WarehouseResponse.capacity ?resp = _ =>
      assert (E : process_delivery (test_store 100 true) (test_delivery 2 1)
                  = (Return resp, db')) by (vm_compute; reflexivity);
      pose proof (delivery_success_adds_delivered (test_store 100 true) (test_delivery 2 1)
                    resp db' (NoDup_nil _) E) as H
  end.
  split; [exact (proj1 H)|].
  vm_compute. reflexivity.
Defined.

(** C5, code defect: when no warehouse has the delivery's identifier, the
    RepositoryException of [find_by_id] falls through to the last
    [except] clause: the answer is 500 Internal Server Error, not 404, and
    the store is untouched. *)
Theorem delivery_to_missing_warehouse db d :
  warehouse_rows db (Delivery.warehouse_id d) = [] ->
  process_delivery db d
  = (Raise (HTTPException HTTP_500_INTERNAL_SERVER_ERROR "warehouse not found"), db).
Proof.
  intros Ew. rewrite process_delivery_eq. unfold try_except, delivery.transaction_body.
  unfold bindM. rewrite find_warehouse_clean, Ew. reflexivity.
Qed.

Lemma delivery_to_missing_warehouse_witness :
  process_delivery (test_store 100 true) (Delivery.mk 2 [DeliveryPosition.mk 11 1])
  = (Raise (HTTPException 500 "warehouse not found"), test_store 100 true).
Proof.
  apply (delivery_to_missing_warehouse (test_store 100 true)
           (Delivery.mk 2 [DeliveryPosition.mk 11 1])).
  reflexivity.
Defined.

(** C6 as stated fails: with foreign keys enforced, a delivery of a
    material the store does not know is answered 409 Conflict, not 404. *)
Lemma unknown_material_is_not_NotFound :
  exists e,
    process_delivery (test_store 100 true) (Delivery.mk 1 [DeliveryPosition.mk 99 1])
    = (Raise e, test_store 100 true)
    /\ status_code e = HTTP_409_CONFLICT
    /\ status_code e <> HTTP_404_NOT_FOUND.
Proof.
  eexists. split; [vm_compute; reflexivity|].
  split; [reflexivity|discriminate].
Qed.

(** C6, amended: whenever the store refuses a statement of the delivery's
    transaction (the foreign-key violation of an unknown material is the
    only refusal the stock table knows), the error at the boundary is 409
    Conflict with the store's message, and the store is as before the
    call. *)
Theorem store_refusal_is_conflict db d msg :
  stock_keys_unique db ->
  store_refuses db d msg ->
  process_delivery db d = (Raise (HTTPException HTTP_409_CONFLICT msg), db).
Proof.
  unfold store_refuses. intros Hnd H. rewrite process_delivery_eq. unfold try_except.
  change (Session_open db) with (clean db db []) in H.
  change (SQLRepository.use_session WarehouseSQLRepository request_session)
    with (@bound Warehouse.t) in H.
  change (SQLRepository.use_session StockPositionSQLRepository.__init__ request_session)
    with (@bound StockPosition.t) in H.
  destruct (delivery.transaction_body bound bound d (clean db db [])) as [[resp|e] s1] eqn:E;
    simpl in H; [discriminate|].
  inversion H; subst e. apply transaction_body_Raise in E; [|exact Hnd].
  simpl. unfold bindM, rollback, raise. simpl. rewrite E. reflexivity.
Qed.

Lemma store_refusal_is_conflict_witness :
  process_delivery (test_store 100 true)
    (Delivery.mk 1 [DeliveryPosition.mk 11 1; DeliveryPosition.mk 99 1])
  = (Raise (HTTPException 409 "FOREIGN KEY constraint failed"), test_store 100 true).
Proof.
  apply (store_refusal_is_conflict (test_store 100 true)
           (Delivery.mk 1 [DeliveryPosition.mk 11 1; DeliveryPosition.mk 99 1])
           "FOREIGN KEY constraint failed").
  - apply NoDup_nil.
  - vm_compute. reflexivity.
Defined.

(** The refusal in question: a first line item for a material without a
    row, on a store that enforces foreign keys. *)
Lemma unknown_material_refused db w i p rest :
  stock_keys_unique db -> warehouse_rows db i = [w] ->
  foreign_keys db = true ->
  has_id Material.id (DeliveryPosition.material_id p) (materials db) = false ->
  pair_rows db i (DeliveryPosition.material_id p) = [] ->
  DeliveryPosition.quantity p <= Warehouse.max_capacity w - stock_sum db i ->
  store_refuses db (Delivery.mk i (p :: rest)) "FOREIGN KEY constraint failed".
Proof.
  intros Hnd Ew Hfk Hm Hpair Hcap. unfold store_refuses.
  change (SQLRepository.use_session WarehouseSQLRepository request_session)
    with (@bound Warehouse.t).
  change (SQLRepository.use_session StockPositionSQLRepository.__init__ request_session)
    with (@bound StockPosition.t).
  rewrite (delivery_first_refused db w i p rest "FOREIGN KEY constraint failed");
    try assumption; [reflexivity| |].
  - apply Z.ltb_ge; exact Hcap.
  - unfold StockPosition_violation, first_violation, changed. simpl.
    rewrite Hfk, Hm. reflexivity.
Qed.

(** ** What an accepted line item leaves in the stock table *)

Lemma filter_map_in {T} (p : T -> bool) (f : T -> T) (l : list T) :
  (forall x, In x l -> p (f x) = p x) -> filter p (map f l) = map f (filter p l).
Proof.
  induction l as [|x l IH]; simpl; intros H; [reflexivity|].
  rewrite (H x) by (left; reflexivity).
  rewrite IH by (intros y Hy; apply H; right; exact Hy).
  destruct (p x); reflexivity.
Qed.

Lemma pair_rows_In t i m r rest :
  pair_rows t i m = r :: rest ->
  In r (stock_positions t) /\ StockPosition.warehouse_id r = i
  /\ StockPosition.material_id r = m.
Proof.
  intros E. apply filter_head_In in E. destruct E as [Hin Hp].
  apply andb_true_iff in Hp. destruct Hp as [Hw Hm].
  apply N.eqb_eq in Hw, Hm. auto.
Qed.

Lemma stock_sum_inserted t w p :
  stock_sum (inserted t w p) (Warehouse.id w)
  = stock_sum t (Warehouse.id w) + DeliveryPosition.quantity p.
Proof.
  unfold inserted. rewrite stock_sum_insert. simpl. rewrite N.eqb_refl. reflexivity.
Qed.

Lemma stock_sum_incremented t i m r rest p :
  stock_keys_unique t -> pair_rows t i m = r :: rest ->
  stock_sum (incremented t r p) i = stock_sum t i + DeliveryPosition.quantity p.
Proof.
  intros Hnd E. apply pair_rows_In in E. destruct E as (Hin & Hw & _).
  unfold stock_sum, stock_of, incremented. simpl.
  rewrite total_replace_row by assumption. rewrite Hw, N.eqb_refl. reflexivity.
Qed.

Lemma pair_rows_inserted t w p :
  pair_rows t (Warehouse.id w) (DeliveryPosition.material_id p) = [] ->
  pair_rows (inserted t w p) (Warehouse.id w) (DeliveryPosition.material_id p)
  = [StockPosition.with_created_at (now t) (new_position t w p)].
Proof.
  intros E. unfold pair_rows, inserted in *. simpl. rewrite filter_app, E. simpl.
  rewrite !N.eqb_refl. reflexivity.
Qed.

Lemma pair_rows_incremented t i m r p :
  stock_keys_unique t -> pair_rows t i m = [r] ->
  pair_rows (incremented t r p) i m
  = [StockPosition.with_quantity (StockPosition.quantity r + DeliveryPosition.quantity p) r].
Proof.
  intros Hnd E. pose proof (pair_rows_In _ _ _ _ _ E) as (Hin & Hw & Hm).
  unfold pair_rows, incremented in *. simpl. unfold replace_row.
  rewrite filter_map_in.
  - rewrite E. simpl. rewrite N.eqb_refl. reflexivity.
  - intros x Hx. simpl.
    destruct (N.eqb_spec (StockPosition.id x) (StockPosition.id r)) as [Ei|Ei];
      [|reflexivity].
    assert (x = r) by (eapply NoDup_map_injective; eauto). subst x. reflexivity.
Qed.

Lemma incremented_by_zero t r p :
  stock_keys_unique t -> In r (stock_positions t) -> DeliveryPosition.quantity p = 0 ->
  incremented t r p = t.
Proof.
  intros Hnd Hin Hq. unfold incremented. rewrite Hq, Z.add_0_r.
  assert (Er : StockPosition.with_quantity (StockPosition.quantity r) r = r)
    by (destruct r; reflexivity).
  rewrite Er. unfold replace_row.
  assert (Em : map (fun x => if N.eqb (StockPosition.id x) (StockPosition.id r) then r else x)
                 (stock_positions t) = stock_positions t).
  { rewrite <- (map_id (stock_positions t)) at 2. apply map_ext_in. intros x Hx.
    destruct (N.eqb_spec (StockPosition.id x) (StockPosition.id r)) as [Ei|Ei];
      [|reflexivity].
    symmetry. eapply NoDup_map_injective; eauto. }
  rewrite Em. destruct t; reflexivity.
Qed.

(** The store takes a new stock row of warehouse [i] for material [m]:
    foreign keys are off, or the material is there. *)
Definition material_accepted (db : Database) (m : uuid) : Prop :=
  foreign_keys db = false \/ has_id Material.id m (materials db) = true.

Lemma accepted_no_violation db w i p :
  warehouse_rows db i = [w] ->
  material_accepted db (DeliveryPosition.material_id p) ->
  StockPosition_violation db None (new_position db w p) = None.
Proof.
  intros Ew Hm.
  assert (Hw : has_id Warehouse.id (Warehouse.id w) (warehouses db) = true).
  { apply existsb_exists. exists w. apply filter_head_In in Ew.
    split; [apply Ew|apply N.eqb_refl]. }
  unfold StockPosition_violation, first_violation, changed. simpl. rewrite Hw.
  destruct Hm as [-> | ->]; [reflexivity|].
  destruct (foreign_keys db); reflexivity.
Qed.

Lemma inserted_keys_unique t w p : stock_keys_unique t -> stock_keys_unique (inserted t w p).
Proof.
  intros Hnd. unfold stock_keys_unique, inserted. simpl. rewrite map_app. simpl.
  apply NoDup_snoc; [exact Hnd|apply fresh_uuid_stock].
Qed.

Lemma validate_any d : Delivery.validate d = true.
Proof.
  unfold Delivery.validate. apply forallb_forall. intros p _. reflexivity.
Qed.

(** C3 as stated fails: a delivery of -5 units of hydrogen is not rejected
    by the validation of the request; the engine runs and commits a stock
    position of -5. *)
Lemma negative_quantity_not_rejected :
  let db := test_store 100 true in
  let d := Delivery.mk 1 [DeliveryPosition.mk 11 (-5)] in
  fst (post_delivery db d) <> Raise RequestValidationError
  /\ exists resp db',
       post_delivery db d = (Return resp, db')
       /\ map StockPosition.quantity (stock_positions db') = [-5]
       /\ WarehouseResponse.capacity resp = 105.
Proof.
  cbv zeta. split; [vm_compute; discriminate|].
  eexists; eexists. split; [vm_compute; reflexivity|].
  split; reflexivity.
Qed.

(** C3, amended: request validation rejects no delivery for its
    quantities; every delivery validates and the engine runs on it.  In
    the engine, in a store whose stock positions have distinct primary
    keys, a line item with a negative quantity q passes the capacity
    check whenever the capacity the handler reads for the warehouse at
    that item is not negative, and is then treated like any other
    quantity:
    - when the (warehouse, material) pair has exactly one stock position,
      q is added to it;
    - when it has none and the store takes the new row, a position with
      quantity q is created;
    - when it has none and the store refuses the new row, IntegrityError
      is raised and the transaction is rolled back;
    - when it has more than one, the lookup raises MultipleResultsFound.
    In the first two cases the stock sum of the warehouse changes by q.
    Every delivery that such a store accepts, negative line items
    included, changes the committed stock sum of its warehouse by the
    signed sum of its quantities.  A delivery of one negative line item to
    a warehouse whose capacity is not negative is committed in the first
    two cases and answered 409 and 500, with the store as it was, in the
    other two. *)
Theorem negative_quantity_applied :
  (forall db d,
     Delivery.validate d = true /\ post_delivery db d = process_delivery db d)
  /\ (forall c t ls w p,
        stock_keys_unique t ->
        DeliveryPosition.quantity p < 0 ->
        0 <= capacity_seen w t ls ->
        (forall r,
           pair_rows t (Warehouse.id w) (DeliveryPosition.material_id p) = [r] ->
           delivery.position_body
             (SQLRepository.use_session StockPositionSQLRepository.__init__ request_session)
             w p (mkSession c t [] ls)
           = (Return tt, mkSession c (incremented t r p) [] (loaded_after w t ls))
           /\ pair_rows (incremented t r p) (Warehouse.id w) (DeliveryPosition.material_id p)
              = [StockPosition.with_quantity
                   (StockPosition.quantity r + DeliveryPosition.quantity p) r]
           /\ stock_sum (incremented t r p) (Warehouse.id w)
              = stock_sum t (Warehouse.id w) + DeliveryPosition.quantity p)
        /\ (pair_rows t (Warehouse.id w) (DeliveryPosition.material_id p) = [] ->
            StockPosition_violation t None (new_position t w p) = None ->
            exists r,
              delivery.position_body
                (SQLRepository.use_session StockPositionSQLRepository.__init__ request_session)
                w p (mkSession c t [] ls)
              = (Return tt,
                 mkSession c (with_stock (stock_positions t ++ [r]) t) []
                   (loaded_after w t ls))
              /\ StockPosition.warehouse_id r = Warehouse.id w
              /\ StockPosition.material_id r = DeliveryPosition.material_id p
              /\ StockPosition.quantity r = DeliveryPosition.quantity p
              /\ stock_sum (with_stock (stock_positions t ++ [r]) t) (Warehouse.id w)
                 = stock_sum t (Warehouse.id w) + DeliveryPosition.quantity p)
        /\ (pair_rows t (Warehouse.id w) (DeliveryPosition.material_id p) = [] ->
            forall msg,
              StockPosition_violation t None (new_position t w p) = Some msg ->
              delivery.position_body
                (SQLRepository.use_session StockPositionSQLRepository.__init__ request_session)
                w p (mkSession c t [] ls)
              = (Raise (IntegrityError msg), mkSession c c [] []))
        /\ (forall r1 r2 more,
              pair_rows t (Warehouse.id w) (DeliveryPosition.material_id p) = r1 :: r2 :: more ->
              delivery.position_body
                (SQLRepository.use_session StockPositionSQLRepository.__init__ request_session)
                w p (mkSession c t [] ls)
              = (Raise MultipleResultsFound, mkSession c t [] (loaded_after w t ls))))
  /\ (forall db d resp db',
        stock_keys_unique db ->
        post_delivery db d = (Return resp, db') ->
        stock_sum db' (Delivery.warehouse_id d)
        = stock_sum db (Delivery.warehouse_id d) + Delivery.delivered d)
  /\ (forall db w i p,
        stock_keys_unique db ->
        warehouse_rows db i = [w] ->
        DeliveryPosition.quantity p < 0 ->
        0 <= Warehouse.max_capacity w - stock_sum db i ->
        (forall r,
           pair_rows db i (DeliveryPosition.material_id p) = [r] ->
           post_delivery db (Delivery.mk i [p])
           = (Return (WarehouseResponse_of (incremented db r p) w), incremented db r p)
           /\ stock_sum (incremented db r p) i = stock_sum db i + DeliveryPosition.quantity p)
        /\ (pair_rows db i (DeliveryPosition.material_id p) = [] ->
            StockPosition_violation db None (new_position db w p) = None ->
            post_delivery db (Delivery.mk i [p])
            = (Return (WarehouseResponse_of (inserted db w p) w), inserted db w p)
            /\ stock_sum (inserted db w p) i = stock_sum db i + DeliveryPosition.quantity p)
        /\ (pair_rows db i (DeliveryPosition.material_id p) = [] ->
            forall msg,
              StockPosition_violation db None (new_position db w p) = Some msg ->
              post_delivery db (Delivery.mk i [p])
              = (Raise (HTTPException HTTP_409_CONFLICT msg), db))
        /\ (forall r1 r2 more,
              pair_rows db i (DeliveryPosition.material_id p) = r1 :: r2 :: more ->
              post_delivery db (Delivery.mk i [p])
              = (Raise (HTTPException HTTP_500_INTERNAL_SERVER_ERROR
                          (str MultipleResultsFound)), db))).
Proof.
  split; [|split; [|split]].
  - intros db d. split; [apply validate_any|].
    unfold post_delivery. rewrite validate_any. reflexivity.
  - intros c t ls w p Hnd Hq Hcap.
    assert (Hc : (capacity_seen w t ls <? DeliveryPosition.quantity p) = false)
      by (apply Z.ltb_ge; lia).
    change (SQLRepository.use_session StockPositionSQLRepository.__init__ request_session)
      with (@bound StockPosition.t).
    fold (clean c t ls). rewrite position_body_clean by exact Hnd. rewrite Hc.
    split; [|split; [|split]].
    + intros r Er. rewrite Er. split; [reflexivity|]. split.
      * apply pair_rows_incremented; assumption.
      * eapply stock_sum_incremented; eassumption.
    + intros Er Hv. rewrite Er, Hv.
      exists (StockPosition.with_created_at (now t) (new_position t w p)).
      split; [reflexivity|]. split; [reflexivity|]. split; [reflexivity|].
      split; [reflexivity|]. apply (stock_sum_inserted t w p).
    + intros Er msg Hv. rewrite Er, Hv. reflexivity.
    + intros r1 r2 more Er. rewrite Er. reflexivity.
  - intros db d resp db' Hnd H. unfold post_delivery in H. rewrite validate_any in H.
    apply process_delivery_Return in H; [|exact Hnd].
    destruct H as (w & _ & _ & _ & Hs & _). exact Hs.
  - intros db w i p Hnd Ew Hq Hcap. pose proof (warehouse_rows_self _ _ _ Ew) as Hid.
    assert (Hc : (Warehouse.max_capacity w - stock_sum db i <? DeliveryPosition.quantity p)
                 = false) by (apply Z.ltb_ge; lia).
    unfold post_delivery. rewrite validate_any.
    rewrite (delivery_single db w i p Hnd Ew), Hc.
    split; [|split; [|split]].
    + intros r Er. rewrite Er. split; [reflexivity|].
      eapply stock_sum_incremented; eassumption.
    + intros Er Hv. rewrite Er, Hv.
      split; [reflexivity|]. rewrite <- Hid. apply stock_sum_inserted.
    + intros Er msg Hv. rewrite Er, Hv. reflexivity.
    + intros r1 r2 more Er. rewrite Er. reflexivity.
Qed.

Lemma negative_quantity_applied_witness :
  (delivery.position_body
     (SQLRepository.use_session StockPositionSQLRepository.__init__ request_session)
     second_warehouse (DeliveryPosition.mk 11 (-3))
     (mkSession two_warehouses two_warehouses [] [])
   = (Return tt,
      mkSession two_warehouses
        (incremented two_warehouses (StockPosition.mk 21 0 11 2 7)
           (DeliveryPosition.mk 11 (-3))) []
        (loaded_after second_warehouse two_warehouses []))
   /\ stock_sum
        (incremented two_warehouses (StockPosition.mk 21 0 11 2 7)
           (DeliveryPosition.mk 11 (-3))) 2
      = 7 + -3)
  /\ post_delivery (test_store 100 true) (Delivery.mk 1 [DeliveryPosition.mk 11 (-5)])
     = (Return (WarehouseResponse_of
                  (inserted (test_store 100 true) (test_warehouse 100)
                     (DeliveryPosition.mk 11 (-5))) (test_warehouse 100)),
        inserted (test_store 100 true) (test_warehouse 100) (DeliveryPosition.mk 11 (-5))).
Proof.
  destruct negative_quantity_applied as (_ & Hbody & _ & Hone).
  split.
  - assert (Hk : stock_keys_unique two_warehouses)
      by (vm_compute; repeat constructor; intros []).
    assert (Hq : DeliveryPosition.quantity (DeliveryPosition.mk 11 (-3)) < 0)
      by (simpl; lia).
    assert (Hcap : 0 <= capacity_seen second_warehouse two_warehouses [])
      by (vm_compute; discriminate).
    destruct (Hbody two_warehouses two_warehouses [] second_warehouse
                (DeliveryPosition.mk 11 (-3)) Hk Hq Hcap) as (Hinc & _).
    destruct (Hinc (StockPosition.mk 21 0 11 2 7) eq_refl) as (Hrun & _ & Hsum).
    split; [exact Hrun|exact Hsum].
  - apply (Hone (test_store 100 true) (test_warehouse 100) 1%N (DeliveryPosition.mk 11 (-5))).
    + apply NoDup_nil.
    + reflexivity.
    + simpl; lia.
    + vm_compute; discriminate.
    + reflexivity.
    + reflexivity.
Defined.

(** C4: a line item that passes the capacity check increments the stock
    position of its (warehouse, material) pair when there is one, and
    stages a new position with exactly the requested quantity when there
    is none and the store takes it; so two deliveries in sequence of the
    same quantity of one material, to a warehouse that has room for both,
    leave one stock position holding the summed quantity. *)
Theorem stock_position_upsert :
  (forall c t ls w p,
     stock_keys_unique t ->
     (capacity_seen w t ls <? DeliveryPosition.quantity p) = false ->
     (forall r,
        pair_rows t (Warehouse.id w) (DeliveryPosition.material_id p) = [r] ->
        exists ls',
          delivery.position_body
            (SQLRepository.use_session StockPositionSQLRepository.__init__ request_session)
            w p (mkSession c t [] ls)
          = (Return tt, mkSession c (incremented t r p) [] ls')
          /\ pair_rows (incremented t r p) (Warehouse.id w) (DeliveryPosition.material_id p)
             = [StockPosition.with_quantity
                  (StockPosition.quantity r + DeliveryPosition.quantity p) r]
          /\ List.length (stock_positions (incremented t r p)) = List.length (stock_positions t))
     /\ (pair_rows t (Warehouse.id w) (DeliveryPosition.material_id p) = [] ->
         StockPosition_violation t None (new_position t w p) = None ->
         exists ls' r,
           delivery.position_body
             (SQLRepository.use_session StockPositionSQLRepository.__init__ request_session)
             w p (mkSession c t [] ls)
           = (Return tt, mkSession c (with_stock (stock_positions t ++ [r]) t) [] ls')
           /\ StockPosition.quantity r = DeliveryPosition.quantity p
           /\ StockPosition.warehouse_id r = Warehouse.id w
           /\ StockPosition.material_id r = DeliveryPosition.material_id p))
  /\ (forall db w i m q,
        stock_keys_unique db ->
        warehouse_rows db i = [w] ->
        pair_rows db i m = [] ->
        material_accepted db m ->
        0 <= q ->
        q + q <= Warehouse.max_capacity w - stock_sum db i ->
        exists resp1 db1 resp2 db2 r,
          process_delivery db (Delivery.mk i [DeliveryPosition.mk m q]) = (Return resp1, db1)
          /\ process_delivery db1 (Delivery.mk i [DeliveryPosition.mk m q])
             = (Return resp2, db2)
          /\ pair_rows db2 i m = [r]
          /\ StockPosition.quantity r = q + q
          /\ List.length (stock_positions db2) = S (List.length (stock_positions db))).
Proof.
  split.
  - intros c t ls w p Hnd Hcap.
    change (SQLRepository.use_session StockPositionSQLRepository.__init__ request_session)
      with (@bound StockPosition.t).
    fold (clean c t ls). rewrite position_body_clean by exact Hnd. rewrite Hcap.
    split.
    + intros r Er. rewrite Er. eexists. split; [reflexivity|]. split.
      * apply pair_rows_incremented; assumption.
      * unfold incremented, replace_row. simpl. apply length_map.
    + intros Er Hv. rewrite Er, Hv. eexists; eexists. split; [reflexivity|].
      repeat split.
  - intros db w i m q Hnd Ew Er Hm Hq Hcap.
    pose proof (warehouse_rows_self _ _ _ Ew) as Hid.
    set (p := DeliveryPosition.mk m q).
    set (db1 := inserted db w p).
    assert (H1 : process_delivery db (Delivery.mk i [p])
                 = (Return (WarehouseResponse_of db1 w), db1)).
    { rewrite (delivery_single db w i p Hnd Ew).
      assert (Hc : (Warehouse.max_capacity w - stock_sum db i <? DeliveryPosition.quantity p)
                   = false) by (apply Z.ltb_ge; simpl; lia).
      rewrite Hc. simpl DeliveryPosition.material_id. rewrite Er.
      rewrite (accepted_no_violation db w i p Ew Hm). reflexivity. }
    assert (Hnd1 : stock_keys_unique db1) by (apply inserted_keys_unique; exact Hnd).
    assert (Ew1 : warehouse_rows db1 i = [w]) by exact Ew.
    assert (Er1 : pair_rows db1 i m
                  = [StockPosition.with_created_at (now db) (new_position db w p)]).
    { subst db1. rewrite <- Hid. apply (pair_rows_inserted db w p).
      simpl. rewrite Hid. exact Er. }
    assert (Hs1 : stock_sum db1 i = stock_sum db i + q).
    { subst db1. rewrite <- Hid. apply (stock_sum_inserted db w p). }
    set (r1 := StockPosition.with_created_at (now db) (new_position db w p)) in *.
    set (db2 := incremented db1 r1 p).
    assert (H2 : process_delivery db1 (Delivery.mk i [p])
                 = (Return (WarehouseResponse_of db2 w), db2)).
    { rewrite (delivery_single db1 w i p Hnd1 Ew1).
      assert (Hc : (Warehouse.max_capacity w - stock_sum db1 i <? DeliveryPosition.quantity p)
                   = false) by (apply Z.ltb_ge; rewrite Hs1; simpl; lia).
      rewrite Hc. simpl DeliveryPosition.material_id. rewrite Er1. reflexivity. }
    exists (WarehouseResponse_of db1 w), db1, (WarehouseResponse_of db2 w), db2.
    eexists. split; [exact H1|]. split; [exact H2|]. split.
    + subst db2. apply pair_rows_incremented; assumption.
    + split; [reflexivity|].
      subst db2 db1. unfold incremented, inserted, replace_row. simpl.
      rewrite length_map, length_app. simpl. lia.
Qed.

Lemma stock_position_upsert_witness :
  exists resp1 db1 resp2 db2 r,
    process_delivery (test_store 100 true) (Delivery.mk 1 [DeliveryPosition.mk 11 5])
    = (Return resp1, db1)
    /\ process_delivery db1 (Delivery.mk 1 [DeliveryPosition.mk 11 5]) = (Return resp2, db2)
    /\ pair_rows db2 1 11 = [r]
    /\ StockPosition.quantity r = 5 + 5
    /\ List.length (stock_positions db2) = S (List.length (stock_positions (test_store 100 true))).
Proof.
  apply (proj2 stock_position_upsert (test_store 100 true) (test_warehouse 100) 1%N 11%N 5).
  - apply NoDup_nil.
  - reflexivity.
  - reflexivity.
  - right; reflexivity.
  - lia.
  - vm_compute; discriminate.
Defined.

(** C9 as stated fails: a warehouse holding five units whose max_capacity
    was then patched to 1 has capacity -4, and a line item of quantity 0
    is refused there, since -4 < 0. *)
Lemma zero_quantity_refused_below_capacity :
  let db1 := snd (process_delivery (test_store 10 true)
                    (Delivery.mk 1 [DeliveryPosition.mk 11 5])) in
  let db2 := snd (patch_warehouse db1 "test-warehouse" (WarehousePatch.mk None (Some 1))) in
  stock_sum db2 1 = 5
  /\ post_delivery db2 (Delivery.mk 1 [DeliveryPosition.mk 11 0])
     = (Raise delivery.exceeds_capacity, db2).
Proof. cbv zeta. split; vm_compute; reflexivity. Qed.

(** C9, amended: in a store whose stock positions have distinct primary
    keys, a delivery without line items to a warehouse that exists
    succeeds and leaves the store as it is.  A line item of quantity 0 is
    refused with CapacityExceeded when the capacity the handler reads for
    the warehouse at that item is negative, and passes the check
    otherwise; it then
    - leaves the store as it is when the (warehouse, material) pair has
      exactly one stock position;
    - creates a position of quantity 0 when the pair has none and the
      store takes the new row, the stock sum staying as it is;
    - raises IntegrityError when the pair has none and the store refuses
      the new row;
    - raises MultipleResultsFound when the pair has more than one.
    A delivery of one line item of quantity 0 is accordingly answered 400
    on a warehouse of negative capacity and, on any other, succeeds
    without a change, succeeds with one new position of quantity 0, or is
    answered 409 or 500 with the store as it was. *)
Theorem zero_quantity_delivery :
  (forall db w i,
     stock_keys_unique db ->
     warehouse_rows db i = [w] ->
     post_delivery db (Delivery.mk i []) = (Return (WarehouseResponse_of db w), db))
  /\ (forall c t ls w p,
        stock_keys_unique t ->
        DeliveryPosition.quantity p = 0 ->
        (capacity_seen w t ls < 0 ->
         delivery.position_body
           (SQLRepository.use_session StockPositionSQLRepository.__init__ request_session)
           w p (mkSession c t [] ls)
         = (Raise delivery.exceeds_capacity, mkSession c t [] (loaded_after w t ls)))
        /\ (0 <= capacity_seen w t ls ->
            (forall r,
               pair_rows t (Warehouse.id w) (DeliveryPosition.material_id p) = [r] ->
               delivery.position_body
                 (SQLRepository.use_session StockPositionSQLRepository.__init__
                    request_session)
                 w p (mkSession c t [] ls)
               = (Return tt, mkSession c t [] (loaded_after w t ls)))
            /\ (pair_rows t (Warehouse.id w) (DeliveryPosition.material_id p) = [] ->
                StockPosition_violation t None (new_position t w p) = None ->
                exists r,
                  delivery.position_body
                    (SQLRepository.use_session StockPositionSQLRepository.__init__
                       request_session)
                    w p (mkSession c t [] ls)
                  = (Return tt,
                     mkSession c (with_stock (stock_positions t ++ [r]) t) []
                       (loaded_after w t ls))
                  /\ StockPosition.warehouse_id r = Warehouse.id w
                  /\ StockPosition.material_id r = DeliveryPosition.material_id p
                  /\ StockPosition.quantity r = 0
                  /\ stock_sum (with_stock (stock_positions t ++ [r]) t) (Warehouse.id w)
                     = stock_sum t (Warehouse.id w))
            /\ (pair_rows t (Warehouse.id w) (DeliveryPosition.material_id p) = [] ->
                forall msg,
                  StockPosition_violation t None (new_position t w p) = Some msg ->
                  delivery.position_body
                    (SQLRepository.use_session StockPositionSQLRepository.__init__
                       request_session)
                    w p (mkSession c t [] ls)
                  = (Raise (IntegrityError msg), mkSession c c [] []))
            /\ (forall r1 r2 more,
                  pair_rows t (Warehouse.id w) (DeliveryPosition.material_id p)
                  = r1 :: r2 :: more ->
                  delivery.position_body
                    (SQLRepository.use_session StockPositionSQLRepository.__init__
                       request_session)
                    w p (mkSession c t [] ls)
                  = (Raise MultipleResultsFound, mkSession c t [] (loaded_after w t ls)))))
  /\ (forall db w i m,
        stock_keys_unique db ->
        warehouse_rows db i = [w] ->
        (Warehouse.max_capacity w - stock_sum db i < 0 ->
         post_delivery db (Delivery.mk i [DeliveryPosition.mk m 0])
         = (Raise delivery.exceeds_capacity, db))
        /\ (0 <= Warehouse.max_capacity w - stock_sum db i ->
            (forall r,
               pair_rows db i m = [r] ->
               post_delivery db (Delivery.mk i [DeliveryPosition.mk m 0])
               = (Return (WarehouseResponse_of db w), db))
            /\ (pair_rows db i m = [] ->
                StockPosition_violation db None (new_position db w (DeliveryPosition.mk m 0))
                = None ->
                exists db' r,
                  post_delivery db (Delivery.mk i [DeliveryPosition.mk m 0])
                  = (Return (WarehouseResponse_of db' w), db')
                  /\ stock_positions db' = stock_positions db ++ [r]
                  /\ StockPosition.warehouse_id r = i
                  /\ StockPosition.material_id r = m
                  /\ StockPosition.quantity r = 0
                  /\ stock_sum db' i = stock_sum db i)
            /\ (pair_rows db i m = [] ->
                forall msg,
                  StockPosition_violation db None (new_position db w (DeliveryPosition.mk m 0))
                  = Some msg ->
                  post_delivery db (Delivery.mk i [DeliveryPosition.mk m 0])
                  = (Raise (HTTPException HTTP_409_CONFLICT msg), db))
            /\ (forall r1 r2 more,
                  pair_rows db i m = r1 :: r2 :: more ->
                  post_delivery db (Delivery.mk i [DeliveryPosition.mk m 0])
                  = (Raise (HTTPException HTTP_500_INTERNAL_SERVER_ERROR
                              (str MultipleResultsFound)), db)))).
Proof.
  split; [|split].
  - intros db w i Hnd Ew. unfold post_delivery. rewrite validate_any.
    apply delivery_empty; assumption.
  - intros c t ls w p Hnd Hq.
    change (SQLRepository.use_session StockPositionSQLRepository.__init__ request_session)
      with (@bound StockPosition.t).
    fold (clean c t ls). rewrite position_body_clean by exact Hnd. rewrite Hq.
    split.
    + intros Hcap. apply Z.ltb_lt in Hcap. rewrite Hcap. reflexivity.
    + intros Hcap. apply Z.ltb_ge in Hcap. rewrite Hcap.
      split; [|split; [|split]].
      * intros r Er. rewrite Er.
        apply pair_rows_In in Er. destruct Er as (Hin & _).
        pose proof (incremented_by_zero t r p Hnd Hin Hq) as Ez.
        unfold incremented in Ez. rewrite Hq in Ez. rewrite Ez. reflexivity.
      * intros Er Hv. rewrite Er, Hv.
        exists (StockPosition.with_created_at (now t) (new_position t w p)).
        split; [reflexivity|]. split; [reflexivity|]. split; [reflexivity|].
        split; [exact Hq|].
        pose proof (stock_sum_inserted t w p) as Hs. unfold inserted in Hs.
        rewrite Hs, Hq. lia.
      * intros Er msg Hv. rewrite Er, Hv. reflexivity.
      * intros r1 r2 more Er. rewrite Er. reflexivity.
  - intros db w i m Hnd Ew. pose proof (warehouse_rows_self _ _ _ Ew) as Hid.
    set (p := DeliveryPosition.mk m 0).
    unfold post_delivery. rewrite validate_any.
    rewrite (delivery_single db w i p Hnd Ew).
    cbn [DeliveryPosition.quantity DeliveryPosition.material_id p].
    split.
    + intros Hcap. apply Z.ltb_lt in Hcap. rewrite Hcap. reflexivity.
    + intros Hcap. apply Z.ltb_ge in Hcap. rewrite Hcap.
      split; [|split; [|split]].
      * intros r Er. rewrite Er.
        apply pair_rows_In in Er. destruct Er as (Hin & _).
        rewrite (incremented_by_zero db r p Hnd Hin eq_refl). reflexivity.
      * intros Er Hv. exists (inserted db w p).
        exists (StockPosition.with_created_at (now db) (new_position db w p)).
        rewrite Er. fold p in Hv. rewrite Hv.
        split; [reflexivity|]. split; [reflexivity|]. split; [exact Hid|].
        split; [reflexivity|]. split; [reflexivity|].
        rewrite <- Hid. rewrite (stock_sum_inserted db w p). simpl. lia.
      * intros Er msg Hv. rewrite Er. fold p in Hv. rewrite Hv. reflexivity.
      * intros r1 r2 more Er. rewrite Er. reflexivity.
Qed.

Lemma zero_quantity_delivery_witness :
  delivery.position_body
    (SQLRepository.use_session StockPositionSQLRepository.__init__ request_session)
    second_warehouse (DeliveryPosition.mk 11 0)
    (mkSession two_warehouses two_warehouses [] [])
  = (Return tt,
     mkSession two_warehouses two_warehouses []
       (loaded_after second_warehouse two_warehouses []))
  /\ post_delivery two_warehouses (Delivery.mk 2 [DeliveryPosition.mk 11 0])
     = (Return (WarehouseResponse_of two_warehouses second_warehouse), two_warehouses)
  /\ (exists db' r,
        post_delivery (test_store 100 true) (Delivery.mk 1 [DeliveryPosition.mk 11 0])
        = (Return (WarehouseResponse_of db' (test_warehouse 100)), db')
        /\ stock_positions db' = [r]
        /\ StockPosition.quantity r = 0)
  /\ post_delivery (test_store 100 true) (Delivery.mk 1 [])
     = (Return (WarehouseResponse_of (test_store 100 true) (test_warehouse 100)),
        test_store 100 true).
Proof.
  destruct zero_quantity_delivery as (Hempty & Hbody & Hone).
  assert (Hk : stock_keys_unique two_warehouses)
    by (vm_compute; repeat constructor; intros []).
  assert (Hcap : 0 <= capacity_seen second_warehouse two_warehouses [])
    by (vm_compute; discriminate).
  assert (Hcap2 : 0 <= Warehouse.max_capacity second_warehouse - stock_sum two_warehouses 2)
    by (vm_compute; discriminate).
  assert (Hcap1 : 0 <= Warehouse.max_capacity (test_warehouse 100)
                       - stock_sum (test_store 100 true) 1)
    by (vm_compute; discriminate).
  split; [|split; [|split]].
  - destruct (Hbody two_warehouses two_warehouses [] second_warehouse
                (DeliveryPosition.mk 11 0) Hk eq_refl) as (_ & Hin).
    destruct (Hin Hcap) as (Hsame & _).
    exact (Hsame (StockPosition.mk 21 0 11 2 7) eq_refl).
  - destruct (Hone two_warehouses second_warehouse 2%N 11%N Hk eq_refl) as (_ & Hin).
    destruct (Hin Hcap2) as (Hsame & _).
    exact (Hsame (StockPosition.mk 21 0 11 2 7) eq_refl).
  - destruct (Hone (test_store 100 true) (test_warehouse 100) 1%N 11%N (NoDup_nil _) eq_refl)
      as (_ & Hin).
    destruct (Hin Hcap1) as (_ & Hnew & _).
    destruct (Hnew eq_refl eq_refl) as (db' & r & Hrun & Hrows & _ & _ & Hq & _).
    exists db', r. split; [exact Hrun|]. split; [exact Hrows|exact Hq].
  - apply (Hempty (test_store 100 true) (test_warehouse 100) 1%N (NoDup_nil _) eq_refl).
Defined.

(** ** Repositories without a session *)

Fixpoint ends_with (suffix s : string) : bool :=
  if String.eqb s suffix then true
  else
    match s with
    | EmptyString => false
    | String _ rest => ends_with suffix rest
    end.

Lemma ends_with_append suffix s : ends_with suffix (String.append s suffix) = true.
Proof.
  induction s as [|c s IH].
  - cbn [String.append]. destruct suffix as [|a suffix]; [reflexivity|].
    cbn [ends_with]. rewrite String.eqb_refl. reflexivity.
  - cbn [String.append ends_with].
    destruct (String.eqb (String c (String.append s suffix)) suffix); [reflexivity|exact IH].
Qed.

Lemma not_initialized_is_not_not_found {T} `{Model T} (self : SQLRepository.t T) :
  SQLRepository.not_initialized <> SQLRepository.not_found self.
Proof.
  unfold SQLRepository.not_initialized, SQLRepository.not_found. intros E.
  inversion E as [E'].
  pose proof (ends_with_append " not found" (SQLRepository._model_name self)) as Hs.
  rewrite <- E' in Hs. vm_compute in Hs. discriminate.
Qed.

(** C8 as stated fails: the error of a repository without a session is a
    RepositoryException, the class that signals "not found"; the clause
    [except RepositoryException] with which every handler recognises a
    missing row accepts both, and [update_warehouse]'s clause turns both
    into a 404. *)
Lemma not_initialized_caught_as_not_found :
  let s := Session_open (test_store 100 true) in
  let to_404 := fun exc : exn => @raise Warehouse.t (HTTPException HTTP_404_NOT_FOUND (str exc)) in
  exists unbound_error missing_error h1 h2,
    SQLRepository.find_by_slug WarehouseSQLRepository "no-such-warehouse" s
    = (Raise unbound_error, s)
    /\ SQLRepository.find_by_slug
         (SQLRepository.use_session WarehouseSQLRepository request_session)
         "no-such-warehouse" s
       = (Raise missing_error, s)
    /\ except_RepositoryException to_404 unbound_error = Some h1
    /\ except_RepositoryException to_404 missing_error = Some h2
    /\ status_code match fst (h1 s) with Raise e => e | Return _ => unbound_error end
       = HTTP_404_NOT_FOUND
    /\ status_code match fst (h2 s) with Raise e => e | Return _ => missing_error end
       = HTTP_404_NOT_FOUND.
Proof.
  cbv zeta. do 4 eexists.
  split; [reflexivity|]. split; [vm_compute; reflexivity|].
  split; [reflexivity|]. split; [reflexivity|]. split; reflexivity.
Qed.

(** C8, amended: every operation of a repository that has no session
    raises RepositoryException("database session not initialized") and
    leaves the session, hence the data, as it is.  The exception has the
    class of the "not found" failure and differs from it in its message
    only. *)
Theorem unbound_repository_raises {T} `{Model T} (self : SQLRepository.t T)
  (as_entity : T -> entity) (s : Session) :
  SQLRepository._session self = None ->
  (forall id, SQLRepository.find_by_id self id s = (Raise SQLRepository.not_initialized, s))
  /\ (forall slug,
        SQLRepository.find_by_slug self slug s = (Raise SQLRepository.not_initialized, s))
  /\ (forall offset limit,
        SQLRepository.list_paginated self offset limit s
        = (Raise SQLRepository.not_initialized, s))
  /\ (forall record,
        SQLRepository.create as_entity self record s
        = (Raise SQLRepository.not_initialized, s))
  /\ (forall record,
        SQLRepository.update as_entity self record s
        = (Raise SQLRepository.not_initialized, s))
  /\ (forall record,
        SQLRepository.delete as_entity self record s
        = (Raise SQLRepository.not_initialized, s))
  /\ (forall warehouse_id material_id,
        StockPositionSQLRepository.find_by_warehouse_id_and_material_id
          StockPositionSQLRepository.__init__ warehouse_id material_id s
        = (Raise SQLRepository.not_initialized, s))
  /\ SQLRepository.not_initialized
     = RepositoryException "database session not initialized"
  /\ (exists msg, SQLRepository.not_found self = RepositoryException msg)
  /\ SQLRepository.not_initialized <> SQLRepository.not_found self.
Proof.
  intros Hs.
  unfold SQLRepository.find_by_id, SQLRepository.find_by_slug, SQLRepository.list_paginated,
    SQLRepository.create, SQLRepository.update, SQLRepository.delete.
  rewrite Hs. repeat split.
  - eexists; reflexivity.
  - apply not_initialized_is_not_not_found.
Qed.

Lemma unbound_repository_raises_witness :
  SQLRepository.find_by_id WarehouseSQLRepository 1 (Session_open (test_store 100 true))
  = (Raise (RepositoryException "database session not initialized"),
     Session_open (test_store 100 true)).
Proof.
  apply (proj1 (unbound_repository_raises WarehouseSQLRepository AWarehouse
                  (Session_open (test_store 100 true)) eq_refl)).
Defined.

(** ** Patching a warehouse *)

Definition slug_rows (t : Database) (slug : string) : list Warehouse.t :=
  filter (fun w => String.eqb (Warehouse.slug w) slug) (warehouses t).

(** The primary-key constraint of the warehouse table. *)
Definition warehouse_keys_unique (db : Database) : Prop :=
  NoDup (map Warehouse.id (warehouses db)).

Definition replace_warehouse (w' : Warehouse.t) (db : Database) : Database :=
  mkDatabase (materials db)
    (map (fun r => if N.eqb (Warehouse.id r) (Warehouse.id w') then w' else r) (warehouses db))
    (stock_positions db) (foreign_keys db) (now db).

(** The instance after the assignments of [update_warehouse]. *)
Definition patched (w : Warehouse.t) (p : WarehousePatch.t) : Warehouse.t :=
  let w :=
    match WarehousePatch.location p with
    | Some l => Warehouse.with_location l w
    | None => w
    end in
  match WarehousePatch.max_capacity p with
  | Some m => Warehouse.with_max_capacity m w
  | None => w
  end.

(** A new location the request validation and the store both take: at
    least two characters, and the location of no other warehouse. *)
Definition location_acceptable (db : Database) (w : Warehouse.t) (l : option string) : Prop :=
  match l with
  | None => True
  | Some l =>
      Nat.leb 2 (String.length l) = true
      /\ taken Warehouse.location Warehouse.id l (Warehouse.id w) (warehouses db) = false
  end.

Lemma find_by_slug_clean c t ls slug :
  SQLRepository.find_by_slug (bound : SQLRepository.t Warehouse.t) slug (clean c t ls)
  = match slug_rows t slug with
    | [] => (Raise (RepositoryException "warehouse not found"), clean c t ls)
    | [w] => (Return w, clean c t ls)
    | _ => (Raise MultipleResultsFound, clean c t ls)
    end.
Proof.
  unfold SQLRepository.find_by_slug, slug_rows, try_except, bindM, exec, flush, clean.
  simpl. destruct (filter _ (warehouses t)) as [|w [|w' rest]]; reflexivity.
Qed.

Lemma patched_id w p : Warehouse.id (patched w p) = Warehouse.id w.
Proof. destruct p as [[l|] [m|]]; reflexivity. Qed.

Lemma write_patched t w p :
  warehouse_keys_unique t -> In w (warehouses t) ->
  location_acceptable t w (WarehousePatch.location p) ->
  write (patched w p) t = inl (replace_warehouse (patched w p) t).
Proof.
  intros Hnd Hin Hl. unfold write. simpl. rewrite patched_id.
  rewrite (filter_unique Warehouse.id w _ Hnd Hin).
  assert (Hv : Warehouse_violation t (Some w) (patched w p) = None).
  { unfold Warehouse_violation, first_violation, changed.
    destruct p as [[l|] [m|]]; simpl in *; rewrite !String.eqb_refl; simpl;
      try reflexivity;
      destruct Hl as [_ Hl]; rewrite Hl, !andb_false_r; reflexivity. }
  rewrite Hv. unfold replace_warehouse. rewrite patched_id. reflexivity.
Qed.

Lemma update_patched_clean c t ls w p :
  warehouse_keys_unique t -> In w (warehouses t) ->
  location_acceptable t w (WarehousePatch.location p) ->
  SQLRepository.update AWarehouse bound (patched w p) (clean c t ls)
  = (Return (patched w p), clean c (replace_warehouse (patched w p) t) ls).
Proof.
  intros Hnd Hin Hl. unfold SQLRepository.update, bindM, add, flush, clean. simpl.
  rewrite (write_patched t w p Hnd Hin Hl). reflexivity.
Qed.

Lemma warehouse_rows_replaced t w w' :
  warehouse_keys_unique t -> In w (warehouses t) -> Warehouse.id w' = Warehouse.id w ->
  warehouse_rows (replace_warehouse w' t) (Warehouse.id w) = [w'].
Proof.
  intros Hnd Hin Hid. unfold warehouse_rows, replace_warehouse. simpl.
  rewrite filter_map_in.
  - rewrite (filter_unique Warehouse.id w _ Hnd Hin). simpl.
    rewrite Hid, N.eqb_refl. reflexivity.
  - intros x _. simpl.
    destruct (N.eqb_spec (Warehouse.id x) (Warehouse.id w')) as [E|E]; [|reflexivity].
    rewrite E, Hid. reflexivity.
Qed.

Lemma simple_model_validate_expired t w w' :
  warehouse_rows t (Warehouse.id w) = [w'] ->
  WarehouseResponseSimple.model_validate w (clean t t [])
  = (Return (WarehouseResponseSimple.mk (Warehouse.name w') (Warehouse.slug w')
               (Warehouse.location w')
               (Warehouse.max_capacity w' - stock_sum t (Warehouse.id w'))
               (Warehouse.max_capacity w')),
     clean t t [(Warehouse.id w', map StockPosition.id (stock_of t (Warehouse.id w')))]).
Proof.
  intros Hw. unfold WarehouseResponseSimple.model_validate, refresh.
  unfold bindM at 1. unfold bindM at 1. unfold exec, flush, bindM at 1, clean. simpl.
  unfold warehouse_rows in Hw. rewrite Hw. unfold ret at 1.
  fold (clean t t []). unfold bindM. rewrite capacity_clean. reflexivity.
Qed.

(** The patch of an existing warehouse with at least one field set. *)
Lemma patch_warehouse_updates db slug w p :
  warehouse_keys_unique db ->
  slug_rows db slug = [w] ->
  WarehousePatch.validate p = true ->
  location_acceptable db w (WarehousePatch.location p) ->
  (WarehousePatch.location p <> None \/ WarehousePatch.max_capacity p <> None) ->
  patch_warehouse db slug p
  = (Return (WarehouseResponseSimple.mk (Warehouse.name w) (Warehouse.slug w)
               (Warehouse.location (patched w p))
               (Warehouse.max_capacity (patched w p) - stock_sum db (Warehouse.id w))
               (Warehouse.max_capacity (patched w p))),
     replace_warehouse (patched w p) db).
Proof.
  intros Hnd Es Hval Hl Hset.
  assert (Hin : In w (warehouses db)) by (apply (filter_head_In _ _ _ _ Es)).
  unfold patch_warehouse. rewrite Hval.
  unfold routers_warehouses.update_warehouse.
  change (SQLRepository.use_session WarehouseSQLRepository request_session)
    with (@bound Warehouse.t).
  change (Session_open db) with (clean db db []).
  unfold bindM at 1. unfold try_except. rewrite find_by_slug_clean, Es.
  set (t' := replace_warehouse (patched w p) db).
  assert (Hw' : warehouse_rows t' (Warehouse.id (patched w p)) = [patched w p]).
  { rewrite patched_id. apply warehouse_rows_replaced; [assumption..|apply patched_id]. }
  assert (Hrun :
    ((SQLRepository.update AWarehouse bound (patched w p) ;; commit) ;;
     WarehouseResponseSimple.model_validate (patched w p)) (clean db db [])
    = (Return (WarehouseResponseSimple.mk (Warehouse.name w) (Warehouse.slug w)
                 (Warehouse.location (patched w p))
                 (Warehouse.max_capacity (patched w p) - stock_sum db (Warehouse.id w))
                 (Warehouse.max_capacity (patched w p))),
       clean t' t' [(Warehouse.id w, map StockPosition.id (stock_of t' (Warehouse.id w)))])).
  { unfold bindM. rewrite (update_patched_clean db db [] w p Hnd Hin Hl). cbv beta iota.
    rewrite commit_clean. cbv beta iota. fold t'.
    rewrite (simple_model_validate_expired t' (patched w p) (patched w p) Hw').
    rewrite patched_id. destruct p as [[l|] [m|]]; reflexivity. }
  clearbody t'.
  destruct p as [[l|] [m|]]; cbv beta iota;
    cbn [patched WarehousePatch.location WarehousePatch.max_capacity] in Hrun |- *;
    try (rewrite Hrun; reflexivity).
  destruct Hset as [H|H]; exfalso; apply H; reflexivity.
Qed.

(** C10: the patch of a warehouse takes any max_capacity of at least 1,
    whatever the warehouse holds.  When the stock quantities sum to S and
    1 <= m < S the patch succeeds, the store keeps all stock rows, and the
    capacity of the warehouse, in the response and as derived from the
    patched store, is m - S, a negative number. *)
Theorem patch_below_stock_succeeds db slug w p m :
  warehouse_keys_unique db ->
  slug_rows db slug = [w] ->
  WarehousePatch.max_capacity p = Some m ->
  location_acceptable db w (WarehousePatch.location p) ->
  1 <= m ->
  m < stock_sum db (Warehouse.id w) ->
  exists resp db' w',
    patch_warehouse db slug p = (Return resp, db')
    /\ WarehouseResponseSimple.max_capacity resp = m
    /\ WarehouseResponseSimple.capacity resp = m - stock_sum db (Warehouse.id w)
    /\ WarehouseResponseSimple.capacity resp < 0
    /\ stock_positions db' = stock_positions db
    /\ warehouse_rows db' (Warehouse.id w) = [w']
    /\ Warehouse.capacity w' (Some (stock_of db' (Warehouse.id w)))
       = m - stock_sum db (Warehouse.id w).
Proof.
  intros Hnd Es Hm Hl H1 HS.
  assert (Hin : In w (warehouses db)) by (apply (filter_head_In _ _ _ _ Es)).
  assert (Hval : WarehousePatch.validate p = true).
  { assert (E : (1 <=? m) = true) by (apply Z.leb_le; exact H1).
    unfold WarehousePatch.validate, Field.check_optional, Field.check_int, Field.check_str.
    rewrite Hm.
    cbn [Field.ge Field.min_length Field.max_length WarehousePatch.max_capacity_field
           WarehousePatch.location_field].
    rewrite E. destruct (WarehousePatch.location p) as [l|]; [|reflexivity].
    destruct Hl as [Hl _]. rewrite Hl. reflexivity. }
  assert (Hmax : Warehouse.max_capacity (patched w p) = m).
  { unfold patched. rewrite Hm. reflexivity. }
  exists (WarehouseResponseSimple.mk (Warehouse.name w) (Warehouse.slug w)
            (Warehouse.location (patched w p))
            (Warehouse.max_capacity (patched w p) - stock_sum db (Warehouse.id w))
            (Warehouse.max_capacity (patched w p))).
  exists (replace_warehouse (patched w p) db), (patched w p).
  split.
  - apply patch_warehouse_updates; try assumption. right. rewrite Hm. discriminate.
  - simpl. rewrite Hmax. repeat split; try lia.
    apply warehouse_rows_replaced; [assumption..|apply patched_id].
Qed.

Lemma patch_below_stock_succeeds_witness :
  let db := snd (process_delivery (test_store 10 true)
                   (Delivery.mk 1 [DeliveryPosition.mk 11 5])) in
  exists resp db' w',
    patch_warehouse db "test-warehouse" (WarehousePatch.mk None (Some 1)) = (Return resp, db')
    /\ WarehouseResponseSimple.max_capacity resp = 1
    /\ WarehouseResponseSimple.capacity resp = 1 - stock_sum db 1
    /\ WarehouseResponseSimple.capacity resp < 0
    /\ stock_positions db' = stock_positions db
    /\ warehouse_rows db' 1 = [w']
    /\ Warehouse.capacity w' (Some (stock_of db' 1)) = 1 - stock_sum db 1.
Proof.
  cbv zeta.
  apply (patch_below_stock_succeeds
           (snd (process_delivery (test_store 10 true)
                   (Delivery.mk 1 [DeliveryPosition.mk 11 5])))
           "test-warehouse" (test_warehouse 10) (WarehousePatch.mk None (Some 1)) 1).
  - vm_compute. constructor; [intros []|constructor].
  - vm_compute. reflexivity.
  - reflexivity.
  - exact I.
  - lia.
  - vm_compute. reflexivity.
Defined.

(** * Further properties of the delivery handler *)

(** The exceptions the body of the outer [try] can end in. *)
Inductive body_failure : exn -> Prop :=
| failure_capacity : body_failure delivery.exceeds_capacity
| failure_integrity msg : body_failure (IntegrityError msg)
| failure_multiple : body_failure MultipleResultsFound
| failure_missing : body_failure (RepositoryException "warehouse not found").

Lemma position_body_Raise_kind c t ls w p e s' :
  stock_keys_unique t ->
  delivery.position_body bound w p (clean c t ls) = (Raise e, s') ->
  body_failure e.
Proof.
  intros Hnd. rewrite position_body_clean by exact Hnd.
  destruct (capacity_seen w t ls <? DeliveryPosition.quantity p).
  - intros H; inversion H; constructor.
  - destruct (pair_rows t (Warehouse.id w) (DeliveryPosition.material_id p))
      as [|r [|r' rest]].
    + destruct (StockPosition_violation t None (new_position t w p));
        intros H; inversion H; constructor.
    + discriminate.
    + intros H; inversion H; constructor.
Qed.

Lemma for_each_Raise_kind w ps : forall c t ls e s',
  stock_keys_unique t ->
  for_each ps (delivery.position_body bound w) (clean c t ls) = (Raise e, s') ->
  body_failure e.
Proof.
  induction ps as [|p ps IH]; intros c t ls e s' Hnd; simpl.
  - discriminate.
  - unfold bindM.
    destruct (delivery.position_body bound w p (clean c t ls)) as [[[]|e1] s1] eqn:E.
    + apply position_body_Return in E; [|exact Hnd].
      destruct E as (t1 & ls1 & -> & Hnd1 & _ & _).
      intros H. eapply IH; eassumption.
    + intros H; inversion H; subst.
      eapply position_body_Raise_kind; eassumption.
Qed.

Lemma transaction_body_Raise_kind db d e s' :
  stock_keys_unique db ->
  delivery.transaction_body bound bound d (clean db db []) = (Raise e, s') ->
  body_failure e.
Proof.
  intros Hnd. unfold delivery.transaction_body.
  unfold bindM at 1. rewrite find_warehouse_clean.
  destruct (warehouse_rows db (Delivery.warehouse_id d)) as [|w [|w' rest]] eqn:Ew;
    try (intros H; inversion H; constructor).
  pose proof (warehouse_rows_self _ _ _ Ew) as Hid.
  unfold bindM at 1.
  destruct (for_each (Delivery.positions d) (delivery.position_body bound w)
              (clean db db [])) as [[[]|e1] s1] eqn:El.
  - apply for_each_Return in El; [|exact Hnd].
    destruct El as (t' & ls' & -> & Hnd' & Hf & Hs).
    unfold bindM at 1. rewrite commit_clean.
    assert (Hw' : warehouse_rows t' (Warehouse.id w) = [w]).
    { rewrite (warehouse_rows_frame db t') by exact Hf. rewrite Hid. exact Ew. }
    rewrite (model_validate_expired t' w w Hnd' Hw'). discriminate.
  - intros H; inversion H; subst. eapply for_each_Raise_kind; eassumption.
Qed.

(** X1: a delivery is applied as a whole or not at all: whatever error it
    ends in, the store after the call is the store before it. *)
Theorem delivery_failure_leaves_store db d e db' :
  stock_keys_unique db ->
  process_delivery db d = (Raise e, db') ->
  db' = db.
Proof. apply process_delivery_Raise. Qed.

Lemma delivery_failure_leaves_store_witness :
  snd (process_delivery (test_store 3 true) (test_delivery 2 5)) = test_store 3 true.
Proof.
  assert (E : process_delivery (test_store 3 true) (test_delivery 2 5)
              = (Raise delivery.exceeds_capacity, test_store 3 true))
    by (vm_compute; reflexivity).
  rewrite E.
  exact (delivery_failure_leaves_store (test_store 3 true) (test_delivery 2 5) _ _
           (NoDup_nil _) E).
Defined.

(** X2: the delivery handler answers an error with 400, 409 or 500 and
    with nothing else (never 404); 400 is the refusal for capacity, 409
    carries the message of the store's integrity error. *)
Theorem delivery_error_statuses db d e db' :
  stock_keys_unique db ->
  process_delivery db d = (Raise e, db') ->
  e = delivery.exceeds_capacity
  \/ (exists msg, e = HTTPException HTTP_409_CONFLICT msg)
  \/ (exists detail, e = HTTPException HTTP_500_INTERNAL_SERVER_ERROR detail).
Proof.
  intros Hnd. rewrite process_delivery_eq. unfold try_except.
  destruct (delivery.transaction_body bound bound d (clean db db [])) as [[resp|e1] s1] eqn:E.
  - discriminate.
  - apply transaction_body_Raise_kind in E; [|exact Hnd].
    destruct E; simpl; unfold bindM, rollback, raise; simpl;
      intros H; inversion H; subst; eauto.
Qed.

Lemma delivery_error_statuses_witness :
  exists e,
    fst (process_delivery (test_store 3 true) (test_delivery 2 5)) = Raise e
    /\ (e = delivery.exceeds_capacity
        \/ (exists msg, e = HTTPException HTTP_409_CONFLICT msg)
        \/ (exists detail, e = HTTPException HTTP_500_INTERNAL_SERVER_ERROR detail)).
Proof.
  assert (E : process_delivery (test_store 3 true) (test_delivery 2 5)
              = (Raise delivery.exceeds_capacity, test_store 3 true))
    by (vm_compute; reflexivity).
  exists delivery.exceeds_capacity. split; [rewrite E; reflexivity|].
  exact (delivery_error_statuses (test_store 3 true) (test_delivery 2 5) _ _
           (NoDup_nil _) E).
Defined.

(** What the first line item decides when it does not get through. *)
Lemma first_position_raises db w i p rest e ls' :
  stock_keys_unique db -> warehouse_rows db i = [w] ->
  delivery.position_body bound w p (clean db db []) = (Raise e, clean db db ls') ->
  exists handler,
    delivery.on_error e = Some handler
    /\ process_delivery db (Delivery.mk i (p :: rest)) = (fst (handler (clean db db ls')), db).
Proof.
  intros Hnd Ew Hp.
  rewrite process_delivery_eq. unfold try_except, delivery.transaction_body.
  cbn [Delivery.warehouse_id Delivery.positions for_each]. unfold bindM.
  rewrite find_warehouse_clean, Ew. cbv beta iota. rewrite Hp.
  destruct (on_error_run e (clean db db ls')) as (st & de & h & Eh & Er).
  exists h. split; [exact Eh|]. rewrite Eh, Er. reflexivity.
Qed.

(** X3: a delivery whose first line item asks for more than the capacity
    of the warehouse is refused with 400 whatever follows, and the store
    is left as it is. *)
Theorem first_item_over_capacity db w i p rest :
  stock_keys_unique db ->
  warehouse_rows db i = [w] ->
  Warehouse.max_capacity w - stock_sum db i < DeliveryPosition.quantity p ->
  process_delivery db (Delivery.mk i (p :: rest)) = (Raise delivery.exceeds_capacity, db).
Proof.
  intros Hnd Ew Hcap. pose proof (warehouse_rows_self _ _ _ Ew) as Hid.
  assert (Hp : delivery.position_body bound w p (clean db db [])
               = (Raise delivery.exceeds_capacity, clean db db (loaded_after w db []))).
  { rewrite position_body_clean by exact Hnd.
    change (capacity_seen w db [])
      with (Warehouse.max_capacity w - stock_sum db (Warehouse.id w)).
    rewrite Hid.
    assert (Hc : (Warehouse.max_capacity w - stock_sum db i <? DeliveryPosition.quantity p)
                 = true) by (apply Z.ltb_lt; exact Hcap).
    rewrite Hc. reflexivity. }
  destruct (first_position_raises db w i p rest _ _ Hnd Ew Hp) as (h & Eh & ->).
  simpl in Eh. inversion Eh; subst h. reflexivity.
Qed.

Lemma first_item_over_capacity_witness :
  process_delivery (test_store 100 true) (test_delivery 200 100)
  = (Raise delivery.exceeds_capacity, test_store 100 true).
Proof.
  apply (first_item_over_capacity (test_store 100 true) (test_warehouse 100) 1%N
           (DeliveryPosition.mk 11 200) [DeliveryPosition.mk 12 100]).
  - apply NoDup_nil.
  - reflexivity.
  - vm_compute. reflexivity.
Defined.

(** X4: when the store holds two rows or more for the (warehouse,
    material) pair of the first line item, [.one()] raises
    MultipleResultsFound, which the handler does not translate: the answer
    is 500 and nothing is written. *)
Theorem duplicate_pair_rows_internal_error db w i p rest r1 r2 more :
  stock_keys_unique db ->
  warehouse_rows db i = [w] ->
  DeliveryPosition.quantity p <= Warehouse.max_capacity w - stock_sum db i ->
  pair_rows db i (DeliveryPosition.material_id p) = r1 :: r2 :: more ->
  process_delivery db (Delivery.mk i (p :: rest))
  = (Raise (HTTPException HTTP_500_INTERNAL_SERVER_ERROR
              "Multiple rows were found when exactly one was required"), db).
Proof.
  intros Hnd Ew Hcap Er. pose proof (warehouse_rows_self _ _ _ Ew) as Hid.
  assert (Hp : delivery.position_body bound w p (clean db db [])
               = (Raise MultipleResultsFound, clean db db (loaded_after w db []))).
  { rewrite position_body_clean by exact Hnd.
    change (capacity_seen w db [])
      with (Warehouse.max_capacity w - stock_sum db (Warehouse.id w)).
    rewrite Hid.
    assert (Hc : (Warehouse.max_capacity w - stock_sum db i <? DeliveryPosition.quantity p)
                 = false) by (apply Z.ltb_ge; exact Hcap).
    rewrite Hc, Er. reflexivity. }
  destruct (first_position_raises db w i p rest _ _ Hnd Ew Hp) as (h & Eh & ->).
  simpl in Eh. inversion Eh; subst h. reflexivity.
Qed.

Definition duplicated_store : Database :=
  mkDatabase [hydrogen; sulphur] [test_warehouse 100]
    [StockPosition.mk 21 0 11 1 2; StockPosition.mk 22 0 11 1 3] true 1700000000.

Lemma duplicate_pair_rows_internal_error_witness :
  process_delivery duplicated_store (Delivery.mk 1 [DeliveryPosition.mk 11 1])
  = (Raise (HTTPException 500 "Multiple rows were found when exactly one was required"),
     duplicated_store).
Proof.
  apply (duplicate_pair_rows_internal_error duplicated_store (test_warehouse 100) 1%N
           (DeliveryPosition.mk 11 1) [] (StockPosition.mk 21 0 11 1 2)
           (StockPosition.mk 22 0 11 1 3) []).
  - vm_compute. constructor; [intros [H|[]]; discriminate|].
    constructor; [intros []|constructor].
  - reflexivity.
  - vm_compute. discriminate.
  - reflexivity.
Defined.

(** X5: a delivery of one line item that is accepted leaves a capacity
    that is not negative: the answer's capacity is at least 0 and the
    stock sum of the warehouse is at most its max_capacity. *)
Theorem single_item_delivery_within_capacity db i p resp db' :
  stock_keys_unique db ->
  process_delivery db (Delivery.mk i [p]) = (Return resp, db') ->
  0 <= WarehouseResponse.capacity resp
  /\ stock_sum db' i <= WarehouseResponse.max_capacity resp.
Proof.
  intros Hnd H.
  destruct (process_delivery_Return _ _ _ _ Hnd H) as (w & Ew & _ & _ & Hs & ->).
  cbn [Delivery.warehouse_id] in Ew, Hs. unfold Delivery.delivered in Hs.
  cbn [Delivery.positions DeliveryPosition.total fold_right] in Hs.
  pose proof (warehouse_rows_self _ _ _ Ew) as Hid.
  rewrite (delivery_single db w i p Hnd Ew) in H.
  destruct (Warehouse.max_capacity w - stock_sum db i <? DeliveryPosition.quantity p) eqn:Hc;
    [discriminate|].
  apply Z.ltb_ge in Hc. simpl. rewrite Hid. lia.
Qed.

Lemma single_item_delivery_within_capacity_witness :
  exists resp db',
    process_delivery (test_store 3 true) (Delivery.mk 1 [DeliveryPosition.mk 11 3])
    = (Return resp, db')
    /\ 0 <= WarehouseResponse.capacity resp
    /\ stock_sum db' 1 <= WarehouseResponse.max_capacity resp.
Proof.
  eexists; eexists. split; [vm_compute; reflexivity|].
  match goal with
  | |- 0 <= WarehouseResponse.capacity ?resp /\ stock_sum ?db' _ <= _ =>
      assert (E : process_delivery (test_store 3 true)
                    (Delivery.mk 1 [DeliveryPosition.mk 11 3]) = (Return resp, db'))
        by (vm_compute; reflexivity);
      exact (single_item_delivery_within_capacity (test_store 3 true) 1%N
               (DeliveryPosition.mk 11 3) resp db' (NoDup_nil _) E)
  end.
Defined.

(** ** What a delivery keeps *)

(** One accepted line item, as a step on the stock table. *)
Inductive staged (w : Warehouse.t) (p : DeliveryPosition.t) : Database -> Database -> Prop :=
| staged_insert t :
    pair_rows t (Warehouse.id w) (DeliveryPosition.material_id p) = [] ->
    staged w p t (inserted t w p)
| staged_increment t r :
    pair_rows t (Warehouse.id w) (DeliveryPosition.material_id p) = [r] ->
    staged w p t (incremented t r p).

Lemma incremented_keys_unique t r p :
  stock_keys_unique t -> stock_keys_unique (incremented t r p).
Proof.
  intros Hnd. unfold stock_keys_unique, incremented. simpl.
  rewrite replace_row_ids. exact Hnd.
Qed.

Lemma staged_keys_unique w p t t' :
  stock_keys_unique t -> staged w p t t' -> stock_keys_unique t'.
Proof.
  intros Hnd H. destruct H as [t _|t r _].
  - apply inserted_keys_unique; exact Hnd.
  - apply incremented_keys_unique; exact Hnd.
Qed.

Lemma position_body_Return_staged c t ls w p s' :
  stock_keys_unique t ->
  delivery.position_body bound w p (clean c t ls) = (Return tt, s') ->
  exists t' ls', s' = clean c t' ls' /\ staged w p t t'.
Proof.
  intros Hnd. rewrite position_body_clean by exact Hnd.
  destruct (capacity_seen w t ls <? DeliveryPosition.quantity p); [discriminate|].
  destruct (pair_rows t (Warehouse.id w) (DeliveryPosition.material_id p))
    as [|r [|r' rest]] eqn:E.
  - destruct (StockPosition_violation t None (new_position t w p)); [discriminate|].
    intros H; inversion H; subst; clear H.
    eexists; eexists; split; [reflexivity|]. apply staged_insert; exact E.
  - intros H; inversion H; subst; clear H.
    eexists; eexists; split; [reflexivity|]. apply staged_increment; exact E.
  - discriminate.
Qed.

(** A relation between stores that every accepted line item respects
    holds between the store before the loop and the store after it. *)
Lemma for_each_Return_rel (R : Database -> Database -> Prop) w :
  (forall t, R t t) ->
  (forall t1 t2 t3, R t1 t2 -> R t2 t3 -> R t1 t3) ->
  (forall p t t', stock_keys_unique t -> staged w p t t' -> R t t') ->
  forall ps c t ls s',
    stock_keys_unique t ->
    for_each ps (delivery.position_body bound w) (clean c t ls) = (Return tt, s') ->
    exists t' ls', s' = clean c t' ls' /\ R t t'.
Proof.
  intros Hrefl Htrans Hstep.
  induction ps as [|p ps IH]; intros c t ls s' Hnd; simpl.
  - unfold ret. intros H; inversion H; subst. exists t, ls. split; [reflexivity|apply Hrefl].
  - unfold bindM.
    destruct (delivery.position_body bound w p (clean c t ls)) as [[[]|e] s1] eqn:E;
      [|discriminate].
    apply position_body_Return_staged in E; [|exact Hnd].
    destruct E as (t1 & ls1 & -> & Hst).
    intros H. apply IH in H; [|eapply staged_keys_unique; eassumption].
    destruct H as (t2 & ls2 & -> & HR).
    exists t2, ls2. split; [reflexivity|].
    eapply Htrans; [eapply Hstep; eassumption|exact HR].
Qed.

Lemma process_delivery_Return_loop db d resp db' :
  stock_keys_unique db ->
  process_delivery db d = (Return resp, db') ->
  exists w ls',
    warehouse_rows db (Delivery.warehouse_id d) = [w]
    /\ for_each (Delivery.positions d) (delivery.position_body bound w) (clean db db [])
       = (Return tt, clean db db' ls').
Proof.
  intros Hnd. rewrite process_delivery_eq. unfold try_except.
  destruct (delivery.transaction_body bound bound d (clean db db [])) as [[resp1|e1] s1] eqn:E.
  - intros H; inversion H; subst; clear H. revert E.
    unfold delivery.transaction_body.
    unfold bindM at 1. rewrite find_warehouse_clean.
    destruct (warehouse_rows db (Delivery.warehouse_id d)) as [|w [|w' rest]] eqn:Ew;
      try discriminate.
    pose proof (warehouse_rows_self _ _ _ Ew) as Hid.
    unfold bindM at 1.
    destruct (for_each (Delivery.positions d) (delivery.position_body bound w)
                (clean db db [])) as [[[]|e] s2] eqn:El; [|discriminate].
    pose proof El as El'.
    apply for_each_Return in El'; [|exact Hnd].
    destruct El' as (t' & ls' & -> & Hnd' & Hf & Hs).
    unfold bindM at 1. rewrite commit_clean.
    assert (Hw' : warehouse_rows t' (Warehouse.id w) = [w]).
    { rewrite (warehouse_rows_frame db t') by exact Hf. rewrite Hid. exact Ew. }
    rewrite (model_validate_expired t' w w Hnd' Hw').
    intros H; inversion H; subst; clear H.
    exists w, ls'. split; [reflexivity|exact El].
  - destruct (on_error_run e1 s1) as (st & de & h & -> & ->). discriminate.
Qed.

(** Outside the stock of warehouse [i] nothing changed. *)
Definition only_stock_of (i : uuid) (t t' : Database) : Prop :=
  same_frame t t' /\ forall j, j <> i -> stock_of t' j = stock_of t j.

Lemma filter_replace_other l r q j :
  StockPosition.warehouse_id r <> j ->
  In r l -> NoDup (map StockPosition.id l) ->
  filter (fun s => N.eqb (StockPosition.warehouse_id s) j)
    (replace_row (StockPosition.with_quantity q r) l)
  = filter (fun s => N.eqb (StockPosition.warehouse_id s) j) l.
Proof.
  intros Hj. induction l as [|x l IH]; intros Hin Hnd; [reflexivity|].
  simpl in *. inversion Hnd as [|? ? Hx Hl]; subst.
  destruct (N.eqb_spec (StockPosition.id x) (StockPosition.id r)) as [E|E].
  - assert (x = r).
    { destruct Hin as [Hin|Hin]; [exact Hin|].
      exfalso; apply Hx. rewrite E. apply in_map; exact Hin. }
    subst x. simpl.
    destruct (N.eqb_spec (StockPosition.warehouse_id r) j) as [E'|E']; [contradiction|].
    fold (replace_row (StockPosition.with_quantity q r) l).
    rewrite replace_row_absent by exact Hx. reflexivity.
  - destruct Hin as [Hin|Hin]; [subst x; contradiction|].
    fold (replace_row (StockPosition.with_quantity q r) l).
    rewrite IH by assumption. reflexivity.
Qed.

Lemma stock_of_replace_other t r q j :
  StockPosition.warehouse_id r <> j ->
  In r (stock_positions t) -> stock_keys_unique t ->
  filter (fun s => N.eqb (StockPosition.warehouse_id s) j)
    (replace_row (StockPosition.with_quantity q r) (stock_positions t))
  = stock_of t j.
Proof. intros Hj Hin Hnd. apply filter_replace_other; assumption. Qed.

Lemma staged_only_stock w p t t' :
  stock_keys_unique t -> staged w p t t' -> only_stock_of (Warehouse.id w) t t'.
Proof.
  intros Hnd H. destruct H as [t _|t r Er].
  - split; [repeat split|]. intros j Hj. unfold stock_of, inserted. simpl.
    rewrite filter_app. simpl.
    destruct (N.eqb_spec (Warehouse.id w) j) as [E|E]; [congruence|].
    apply app_nil_r.
  - split; [repeat split|]. intros j Hj.
    apply pair_rows_In in Er. destruct Er as (Hin & Hw & _).
    unfold incremented. unfold stock_of at 1. simpl.
    apply stock_of_replace_other; [congruence|assumption..].
Qed.

(** X6: an accepted delivery touches nothing but the stock of its own
    warehouse: materials and warehouses (max_capacity included) are as
    before, and so is the stock of every other warehouse. *)
Theorem delivery_touches_own_stock_only db d resp db' :
  stock_keys_unique db ->
  process_delivery db d = (Return resp, db') ->
  materials db' = materials db
  /\ warehouses db' = warehouses db
  /\ forall j, j <> Delivery.warehouse_id d -> stock_of db' j = stock_of db j.
Proof.
  intros Hnd H.
  destruct (process_delivery_Return_loop _ _ _ _ Hnd H) as (w & ls' & Ew & El).
  pose proof (warehouse_rows_self _ _ _ Ew) as Hid.
  apply (for_each_Return_rel (only_stock_of (Warehouse.id w)) w) in El; try assumption.
  - destruct El as (t' & ls2 & E & (Hf & Ho)). inversion E; subst.
    rewrite <- Hid. split; [apply Hf|]. split; [apply Hf|exact Ho].
  - intros t. split; [apply same_frame_refl|reflexivity].
  - intros t1 t2 t3 [F1 O1] [F2 O2]. split; [eapply same_frame_trans; eassumption|].
    intros j Hj. rewrite O2, O1 by exact Hj. reflexivity.
  - intros p t t'. apply staged_only_stock.
Qed.

Lemma delivery_touches_own_stock_only_witness :
  exists resp db',
    process_delivery two_warehouses (test_delivery 2 1) = (Return resp, db')
    /\ WarehouseResponse.id resp = 1%N
    /\ warehouses db' = warehouses two_warehouses
    /\ stock_of db' 2 = stock_of two_warehouses 2.
Proof.
  eexists; eexists. split; [vm_compute; reflexivity|].
  split; [reflexivity|].
  match goal with
  | |- warehouses ?db' = _ /\ _ =>
      match type of db' with
      | _ =>
          assert (Hk : stock_keys_unique two_warehouses)
            by (vm_compute; constructor; [intros []|constructor]);
          assert (E : exists resp,
                     process_delivery two_warehouses (test_delivery 2 1) = (Return resp, db'))
            by (eexists; vm_compute; reflexivity);
          destruct E as [resp E];
          destruct (delivery_touches_own_stock_only two_warehouses (test_delivery 2 1)
                      resp db' Hk E) as (_ & Hw & Ho)
      end
  end.
  split; [exact Hw|]. apply Ho. discriminate.
Defined.

(** The natural key of a stock position. *)
Definition pair_of (r : StockPosition.t) : uuid * uuid :=
  (StockPosition.warehouse_id r, StockPosition.material_id r).

(** No two stock rows for the same (warehouse, material) pair. *)
Definition pairs_unique (db : Database) : Prop :=
  NoDup (map pair_of (stock_positions db)).

Lemma pair_rows_none t i m :
  pair_rows t i m = [] -> ~ In (i, m) (map pair_of (stock_positions t)).
Proof.
  intros E Hin. apply in_map_iff in Hin. destruct Hin as [r [Er Hr]].
  unfold pair_of in Er. inversion Er; subst.
  assert (H : In r (pair_rows t (StockPosition.warehouse_id r) (StockPosition.material_id r))).
  { apply filter_In. split; [exact Hr|]. rewrite !N.eqb_refl. reflexivity. }
  rewrite E in H. exact H.
Qed.

Lemma replace_row_pairs l r q :
  NoDup (map StockPosition.id l) -> In r l ->
  map pair_of (replace_row (StockPosition.with_quantity q r) l) = map pair_of l.
Proof.
  intros Hnd Hin. unfold replace_row. rewrite map_map. apply map_ext_in.
  intros x Hx. simpl.
  destruct (N.eqb_spec (StockPosition.id x) (StockPosition.id r)) as [E|E]; [|reflexivity].
  assert (x = r) by (eapply NoDup_map_injective; eauto). subst x. reflexivity.
Qed.

Lemma staged_pairs_unique w p t t' :
  stock_keys_unique t -> staged w p t t' -> pairs_unique t -> pairs_unique t'.
Proof.
  intros Hnd H Hp. destruct H as [t Er|t r Er].
  - unfold pairs_unique, inserted. simpl. rewrite map_app. simpl.
    apply NoDup_snoc; [exact Hp|]. apply pair_rows_none; exact Er.
  - apply pair_rows_In in Er. destruct Er as (Hin & _).
    unfold pairs_unique, incremented. simpl.
    rewrite replace_row_pairs by assumption. exact Hp.
Qed.

(** X7: deliveries processed one after the other never create a second
    stock row for a (warehouse, material) pair: if the store has at most
    one row per pair before a delivery, it has at most one per pair after
    it, whether the delivery was accepted or refused; the primary keys
    stay unique as well. *)
Theorem delivery_keeps_pairs_unique db d :
  stock_keys_unique db ->
  pairs_unique db ->
  stock_keys_unique (snd (process_delivery db d))
  /\ pairs_unique (snd (process_delivery db d)).
Proof.
  intros Hnd Hp.
  destruct (process_delivery db d) as [[resp|e] db'] eqn:H; simpl.
  - destruct (process_delivery_Return_loop _ _ _ _ Hnd H) as (w & ls' & Ew & El).
    apply (for_each_Return_rel
             (fun t t' => stock_keys_unique t ->
                          stock_keys_unique t' /\ (pairs_unique t -> pairs_unique t')) w)
      in El; try assumption.
    + destruct El as (t' & ls2 & E & HR). inversion E; subst.
      destruct (HR Hnd) as [Hk Hq]. split; [exact Hk|exact (Hq Hp)].
    + intros t Hk. split; [exact Hk|auto].
    + intros t1 t2 t3 H12 H23 Hk. destruct (H12 Hk) as [Hk2 Hp2].
      destruct (H23 Hk2) as [Hk3 Hp3]. split; [exact Hk3|auto].
    + intros p t t' Hk Hst _. split.
      * eapply staged_keys_unique; eassumption.
      * eapply staged_pairs_unique; eassumption.
  - apply process_delivery_Raise in H; [|exact Hnd]. subst db'. split; assumption.
Qed.

Lemma delivery_keeps_pairs_unique_witness :
  pairs_unique (snd (process_delivery (test_store 100 true) (test_delivery 2 1))).
Proof.
  apply (delivery_keeps_pairs_unique (test_store 100 true) (test_delivery 2 1)).
  - apply NoDup_nil.
  - apply NoDup_nil.
Defined.

(** * The other handlers of routers/warehouses.py *)

(** [get_warehouse] (lines 116-146): [try ... except RepositoryException
    ... else ...]. *)
Definition get_warehouse (repository : SQLRepository.t Warehouse.t) (session : session_ref)
  (slug : string) : M WarehouseResponse.t :=
  let repository := SQLRepository.use_session repository session in
  warehouse <- try_except (SQLRepository.find_by_slug repository slug)
                 (except_RepositoryException
                    (fun exc =>
                       rollback ;; raise (HTTPException HTTP_404_NOT_FOUND (str exc)))) ;;
  rollback ;;
  WarehouseResponse.model_validate warehouse.

(** [delete_warehouse] (lines 204-236). *)
Definition delete_warehouse (repository : SQLRepository.t Warehouse.t) (session : session_ref)
  (slug : string) : M unit :=
  let repository := SQLRepository.use_session repository session in
  warehouse <- try_except (SQLRepository.find_by_slug repository slug)
                 (except_RepositoryException
                    (fun exc =>
                       rollback ;; raise (HTTPException HTTP_404_NOT_FOUND (str exc)))) ;;
  SQLRepository.delete AWarehouse repository warehouse ;;
  commit.

(** GET /warehouses/{slug} and DELETE /warehouses/{slug}, each on a session
    of its own. *)
Definition read_warehouse (db : Database) (slug : string)
  : result WarehouseResponse.t * Database :=
  let (r, s) := get_warehouse WarehouseSQLRepository request_session slug (Session_open db) in
  (r, committed s).

Definition remove_warehouse (db : Database) (slug : string) : result unit * Database :=
  let (r, s) :=
    delete_warehouse WarehouseSQLRepository request_session slug (Session_open db) in
  (r, committed s).

(** The store without warehouse [i] and without the stock rows of [i]. *)
Definition without_warehouse (i : uuid) (db : Database) : Database :=
  mkDatabase (materials db)
    (filter (fun r => negb (N.eqb (Warehouse.id r) i)) (warehouses db))
    (filter (fun s => negb (N.eqb (StockPosition.warehouse_id s) i)) (stock_positions db))
    (foreign_keys db) (now db).

Lemma rollback_clean c t ls : rollback (clean c t ls) = (Return tt, clean c c []).
Proof. reflexivity. Qed.

Lemma read_warehouse_missing db slug :
  slug_rows db slug = [] ->
  read_warehouse db slug
  = (Raise (HTTPException HTTP_404_NOT_FOUND "warehouse not found"), db).
Proof.
  intros Es. unfold read_warehouse, get_warehouse.
  change (SQLRepository.use_session WarehouseSQLRepository request_session)
    with (@bound Warehouse.t).
  change (Session_open db) with (clean db db []).
  unfold bindM at 1. unfold try_except. rewrite find_by_slug_clean, Es. reflexivity.
Qed.

Lemma read_warehouse_found db slug w :
  warehouse_keys_unique db -> stock_keys_unique db ->
  slug_rows db slug = [w] ->
  read_warehouse db slug = (Return (WarehouseResponse_of db w), db).
Proof.
  intros Hk Hnd Es.
  assert (Hin : In w (warehouses db)) by (apply (filter_head_In _ _ _ _ Es)).
  assert (Hw : warehouse_rows db (Warehouse.id w) = [w])
    by (apply (filter_unique Warehouse.id w _ Hk Hin)).
  unfold read_warehouse, get_warehouse.
  change (SQLRepository.use_session WarehouseSQLRepository request_session)
    with (@bound Warehouse.t).
  change (Session_open db) with (clean db db []).
  unfold bindM at 1. unfold try_except. rewrite find_by_slug_clean, Es.
  unfold bindM at 1. rewrite rollback_clean.
  rewrite (model_validate_expired db w w Hnd Hw). reflexivity.
Qed.

(** X8: GET /warehouses/{slug} never writes.  For an unknown slug it
    answers 404 "warehouse not found"; for the slug of a warehouse it
    answers that warehouse with its stock rows and with capacity =
    max_capacity - (sum of the quantities of its stock rows). *)
Theorem get_warehouse_reads db slug :
  (slug_rows db slug = [] ->
   read_warehouse db slug
   = (Raise (HTTPException HTTP_404_NOT_FOUND "warehouse not found"), db))
  /\ (forall w,
        warehouse_keys_unique db -> stock_keys_unique db ->
        slug_rows db slug = [w] ->
        exists resp,
          read_warehouse db slug = (Return resp, db)
          /\ WarehouseResponse.id resp = Warehouse.id w
          /\ WarehouseResponse.max_capacity resp = Warehouse.max_capacity w
          /\ WarehouseResponse.capacity resp
             = Warehouse.max_capacity w - stock_sum db (Warehouse.id w)
          /\ map StockPositionResponseSimple.quantity (WarehouseResponse.stock resp)
             = map StockPosition.quantity (stock_of db (Warehouse.id w))).
Proof.
  split; [apply read_warehouse_missing|].
  intros w Hk Hnd Es. exists (WarehouseResponse_of db w).
  split; [apply read_warehouse_found; assumption|].
  simpl. repeat split. rewrite map_map. reflexivity.
Qed.

Lemma get_warehouse_reads_witness :
  read_warehouse (test_store 100 true) "does-not-exist"
  = (Raise (HTTPException 404 "warehouse not found"), test_store 100 true).
Proof.
  apply (proj1 (get_warehouse_reads (test_store 100 true) "does-not-exist")).
  reflexivity.
Defined.

Lemma remove_warehouse_missing db slug :
  slug_rows db slug = [] ->
  remove_warehouse db slug
  = (Raise (HTTPException HTTP_404_NOT_FOUND "warehouse not found"), db).
Proof.
  intros Es. unfold remove_warehouse, delete_warehouse.
  change (SQLRepository.use_session WarehouseSQLRepository request_session)
    with (@bound Warehouse.t).
  change (Session_open db) with (clean db db []).
  unfold bindM at 1. unfold try_except. rewrite find_by_slug_clean, Es. reflexivity.
Qed.

Lemma remove_warehouse_found db slug w :
  slug_rows db slug = [w] ->
  remove_warehouse db slug = (Return tt, without_warehouse (Warehouse.id w) db).
Proof.
  intros Es. unfold remove_warehouse, delete_warehouse.
  change (SQLRepository.use_session WarehouseSQLRepository request_session)
    with (@bound Warehouse.t).
  change (Session_open db) with (clean db db []).
  unfold bindM at 1. unfold try_except. rewrite find_by_slug_clean, Es.
  reflexivity.
Qed.

Lemma filter_negb_other {T} (f : T -> uuid) (p : T -> bool) i (l : list T) :
  (forall x, p x = true -> f x <> i) ->
  filter p (filter (fun x => negb (N.eqb (f x) i)) l) = filter p l.
Proof.
  intros H. induction l as [|x l IH]; [reflexivity|]. simpl.
  destruct (N.eqb_spec (f x) i) as [E|E]; simpl.
  - destruct (p x) eqn:Ep; [exfalso; exact (H x Ep E)|exact IH].
  - rewrite IH. reflexivity.
Qed.

Lemma filter_negb_self {T} (f : T -> uuid) i (l : list T) :
  filter (fun x => N.eqb (f x) i) (filter (fun x => negb (N.eqb (f x) i)) l) = [].
Proof.
  induction l as [|x l IH]; [reflexivity|]. simpl.
  destruct (N.eqb_spec (f x) i) as [E|E]; simpl; [exact IH|].
  destruct (N.eqb_spec (f x) i) as [E'|E']; [contradiction|exact IH].
Qed.

(** X9: DELETE /warehouses/{slug} removes the warehouse together with its
    stock positions and nothing else: afterwards no warehouse row and no
    stock row carries its identifier, every other warehouse keeps its
    row and its stock, and the materials are untouched.  For an unknown
    slug it answers 404 and leaves the store as it is. *)
Theorem delete_warehouse_cascades db slug :
  (slug_rows db slug = [] ->
   remove_warehouse db slug
   = (Raise (HTTPException HTTP_404_NOT_FOUND "warehouse not found"), db))
  /\ (forall w,
        slug_rows db slug = [w] ->
        exists db',
          remove_warehouse db slug = (Return tt, db')
          /\ warehouse_rows db' (Warehouse.id w) = []
          /\ stock_of db' (Warehouse.id w) = []
          /\ materials db' = materials db
          /\ forall j, j <> Warehouse.id w ->
               warehouse_rows db' j = warehouse_rows db j
               /\ stock_of db' j = stock_of db j).
Proof.
  split; [apply remove_warehouse_missing|].
  intros w Es. exists (without_warehouse (Warehouse.id w) db).
  split; [apply remove_warehouse_found; exact Es|].
  unfold warehouse_rows, stock_of, without_warehouse. simpl.
  split; [apply filter_negb_self|]. split; [apply filter_negb_self|].
  split; [reflexivity|]. intros j Hj. split.
  - apply filter_negb_other. intros x Hx E. apply N.eqb_eq in Hx. congruence.
  - apply filter_negb_other. intros x Hx E. apply N.eqb_eq in Hx. congruence.
Qed.

Lemma delete_warehouse_cascades_witness :
  exists db',
    remove_warehouse two_warehouses "second" = (Return tt, db')
    /\ warehouse_rows db' 2 = []
    /\ stock_of db' 2 = []
    /\ materials db' = materials two_warehouses
    /\ forall j, j <> 2%N ->
         warehouse_rows db' j = warehouse_rows two_warehouses j
         /\ stock_of db' j = stock_of two_warehouses j.
Proof.
  apply (proj2 (delete_warehouse_cascades two_warehouses "second")
           (Warehouse.mk 2 0 "Second" "second" "Graz" 50)).
  reflexivity.
Defined.

(** X10: once a warehouse is deleted its slug is gone: reading it and
    deleting it again both answer 404. *)
Theorem deleted_warehouse_is_gone db slug w db' :
  slug_rows db slug = [w] ->
  remove_warehouse db slug = (Return tt, db') ->
  read_warehouse db' slug
  = (Raise (HTTPException HTTP_404_NOT_FOUND "warehouse not found"), db')
  /\ remove_warehouse db' slug
     = (Raise (HTTPException HTTP_404_NOT_FOUND "warehouse not found"), db').
Proof.
  intros Es H. rewrite (remove_warehouse_found db slug w Es) in H.
  inversion H; subst db'; clear H.
  assert (Es' : slug_rows (without_warehouse (Warehouse.id w) db) slug = []).
  { unfold slug_rows, without_warehouse in *. simpl.
    assert (Hall : forall x, In x (warehouses db) ->
                     String.eqb (Warehouse.slug x) slug = true -> x = w).
    { intros x Hx Hs.
      assert (Hf : In x (filter (fun w0 => String.eqb (Warehouse.slug w0) slug)
                           (warehouses db))) by (apply filter_In; auto).
      rewrite Es in Hf. destruct Hf as [->|[]]. reflexivity. }
    clear Es. induction (warehouses db) as [|x l IH]; [reflexivity|]. simpl.
    destruct (N.eqb_spec (Warehouse.id x) (Warehouse.id w)) as [E|E]; simpl.
    - apply IH. intros y Hy. apply Hall. right; exact Hy.
    - destruct (String.eqb (Warehouse.slug x) slug) eqn:Hs.
      + exfalso. apply E. rewrite (Hall x (or_introl eq_refl) Hs). reflexivity.
      + apply IH. intros y Hy. apply Hall. right; exact Hy. }
  split; [apply read_warehouse_missing|apply remove_warehouse_missing]; exact Es'.
Qed.

Lemma deleted_warehouse_is_gone_witness :
  read_warehouse (without_warehouse 2 two_warehouses) "second"
  = (Raise (HTTPException 404 "warehouse not found"), without_warehouse 2 two_warehouses).
Proof.
  apply (deleted_warehouse_is_gone two_warehouses "second"
           (Warehouse.mk 2 0 "Second" "second" "Graz" 50) (without_warehouse 2 two_warehouses)).
  - reflexivity.
  - vm_compute. reflexivity.
Defined.

(** * Further properties of [update_warehouse] *)

Lemma warehouse_rows_of_slug db slug w :
  warehouse_keys_unique db -> slug_rows db slug = [w] ->
  warehouse_rows db (Warehouse.id w) = [w].
Proof.
  intros Hk Es. apply (filter_unique Warehouse.id w _ Hk).
  apply (filter_head_In _ _ _ _ Es).
Qed.

(** X11: a valid patch addressed to a slug that no warehouse has is
    answered 404 "warehouse not found" and writes nothing; a patch that
    sets no field, addressed to a stored warehouse, writes nothing either
    and answers the warehouse as stored. *)
Theorem patch_without_effect db slug :
  (forall p,
     WarehousePatch.validate p = true ->
     slug_rows db slug = [] ->
     patch_warehouse db slug p
     = (Raise (HTTPException HTTP_404_NOT_FOUND "warehouse not found"), db))
  /\ (forall w,
        warehouse_keys_unique db ->
        slug_rows db slug = [w] ->
        patch_warehouse db slug (WarehousePatch.mk None None)
        = (Return (WarehouseResponseSimple.mk (Warehouse.name w) (Warehouse.slug w)
                     (Warehouse.location w)
                     (Warehouse.max_capacity w - stock_sum db (Warehouse.id w))
                     (Warehouse.max_capacity w)), db)).
Proof.
  split.
  - intros p Hval Es. unfold patch_warehouse. rewrite Hval.
    unfold routers_warehouses.update_warehouse.
    change (SQLRepository.use_session WarehouseSQLRepository request_session)
      with (@bound Warehouse.t).
    change (Session_open db) with (clean db db []).
    unfold bindM at 1. unfold try_except. rewrite find_by_slug_clean, Es. reflexivity.
  - intros w Hk Es. pose proof (warehouse_rows_of_slug db slug w Hk Es) as Hw.
    unfold patch_warehouse. cbn [WarehousePatch.validate].
    unfold routers_warehouses.update_warehouse.
    change (SQLRepository.use_session WarehouseSQLRepository request_session)
      with (@bound Warehouse.t).
    change (Session_open db) with (clean db db []).
    change (WarehousePatch.validate (WarehousePatch.mk None None)) with true.
    cbv beta iota. unfold bindM at 1. unfold try_except.
    rewrite find_by_slug_clean, Es.
    cbv beta iota. cbn [WarehousePatch.location WarehousePatch.max_capacity].
    unfold bindM at 1. rewrite rollback_clean.
    rewrite (simple_model_validate_expired db w w Hw). reflexivity.
Qed.

Lemma patch_without_effect_witness :
  patch_warehouse (test_store 100 true) "does-not-exist" (WarehousePatch.mk None None)
  = (Raise (HTTPException 404 "warehouse not found"), test_store 100 true).
Proof.
  apply (proj1 (patch_without_effect (test_store 100 true) "does-not-exist")).
  - reflexivity.
  - reflexivity.
Defined.

(** X12: the bounds of the patch body are checked before anything else: a
    max_capacity below 1, or a location of fewer than two characters, is
    answered 422 without a look at the store, whether the slug exists or
    not. *)
Theorem patch_out_of_bounds db slug p :
  (exists m, WarehousePatch.max_capacity p = Some m /\ m < 1)
  \/ (exists l, WarehousePatch.location p = Some l /\ (String.length l < 2)%nat) ->
  patch_warehouse db slug p = (Raise RequestValidationError, db).
Proof.
  intros H. unfold patch_warehouse.
  assert (Hval : WarehousePatch.validate p = false).
  { unfold WarehousePatch.validate, Field.check_optional, Field.check_int, Field.check_str.
    cbn [Field.ge Field.min_length Field.max_length WarehousePatch.max_capacity_field
           WarehousePatch.location_field].
    destruct H as [(m & -> & Hm)|(l & -> & Hl)].
    - assert (E : (1 <=? m) = false) by (apply Z.leb_gt; exact Hm).
      rewrite E. apply andb_false_r.
    - assert (E : Nat.leb 2 (String.length l) = false) by (apply Nat.leb_gt; exact Hl).
      rewrite E. reflexivity. }
  rewrite Hval. reflexivity.
Qed.

Lemma patch_out_of_bounds_witness :
  patch_warehouse (test_store 100 true) "test-warehouse" (WarehousePatch.mk None (Some 0))
  = (Raise RequestValidationError, test_store 100 true).
Proof.
  apply (patch_out_of_bounds (test_store 100 true) "test-warehouse"
           (WarehousePatch.mk None (Some 0))).
  left. exists 0. split; [reflexivity|lia].
Defined.

Lemma slug_rows_replaced db slug w w' :
  warehouse_keys_unique db -> slug_rows db slug = [w] ->
  Warehouse.id w' = Warehouse.id w -> Warehouse.slug w' = Warehouse.slug w ->
  slug_rows (replace_warehouse w' db) slug = [w'].
Proof.
  intros Hk Es Hid Hslug.
  assert (Hin : In w (warehouses db)) by (apply (filter_head_In _ _ _ _ Es)).
  unfold slug_rows, replace_warehouse in *. simpl. rewrite filter_map_in.
  - rewrite Es. simpl. rewrite Hid, N.eqb_refl. reflexivity.
  - intros x Hx. simpl.
    destruct (N.eqb_spec (Warehouse.id x) (Warehouse.id w')) as [E|E]; [|reflexivity].
    assert (x = w) by (eapply NoDup_map_injective; eauto; congruence). subst x.
    rewrite Hslug. reflexivity.
Qed.

Lemma patched_slug w p : Warehouse.slug (patched w p) = Warehouse.slug w.
Proof. destruct p as [[l|] [m|]]; reflexivity. Qed.

Lemma patched_name w p : Warehouse.name (patched w p) = Warehouse.name w.
Proof. destruct p as [[l|] [m|]]; reflexivity. Qed.

(** X13: what an accepted PATCH answers is what a GET of the same slug
    answers right after it: the same name, slug, location, max_capacity
    and capacity, with the patched fields in place. *)
Theorem patch_then_get db slug w p resp db' :
  warehouse_keys_unique db -> stock_keys_unique db ->
  slug_rows db slug = [w] ->
  WarehousePatch.validate p = true ->
  location_acceptable db w (WarehousePatch.location p) ->
  (WarehousePatch.location p <> None \/ WarehousePatch.max_capacity p <> None) ->
  patch_warehouse db slug p = (Return resp, db') ->
  exists got,
    read_warehouse db' slug = (Return got, db')
    /\ WarehouseResponse.name got = WarehouseResponseSimple.name resp
    /\ WarehouseResponse.slug got = WarehouseResponseSimple.slug resp
    /\ WarehouseResponse.location got = WarehouseResponseSimple.location resp
    /\ WarehouseResponse.max_capacity got = WarehouseResponseSimple.max_capacity resp
    /\ WarehouseResponse.capacity got = WarehouseResponseSimple.capacity resp
    /\ WarehouseResponse.max_capacity got = Warehouse.max_capacity (patched w p)
    /\ WarehouseResponse.location got = Warehouse.location (patched w p).
Proof.
  intros Hk Hnd Es Hval Hl Hset H.
  rewrite (patch_warehouse_updates db slug w p Hk Es Hval Hl Hset) in H.
  inversion H; subst resp db'; clear H.
  set (w' := patched w p). set (db' := replace_warehouse w' db).
  assert (Hk' : warehouse_keys_unique db').
  { unfold warehouse_keys_unique, db', replace_warehouse. simpl. rewrite map_map.
    erewrite map_ext; [exact Hk|]. intros x. simpl.
    destruct (N.eqb_spec (Warehouse.id x) (Warehouse.id w')) as [E|E]; congruence. }
  assert (Es' : slug_rows db' slug = [w']).
  { apply (slug_rows_replaced db slug w w'); try assumption;
      [apply patched_id|apply patched_slug]. }
  exists (WarehouseResponse_of db' w').
  split; [apply read_warehouse_found; assumption|].
  unfold w'. simpl. rewrite patched_id, patched_name, patched_slug. repeat split.
Qed.

Lemma patch_then_get_witness :
  exists got,
    read_warehouse (replace_warehouse (test_warehouse 7) (test_store 100 true))
      "test-warehouse"
    = (Return got, replace_warehouse (test_warehouse 7) (test_store 100 true))
    /\ WarehouseResponse.max_capacity got = 7
    /\ WarehouseResponse.capacity got = 7.
Proof.
  assert (E : patch_warehouse (test_store 100 true) "test-warehouse"
                (WarehousePatch.mk None (Some 7))
              = (Return (WarehouseResponseSimple.mk "Test Warehouse" "test-warehouse" "Wien"
                           7 7),
                 replace_warehouse (test_warehouse 7) (test_store 100 true)))
    by (vm_compute; reflexivity).
  assert (Hk : warehouse_keys_unique (test_store 100 true))
    by (vm_compute; constructor; [intros []|constructor]).
  assert (Hset : WarehousePatch.location (WarehousePatch.mk None (Some 7)) <> None
                 \/ WarehousePatch.max_capacity (WarehousePatch.mk None (Some 7)) <> None)
    by (right; discriminate).
  destruct (patch_then_get (test_store 100 true) "test-warehouse" (test_warehouse 100)
              (WarehousePatch.mk None (Some 7)) _ _ Hk (NoDup_nil _) eq_refl eq_refl I
              Hset E)
    as (got & Hg & _ & _ & _ & Hm & Hc & _).
  exists got. split; [exact Hg|]. split; [rewrite Hm; reflexivity|rewrite Hc; reflexivity].
Defined.

(** X14: a patch that moves a warehouse to the location of another one is
    refused by the store's unique constraint; the handler has no clause
    for IntegrityError, so the exception leaves it as it is, and the store
    is unchanged. *)
Theorem patch_location_taken db slug w l mc :
  warehouse_keys_unique db ->
  slug_rows db slug = [w] ->
  WarehousePatch.validate (WarehousePatch.mk (Some l) mc) = true ->
  l <> Warehouse.location w ->
  taken Warehouse.location Warehouse.id l (Warehouse.id w) (warehouses db) = true ->
  patch_warehouse db slug (WarehousePatch.mk (Some l) mc)
  = (Raise (IntegrityError "UNIQUE constraint failed: warehouse.location"), db).
Proof.
  intros Hk Es Hval Hne Htaken.
  assert (Hin : In w (warehouses db)) by (apply (filter_head_In _ _ _ _ Es)).
  unfold patch_warehouse. rewrite Hval.
  unfold routers_warehouses.update_warehouse.
  change (SQLRepository.use_session WarehouseSQLRepository request_session)
    with (@bound Warehouse.t).
  change (Session_open db) with (clean db db []).
  unfold bindM at 1. unfold try_except. rewrite find_by_slug_clean, Es.
  cbv beta iota. cbn [WarehousePatch.location WarehousePatch.max_capacity].
  set (p := WarehousePatch.mk (Some l) mc).
  assert (Hw : write (patched w p) db
               = inr "UNIQUE constraint failed: warehouse.location").
  { unfold write. simpl. rewrite patched_id.
    rewrite (filter_unique Warehouse.id w _ Hk Hin).
    assert (Hloc : String.eqb (Warehouse.location w) l = false).
    { apply String.eqb_neq. congruence. }
    unfold Warehouse_violation, first_violation, changed.
    destruct mc as [m|]; simpl; rewrite !String.eqb_refl, Hloc, Htaken; reflexivity. }
  assert (Hup : SQLRepository.update AWarehouse bound (patched w p) (clean db db [])
                = (Raise (IntegrityError "UNIQUE constraint failed: warehouse.location"),
                   clean db db [])).
  { unfold SQLRepository.update, bindM, add, flush, clean. simpl.
    unfold clean in Hw. simpl in Hw. rewrite Hw. reflexivity. }
  destruct mc as [m|]; cbv beta iota; unfold bindM; unfold p, patched in Hup;
    cbn [WarehousePatch.location WarehousePatch.max_capacity] in Hup;
    rewrite Hup; reflexivity.
Qed.

Lemma patch_location_taken_witness :
  patch_warehouse two_warehouses "second" (WarehousePatch.mk (Some "Wien") None)
  = (Raise (IntegrityError "UNIQUE constraint failed: warehouse.location"), two_warehouses).
Proof.
  apply (patch_location_taken two_warehouses "second"
           (Warehouse.mk 2 0 "Second" "second" "Graz" 50) "Wien" None).
  - vm_compute. constructor; [intros [H|[]]; discriminate|].
    constructor; [intros []|constructor].
  - reflexivity.
  - reflexivity.
  - discriminate.
  - reflexivity.
Defined.

(** * Properties of the repositories *)

(** A computation that leaves the committed store alone. *)
Definition keeps_committed {A} (m : M A) : Prop :=
  forall s, committed (snd (m s)) = committed s.

Lemma keeps_ret {A} (a : A) : keeps_committed (ret a).
Proof. intros s. reflexivity. Qed.

Lemma keeps_raise {A} (e : exn) : keeps_committed (@raise A e).
Proof. intros s. reflexivity. Qed.

Lemma keeps_bind {A B} (m : M A) (k : A -> M B) :
  keeps_committed m -> (forall a, keeps_committed (k a)) -> keeps_committed (bindM m k).
Proof.
  intros Hm Hk s. unfold bindM. specialize (Hm s).
  destruct (m s) as [[a|e] s1]; simpl in *; [|exact Hm].
  rewrite (Hk a s1). exact Hm.
Qed.

Lemma keeps_try {A} (m : M A) (h : exn -> option (M A)) :
  keeps_committed m -> (forall e handler, h e = Some handler -> keeps_committed handler) ->
  keeps_committed (try_except m h).
Proof.
  intros Hm Hh s. unfold try_except. specialize (Hm s).
  destruct (m s) as [[a|e] s1]; simpl in *; [exact Hm|].
  destruct (h e) as [handler|] eqn:E; [|exact Hm].
  rewrite (Hh e handler E s1). exact Hm.
Qed.

Lemma keeps_flush : keeps_committed flush.
Proof. intros s. unfold flush. destruct (emit_all (unit_of_work s) (transaction s)); reflexivity. Qed.

Lemma keeps_add e : keeps_committed (add e).
Proof. intros s. reflexivity. Qed.

Lemma keeps_delete_ e : keeps_committed (delete_ e).
Proof. intros s. reflexivity. Qed.

Lemma keeps_exec {T} `{Model T} (p : T -> bool) : keeps_committed (exec p).
Proof.
  unfold exec. apply keeps_bind; [apply keeps_flush|]. intros _ s. reflexivity.
Qed.

Lemma keeps_one {T} (l : list T) : keeps_committed (one l).
Proof. destruct l as [|x [|y l]]; intros s; reflexivity. Qed.

Lemma keeps_on_NoResultFound {A} (e0 : exn) :
  forall e handler,
    SQLRepository.on_NoResultFound (@raise A e0) e = Some handler -> keeps_committed handler.
Proof.
  intros e handler He. destruct e; simpl in He; try discriminate.
  inversion He; subst. apply keeps_raise.
Qed.

(** X15: no operation of a repository commits: whatever the session holds
    and whether the operation returns or raises, the committed store is
    the same after [find_by_id], [find_by_slug],
    [find_by_warehouse_id_and_material_id], [list_paginated], [create],
    [update] and [delete]; committing is left to the caller. *)
Theorem repository_never_commits {T} `{Model T} (self : SQLRepository.t T)
  (as_entity : T -> entity) :
  (forall id, keeps_committed (SQLRepository.find_by_id self id))
  /\ (forall slug, keeps_committed (SQLRepository.find_by_slug self slug))
  /\ (forall offset limit, keeps_committed (SQLRepository.list_paginated self offset limit))
  /\ (forall record, keeps_committed (SQLRepository.create as_entity self record))
  /\ (forall record, keeps_committed (SQLRepository.update as_entity self record))
  /\ (forall record, keeps_committed (SQLRepository.delete as_entity self record))
  /\ (forall stock_repository warehouse_id material_id,
        keeps_committed
          (StockPositionSQLRepository.find_by_warehouse_id_and_material_id
             stock_repository warehouse_id material_id)).
Proof.
  repeat split.
  - intros id. unfold SQLRepository.find_by_id.
    destruct (SQLRepository._session self); [|apply keeps_raise].
    apply keeps_try; [|apply keeps_on_NoResultFound].
    apply keeps_bind; [apply keeps_exec|apply keeps_one].
  - intros slug. unfold SQLRepository.find_by_slug.
    destruct (SQLRepository._session self); [|apply keeps_raise].
    destruct slug_attr; [|apply keeps_raise].
    apply keeps_try; [|apply keeps_on_NoResultFound].
    apply keeps_bind; [apply keeps_exec|apply keeps_one].
  - intros offset limit. unfold SQLRepository.list_paginated.
    destruct (SQLRepository._session self); [|apply keeps_raise].
    apply keeps_bind; [apply keeps_exec|intros; apply keeps_ret].
  - intros record. unfold SQLRepository.create.
    destruct (SQLRepository._session self); [|apply keeps_raise].
    apply keeps_bind; [apply keeps_add|intros].
    apply keeps_bind; [apply keeps_flush|intros; apply keeps_ret].
  - intros record. unfold SQLRepository.update.
    destruct (SQLRepository._session self); [|apply keeps_raise].
    apply keeps_bind; [apply keeps_add|intros].
    apply keeps_bind; [apply keeps_flush|intros; apply keeps_ret].
  - intros record. unfold SQLRepository.delete.
    destruct (SQLRepository._session self); [|apply keeps_raise].
    apply keeps_delete_.
  - intros repo wid mid.
    unfold StockPositionSQLRepository.find_by_warehouse_id_and_material_id.
    destruct (SQLRepository._session repo); [|apply keeps_raise].
    apply keeps_try; [|apply keeps_on_NoResultFound].
    apply keeps_bind; [apply keeps_exec|apply keeps_one].
Qed.

Lemma find_stock_clean c t ls i :
  SQLRepository.find_by_id (bound : SQLRepository.t StockPosition.t) i (clean c t ls)
  = match filter (fun r => N.eqb (StockPosition.id r) i) (stock_positions t) with
    | [] => (Raise (RepositoryException "stock position not found"), clean c t ls)
    | [r] => (Return r, clean c t ls)
    | _ => (Raise MultipleResultsFound, clean c t ls)
    end.
Proof.
  unfold SQLRepository.find_by_id, try_except, bindM, exec, flush, clean.
  simpl. destruct (filter _ (stock_positions t)) as [|r [|r' rest]]; reflexivity.
Qed.

(** X16: what the stock repository writes it finds again within the same
    transaction.  After [create] of a position under an unused id that
    the store accepts, [find_by_id] returns a position with the id, the
    material, the warehouse and the quantity that were written (nothing
    is said of its creation time, which is the caller's when the caller
    set one and the store's otherwise); after [update] of a stored
    position with a new quantity, [find_by_id] returns the position with
    that quantity.  Neither is committed. *)
Theorem stock_repository_round_trip c t ls :
  stock_keys_unique t ->
  (forall new,
     ~ In (StockPosition.id new) (map StockPosition.id (stock_positions t)) ->
     StockPosition_violation t None new = None ->
     exists found s',
       (SQLRepository.create AStockPosition
          (SQLRepository.use_session StockPositionSQLRepository.__init__ request_session) new ;;
        SQLRepository.find_by_id
          (SQLRepository.use_session StockPositionSQLRepository.__init__ request_session)
          (StockPosition.id new)) (mkSession c t [] ls)
       = (Return found, s')
       /\ StockPosition.id found = StockPosition.id new
       /\ StockPosition.material_id found = StockPosition.material_id new
       /\ StockPosition.warehouse_id found = StockPosition.warehouse_id new
       /\ StockPosition.quantity found = StockPosition.quantity new
       /\ committed s' = c)
  /\ (forall r q,
        In r (stock_positions t) ->
        exists s',
          (SQLRepository.update AStockPosition
             (SQLRepository.use_session StockPositionSQLRepository.__init__ request_session)
             (StockPosition.with_quantity q r) ;;
           SQLRepository.find_by_id
             (SQLRepository.use_session StockPositionSQLRepository.__init__ request_session)
             (StockPosition.id r)) (mkSession c t [] ls)
          = (Return (StockPosition.with_quantity q r), s')
          /\ committed s' = c).
Proof.
  intros Hnd.
  change (SQLRepository.use_session StockPositionSQLRepository.__init__ request_session)
    with (@bound StockPosition.t).
  fold (clean c t ls). split.
  - intros new Hfresh Hv. eexists. eexists. unfold bindM.
    rewrite (create_stock_clean c t ls new Hfresh), Hv.
    rewrite find_stock_clean. cbn [stock_positions with_stock].
    rewrite filter_app, (filter_absent StockPosition.id _ _ Hfresh).
    cbn [filter app StockPosition.id StockPosition.with_created_at].
    rewrite N.eqb_refl. repeat split; reflexivity.
  - intros r q Hin. eexists. unfold bindM.
    rewrite (update_stock_clean c t ls r q Hnd Hin).
    rewrite find_stock_clean. cbn [stock_positions with_stock].
    unfold replace_row. rewrite filter_map_in.
    + cbn [StockPosition.id StockPosition.with_quantity].
      rewrite (filter_unique StockPosition.id r _ Hnd Hin).
      cbn [map]. rewrite N.eqb_refl. split; reflexivity.
    + intros x Hx. cbn [StockPosition.id StockPosition.with_quantity].
      destruct (N.eqb_spec (StockPosition.id x) (StockPosition.id r)) as [E|E].
      * apply N.eqb_refl.
      * apply N.eqb_neq; exact E.
Qed.

Lemma stock_repository_round_trip_witness :
  (exists found s',
     (SQLRepository.create AStockPosition
        (SQLRepository.use_session StockPositionSQLRepository.__init__ request_session)
        (StockPosition.mk 30 0 11 1 4) ;;
      SQLRepository.find_by_id
        (SQLRepository.use_session StockPositionSQLRepository.__init__ request_session) 30)
       (mkSession (test_store 100 true) (test_store 100 true) [] [])
     = (Return found, s')
     /\ StockPosition.id found = 30%N
     /\ StockPosition.material_id found = 11%N
     /\ StockPosition.warehouse_id found = 1%N
     /\ StockPosition.quantity found = 4
     /\ committed s' = test_store 100 true)
  /\ (exists s',
        (SQLRepository.update AStockPosition
           (SQLRepository.use_session StockPositionSQLRepository.__init__ request_session)
           (StockPosition.mk 21 0 11 2 9) ;;
         SQLRepository.find_by_id
           (SQLRepository.use_session StockPositionSQLRepository.__init__ request_session) 21)
          (mkSession two_warehouses two_warehouses [] [])
        = (Return (StockPosition.mk 21 0 11 2 9), s')
        /\ committed s' = two_warehouses).
Proof.
  split.
  - apply (proj1 (stock_repository_round_trip (test_store 100 true) (test_store 100 true) []
                    (NoDup_nil _)) (StockPosition.mk 30 0 11 1 4)).
    + intros [].
    + reflexivity.
  - assert (Hk : stock_keys_unique two_warehouses)
      by (vm_compute; repeat constructor; intros []).
    apply (proj2 (stock_repository_round_trip two_warehouses two_warehouses [] Hk)
             (StockPosition.mk 21 0 11 2 7) 9).
    left. reflexivity.
Defined.

(** X17: a stored position (a row of the transaction, under a primary key
    no other row has) that is handed to [delete] is gone for the next
    query of the same session, which flushes the deletion before it
    reads: [find_by_id] raises
    RepositoryException("stock position not found").  The row is the only
    one removed, and the deletion is not committed by this. *)
Theorem stock_repository_delete_then_find c t ls r :
  stock_keys_unique t ->
  In r (stock_positions t) ->
  exists s',
    (SQLRepository.delete AStockPosition
       (SQLRepository.use_session StockPositionSQLRepository.__init__ request_session) r ;;
     SQLRepository.find_by_id
       (SQLRepository.use_session StockPositionSQLRepository.__init__ request_session)
       (StockPosition.id r)) (mkSession c t [] ls)
    = (Raise (RepositoryException "stock position not found"), s')
    /\ committed s' = c
    /\ stock_positions (transaction s')
       = filter (fun x => negb (N.eqb (StockPosition.id x) (StockPosition.id r)))
           (stock_positions t)
    /\ (forall x, In x (stock_positions (transaction s')) <->
                  In x (stock_positions t) /\ x <> r).
Proof.
  intros Hnd Hin.
  set (t' := with_stock
               (filter (fun x => negb (N.eqb (StockPosition.id x) (StockPosition.id r)))
                  (stock_positions t)) t).
  exists (clean c t' ls).
  assert (Hfl : flush (mkSession c t [Deleted (AStockPosition r)] ls)
                = (Return tt, clean c t' ls)) by reflexivity.
  assert (Hf : filter (fun x => N.eqb (StockPosition.id x) (StockPosition.id r))
                 (stock_positions t') = [])
    by (apply (filter_negb_self StockPosition.id)).
  split; [|split; [reflexivity|split; [reflexivity|]]].
  - unfold SQLRepository.delete, SQLRepository.find_by_id, SQLRepository.use_session,
      try_except, exec, delete_.
    cbn [SQLRepository._session]. unfold bindM.
    cbn [unit_of_work transaction committed loaded_stock app].
    rewrite Hfl. cbv beta iota. cbn [transaction clean rows StockPosition_Model pk].
    rewrite Hf. reflexivity.
  - intros x. cbn [transaction clean]. unfold t'. cbn [stock_positions with_stock].
    rewrite filter_In. split.
    + intros [Hx Hne]. split; [exact Hx|]. intros ->.
      rewrite N.eqb_refl in Hne. discriminate.
    + intros [Hx Hne]. split; [exact Hx|].
      destruct (N.eqb_spec (StockPosition.id x) (StockPosition.id r)) as [E|E]; [|reflexivity].
      exfalso. apply Hne.
      apply (NoDup_map_injective StockPosition.id (stock_positions t) x r Hnd Hx Hin E).
Qed.

Lemma stock_repository_delete_then_find_witness :
  exists s',
    (SQLRepository.delete AStockPosition
       (SQLRepository.use_session StockPositionSQLRepository.__init__ request_session)
       (StockPosition.mk 21 0 11 2 7) ;;
     SQLRepository.find_by_id
       (SQLRepository.use_session StockPositionSQLRepository.__init__ request_session) 21)
      (mkSession two_warehouses two_warehouses [] [])
    = (Raise (RepositoryException "stock position not found"), s')
    /\ committed s' = two_warehouses
    /\ stock_positions (transaction s') = [].
Proof.
  destruct (stock_repository_delete_then_find two_warehouses two_warehouses []
              (StockPosition.mk 21 0 11 2 7))
    as (s' & Hrun & Hc & Hrows & _).
  - vm_compute. repeat constructor. intros [].
  - vm_compute. left. reflexivity.
  - exists s'. split; [exact Hrun|]. split; [exact Hc|]. rewrite Hrows. reflexivity.
Defined.

(** ** Pages *)












(** * Model names *)

Fixpoint has_upper (s : string) : bool :=
  match s with
  | EmptyString => false
  | String c rest => (isupper c || has_upper rest)%bool
  end.

Lemma lower_not_upper c : isupper (lower c) = false.
Proof. destruct c as [[] [] [] [] [] [] [] []]; reflexivity. Qed.

Lemma lower_fixed c : isupper c = false -> lower c = c.
Proof. unfold lower. intros ->. reflexivity. Qed.

Lemma camel_from_no_upper s : forall i, has_upper (camel_from i s) = false.
Proof.
  induction s as [|c s IH]; intros i; [reflexivity|]. cbn [camel_from].
  destruct (isupper c && negb (Nat.eqb i 0))%bool; cbn [has_upper];
    rewrite lower_not_upper, IH; reflexivity.
Qed.

Lemma camel_from_fixed s : forall i, has_upper s = false -> camel_from i s = s.
Proof.
  induction s as [|c s IH]; intros i Hs; [reflexivity|]. cbn [camel_from has_upper] in *.
  apply orb_false_iff in Hs. destruct Hs as [Hc Hs].
  rewrite Hc, (lower_fixed c Hc), (IH _ Hs). reflexivity.
Qed.

Lemma lower_isascii c :
  Nat.ltb (nat_of_ascii c) 128 = true -> Nat.ltb (nat_of_ascii (lower c)) 128 = true.
Proof. destruct c as [[] [] [] [] [] [] [] []]; intros H; try exact H; reflexivity. Qed.

Lemma camel_from_isascii s : forall i, isascii s = true -> isascii (camel_from i s) = true.
Proof.
  induction s as [|c s IH]; intros i Hs; [reflexivity|]. cbn [camel_from isascii] in *.
  apply andb_true_iff in Hs. destruct Hs as [Hc Hs].
  destruct (isupper c && negb (Nat.eqb i 0))%bool; cbn [isascii];
    rewrite (lower_isascii c Hc), (IH _ Hs); reflexivity.
Qed.

(** X19: on an ASCII string (every character below 128, as the class
    names are), [camel_to_lower_with_spaces] returns an ASCII string
    without any of the letters 'A'..'Z', returns a string without such a
    letter as it is, and is therefore idempotent. *)
Theorem camel_to_lower_with_spaces_lowercase s :
  isascii s = true ->
  isascii (camel_to_lower_with_spaces s) = true
  /\ has_upper (camel_to_lower_with_spaces s) = false
  /\ (has_upper s = false -> camel_to_lower_with_spaces s = s)
  /\ camel_to_lower_with_spaces (camel_to_lower_with_spaces s)
     = camel_to_lower_with_spaces s.
Proof.
  intros Hs. unfold camel_to_lower_with_spaces.
  split; [apply camel_from_isascii; exact Hs|].
  split; [apply camel_from_no_upper|].
  split; [apply camel_from_fixed|].
  apply camel_from_fixed, camel_from_no_upper.
Qed.

Lemma camel_to_lower_with_spaces_lowercase_witness :
  isascii "StockPosition" = true
  /\ has_upper (camel_to_lower_with_spaces "StockPosition") = false
  /\ camel_to_lower_with_spaces "stock position" = "stock position".
Proof.
  split; [reflexivity|]. split.
  - apply (proj1 (proj2 (camel_to_lower_with_spaces_lowercase "StockPosition" eq_refl))).
  - apply (proj1 (proj2 (proj2 (camel_to_lower_with_spaces_lowercase "stock position" eq_refl)))).
    reflexivity.
Defined.

Lemma warehouse_rows_replace_other db w' j :
  Warehouse.id w' <> j ->
  warehouse_rows (replace_warehouse w' db) j = warehouse_rows db j.
Proof.
  intros Hj. unfold warehouse_rows, replace_warehouse. simpl.
  induction (warehouses db) as [|x l IH]; [reflexivity|]. simpl.
  destruct (N.eqb_spec (Warehouse.id x) (Warehouse.id w')) as [E|E].
  - destruct (N.eqb_spec (Warehouse.id w') j) as [E1|E1]; [contradiction|].
    destruct (N.eqb_spec (Warehouse.id x) j) as [E2|E2]; [congruence|].
    exact IH.
  - destruct (N.eqb (Warehouse.id x) j); [f_equal|]; exact IH.
Qed.

(** X20: an accepted PATCH rewrites one row and nothing else: the
    addressed warehouse keeps its id, creation time, name and slug, every
    other warehouse keeps its row, and materials and stock positions are
    as before. *)
Theorem patch_touches_one_warehouse db slug w p resp db' :
  warehouse_keys_unique db ->
  slug_rows db slug = [w] ->
  WarehousePatch.validate p = true ->
  location_acceptable db w (WarehousePatch.location p) ->
  (WarehousePatch.location p <> None \/ WarehousePatch.max_capacity p <> None) ->
  patch_warehouse db slug p = (Return resp, db') ->
  materials db' = materials db
  /\ stock_positions db' = stock_positions db
  /\ (exists w',
        warehouse_rows db' (Warehouse.id w) = [w']
        /\ Warehouse.id w' = Warehouse.id w
        /\ Warehouse.created_at w' = Warehouse.created_at w
        /\ Warehouse.name w' = Warehouse.name w
        /\ Warehouse.slug w' = Warehouse.slug w)
  /\ (forall j, j <> Warehouse.id w -> warehouse_rows db' j = warehouse_rows db j)
  /\ List.length (warehouses db') = List.length (warehouses db).
Proof.
  intros Hk Es Hval Hl Hset H.
  assert (Hin : In w (warehouses db)) by (apply (filter_head_In _ _ _ _ Es)).
  rewrite (patch_warehouse_updates db slug w p Hk Es Hval Hl Hset) in H.
  inversion H; subst resp db'; clear H.
  split; [reflexivity|]. split; [reflexivity|]. split; [|split].
  - exists (patched w p).
    split; [apply warehouse_rows_replaced; [assumption..|apply patched_id]|].
    destruct p as [[l|] [m|]]; repeat split.
  - intros j Hj. apply warehouse_rows_replace_other. rewrite patched_id. congruence.
  - unfold replace_warehouse. simpl. apply length_map.
Qed.

Lemma patch_touches_one_warehouse_witness :
  warehouse_rows (replace_warehouse (Warehouse.mk 2 0 "Second" "second" "Graz" 9)
                    two_warehouses) 1
  = warehouse_rows two_warehouses 1.
Proof.
  assert (E : patch_warehouse two_warehouses "second" (WarehousePatch.mk None (Some 9))
              = (Return (WarehouseResponseSimple.mk "Second" "second" "Graz" 2 9),
                 replace_warehouse (Warehouse.mk 2 0 "Second" "second" "Graz" 9)
                   two_warehouses))
    by (vm_compute; reflexivity).
  assert (Hk : warehouse_keys_unique two_warehouses).
  { vm_compute. constructor; [intros [H|[]]; discriminate|].
    constructor; [intros []|constructor]. }
  assert (Hset : WarehousePatch.location (WarehousePatch.mk None (Some 9)) <> None
                 \/ WarehousePatch.max_capacity (WarehousePatch.mk None (Some 9)) <> None)
    by (right; discriminate).
  destruct (patch_touches_one_warehouse two_warehouses "second"
              (Warehouse.mk 2 0 "Second" "second" "Graz" 50)
              (WarehousePatch.mk None (Some 9)) _ _ Hk eq_refl eq_refl I Hset E)
    as (_ & _ & _ & Ho & _).
  apply Ho. discriminate.
Defined.

(** ** Deliveries that create no position *)

(** The collection on the warehouse instance, if loaded, is the set of its
    rows in the transaction. *)
Definition collection_current (w : Warehouse.t) (t : Database) (ls : list (uuid * list uuid))
  : Prop :=
  assoc (Warehouse.id w) ls = None
  \/ assoc (Warehouse.id w) ls = Some (map StockPosition.id (stock_of t (Warehouse.id w))).

Lemma capacity_seen_current w t ls :
  stock_keys_unique t -> collection_current w t ls ->
  capacity_seen w t ls = Warehouse.max_capacity w - stock_sum t (Warehouse.id w).
Proof.
  intros Hnd [E|E]; unfold capacity_seen; rewrite E; [reflexivity|].
  rewrite loaded_members by exact Hnd. reflexivity.
Qed.

Lemma stock_of_incremented_ids t r p j :
  stock_keys_unique t -> In r (stock_positions t) ->
  map StockPosition.id (stock_of (incremented t r p) j)
  = map StockPosition.id (stock_of t j).
Proof.
  intros Hnd Hin. unfold stock_of, incremented. simpl. unfold replace_row.
  rewrite filter_map_in.
  - rewrite map_map. apply map_ext. intros x. simpl.
    destruct (N.eqb_spec (StockPosition.id x) (StockPosition.id r)) as [E|E];
      [symmetry; exact E|reflexivity].
  - intros x Hx. simpl.
    destruct (N.eqb_spec (StockPosition.id x) (StockPosition.id r)) as [E|E];
      [|reflexivity].
    assert (x = r) by (eapply NoDup_map_injective; eauto). subst x. reflexivity.
Qed.

Lemma collection_current_after w t ls r p :
  stock_keys_unique t -> In r (stock_positions t) ->
  collection_current w t ls ->
  collection_current w (incremented t r p) (loaded_after w t ls).
Proof.
  intros Hnd Hin Hc. right. unfold loaded_after.
  rewrite (stock_of_incremented_ids t r p _ Hnd Hin).
  destruct Hc as [E|E]; rewrite E; [|exact E].
  simpl. rewrite N.eqb_refl. reflexivity.
Qed.

Lemma pair_rows_some t i m :
  In (i, m) (map pair_of (stock_positions t)) -> pair_rows t i m <> [].
Proof.
  intros Hin E. exact (pair_rows_none t i m E Hin).
Qed.

Lemma pair_rows_listed t i m :
  pair_rows t i m <> [] -> In (i, m) (map pair_of (stock_positions t)).
Proof.
  intros Hne. destruct (pair_rows t i m) as [|r rest] eqn:E; [contradiction|].
  apply pair_rows_In in E. destruct E as (Hin & Hw & Hm).
  apply in_map_iff. exists r. split; [|exact Hin]. unfold pair_of. congruence.
Qed.

Lemma for_each_increments w ps : forall c t ls s',
  stock_keys_unique t ->
  collection_current w t ls ->
  (forall p, In p ps ->
     pair_rows t (Warehouse.id w) (DeliveryPosition.material_id p) <> []) ->
  for_each ps (delivery.position_body bound w) (clean c t ls) = (Return tt, s') ->
  exists t' ls',
    s' = clean c t' ls'
    /\ List.length (stock_positions t') = List.length (stock_positions t)
    /\ (ps <> [] \/ 0 <= Warehouse.max_capacity w - stock_sum t (Warehouse.id w) ->
        0 <= Warehouse.max_capacity w - stock_sum t' (Warehouse.id w)).
Proof.
  induction ps as [|p ps IH]; intros c t ls s' Hnd Hc Hall; simpl.
  - unfold ret. intros H; inversion H; subst. exists t, ls.
    split; [reflexivity|]. split; [reflexivity|].
    intros [Hne|Hcap]; [contradiction|exact Hcap].
  - unfold bindM. rewrite position_body_clean by exact Hnd.
    rewrite (capacity_seen_current w t ls Hnd Hc).
    destruct (Warehouse.max_capacity w - stock_sum t (Warehouse.id w)
              <? DeliveryPosition.quantity p) eqn:Hcap; [discriminate|].
    apply Z.ltb_ge in Hcap.
    pose proof (Hall p (or_introl eq_refl)) as Hp.
    destruct (pair_rows t (Warehouse.id w) (DeliveryPosition.material_id p))
      as [|r [|r' rest]] eqn:Er; [contradiction| |discriminate].
    pose proof (pair_rows_In _ _ _ _ _ Er) as (Hin & Hw & _).
    assert (Hs : stock_sum (incremented t r p) (Warehouse.id w)
                 = stock_sum t (Warehouse.id w) + DeliveryPosition.quantity p)
      by (eapply stock_sum_incremented; eassumption).
    assert (Hlen : List.length (stock_positions (incremented t r p))
                   = List.length (stock_positions t))
      by (unfold incremented, replace_row; simpl; apply length_map).
    fold (incremented t r p). intros H. apply IH in H.
    + destruct H as (t' & ls' & -> & Hl' & Hcap').
      exists t', ls'. split; [reflexivity|]. split; [rewrite Hl'; exact Hlen|].
      intros _. apply Hcap'. right. rewrite Hs. lia.
    + apply incremented_keys_unique; exact Hnd.
    + apply collection_current_after; assumption.
    + intros p' Hp'. apply pair_rows_some.
      unfold incremented. simpl. rewrite replace_row_pairs by assumption.
      apply pair_rows_listed. apply Hall. right; exact Hp'.
Qed.

(** X21: the capacity bound does hold for deliveries that only add to
    stock positions the warehouse already has.  When every material of an
    accepted delivery with at least one line item had a stock row in the
    warehouse before the call, no row is created, and the capacity
    answered is at least 0: the stock sum is at most max_capacity. *)
Theorem increment_only_delivery_within_capacity db d resp db' :
  stock_keys_unique db ->
  Delivery.positions d <> [] ->
  (forall p, In p (Delivery.positions d) ->
     pair_rows db (Delivery.warehouse_id d) (DeliveryPosition.material_id p) <> []) ->
  process_delivery db d = (Return resp, db') ->
  0 <= WarehouseResponse.capacity resp
  /\ stock_sum db' (Delivery.warehouse_id d) <= WarehouseResponse.max_capacity resp
  /\ List.length (stock_positions db') = List.length (stock_positions db).
Proof.
  intros Hnd Hne Hall H.
  destruct (process_delivery_Return _ _ _ _ Hnd H) as (w & Ew & _ & _ & _ & ->).
  destruct (process_delivery_Return_loop _ _ _ _ Hnd H) as (w2 & ls' & Ew2 & El).
  rewrite Ew in Ew2. inversion Ew2; subst w2; clear Ew2.
  pose proof (warehouse_rows_self _ _ _ Ew) as Hid.
  apply for_each_increments in El.
  - destruct El as (t' & ls2 & E & Hlen & Hcap). inversion E; subst t' ls2; clear E.
    specialize (Hcap (or_introl Hne)). simpl. rewrite <- Hid.
    split; [exact Hcap|]. split; [lia|exact Hlen].
  - exact Hnd.
  - left. reflexivity.
  - intros p Hp. rewrite Hid. apply Hall; exact Hp.
Qed.

Lemma increment_only_delivery_within_capacity_witness :
  let db := snd (process_delivery (test_store 3 true) (test_delivery 0 0)) in
  exists resp db',
    process_delivery db (test_delivery 2 1) = (Return resp, db')
    /\ 0 <= WarehouseResponse.capacity resp
    /\ stock_sum db' 1 <= WarehouseResponse.max_capacity resp
    /\ List.length (stock_positions db') = List.length (stock_positions db).
Proof.
  cbv zeta. eexists; eexists. split; [vm_compute; reflexivity|].
  match goal with
  | |- 0 <= WarehouseResponse.capacity ?resp /\ stock_sum ?db' _ <= _ /\ _ =>
      assert (E : process_delivery
                    (snd (process_delivery (test_store 3 true) (test_delivery 0 0)))
                    (test_delivery 2 1) = (Return resp, db'))
        by (vm_compute; reflexivity);
      apply (increment_only_delivery_within_capacity
               (snd (process_delivery (test_store 3 true) (test_delivery 0 0)))
               (test_delivery 2 1) resp db')
  end.
  - vm_compute. constructor; [intros [H|[]]; discriminate|].
    constructor; [intros []|constructor].
  - discriminate.
  - intros p [<-|[<-|[]]]; vm_compute; discriminate.
  - exact E.
Defined.
